(** * Technical signal and backtesting engine of the stock-prediction product

    A shallow embedding of
      - [src/sites/echo/src/scrapers/stock_data.py]   (class [TechnicalIndicators]),
      - [src/sites/echo/src/analysis/technical.py]    (class [TechnicalAnalyzer]),
      - [src/sites/echo/src/backtesting/backtester.py] (class [Backtester]),
      - [src/sites/echo/src/prediction/engine.py]     (the action, the
        confidence and the price targets of [PredictionEngine]),
    followed by the properties of the specification that they satisfy and by
    further properties of the same code.

    Numbers.  The Python code computes with IEEE-754 doubles held in pandas
    series.  Here a double is an exact rational or one of the three special
    values NaN, +inf, -inf.  The special values follow the IEEE rules that the
    code relies on (NaN propagates and compares false with everything, a
    non-zero number divided by zero is an infinity, zero divided by zero is
    NaN); rounding of finite results and the sign of zero are not modelled.
    A property that rounding or overflow could break is stated with room for
    them: it assumes ordinary prices (numbers from 10^-100 to 10^100),
    volumes that are share counts, or scores between 0 and 1, and it bounds
    a quotient up to its rounding, so that it holds of the doubles of the
    code as it holds of the rationals here.

    Effects.  The price history provider is a function from symbols to what it
    hands over; an [async def] that can raise returns an [Outcome].  The loop
    of [_backtest_symbol] is a fold of [bar_step] over the bar positions, on
    the loop variables [LoopState].  A failure of a symbol is caught by the
    run; the computation of the metrics is modelled where it returns, and
    the properties of the result of a run are stated of a run that returns.

    Layout.  The embedding, the vocabulary of the specification and the sample
    data come first; the properties follow, those that do not involve the
    square root before those that do; the last part evaluates the theorems on
    the sample data. *)

From Stdlib Require Import String QArith Qabs Qminmax ZArith Bool Arith List Lia Lqa.
From Stdlib Require Import Permutation Sorted.
Import ListNotations.

Set Implicit Arguments.

(** ** Floating-point values *)

Inductive float : Type :=
| NaN
| PInf
| NInf
| Fin (q : Q).

Declare Scope float_scope.
Delimit Scope float_scope with float.
Bind Scope float_scope with float.

Coercion Fin : Q >-> float.

Definition Qlt_bool (a b : Q) : bool := negb (Qle_bool b a).

Definition is_finite (x : float) : bool :=
  match x with Fin _ => true | _ => false end.

(** [pd.isna] *)
Definition isna (x : float) : bool :=
  match x with NaN => true | _ => false end.

Definition fneg (x : float) : float :=
  match x with
  | NaN => NaN
  | PInf => NInf
  | NInf => PInf
  | Fin q => Fin (- q)
  end.

Definition fabs (x : float) : float :=
  match x with
  | NaN => NaN
  | PInf | NInf => PInf
  | Fin q => Fin (Qabs q)
  end.

Definition fadd (x y : float) : float :=
  match x, y with
  | NaN, _ | _, NaN => NaN
  | PInf, NInf | NInf, PInf => NaN
  | PInf, _ | _, PInf => PInf
  | NInf, _ | _, NInf => NInf
  | Fin a, Fin b => Fin (a + b)
  end.

Definition fsub (x y : float) : float := fadd x (fneg y).

(** The infinity whose sign is that of [q] times the sign of [pos]; NaN for
    [q] zero (inf * 0). *)
Definition inf_signed (pos : bool) (q : Q) : float :=
  if Qeq_bool q 0 then NaN
  else if Bool.eqb pos (Qlt_bool 0 q) then PInf else NInf.

Definition fmul (x y : float) : float :=
  match x, y with
  | NaN, _ | _, NaN => NaN
  | Fin a, Fin b => Fin (a * b)
  | Fin a, PInf | PInf, Fin a => inf_signed true a
  | Fin a, NInf | NInf, Fin a => inf_signed false a
  | PInf, PInf | NInf, NInf => PInf
  | PInf, NInf | NInf, PInf => NInf
  end.

(** numpy division: no exception, [x / 0] is an infinity of the sign of [x]
    and [0 / 0] is NaN. *)
Definition fdiv (x y : float) : float :=
  match x, y with
  | NaN, _ | _, NaN => NaN
  | (PInf | NInf), (PInf | NInf) => NaN
  | Fin _, (PInf | NInf) => Fin 0
  | PInf, Fin b => if Qlt_bool b 0 then NInf else PInf
  | NInf, Fin b => if Qlt_bool b 0 then PInf else NInf
  | Fin a, Fin b =>
      if Qeq_bool b 0 then
        if Qeq_bool a 0 then NaN
        else if Qlt_bool 0 a then PInf else NInf
      else Fin (a / b)
  end.

(** Comparisons: every comparison with NaN is false. *)
Definition flt (x y : float) : bool :=
  match x, y with
  | NaN, _ | _, NaN => false
  | _, NInf => false
  | NInf, _ => true
  | PInf, _ => false
  | Fin _, PInf => true
  | Fin a, Fin b => Qlt_bool a b
  end.

Definition fle (x y : float) : bool :=
  match x, y with
  | NaN, _ | _, NaN => false
  | NInf, _ => true
  | _, PInf => true
  | _, NInf => false
  | PInf, Fin _ => false
  | Fin a, Fin b => Qle_bool a b
  end.

Definition fgt (x y : float) : bool := flt y x.
Definition fge (x y : float) : bool := fle y x.

(** Python [x != y] on floats. *)
Definition fne (x y : float) : bool :=
  match x, y with
  | NaN, _ | _, NaN => true
  | PInf, PInf | NInf, NInf => false
  | Fin a, Fin b => negb (Qeq_bool a b)
  | _, _ => true
  end.

(** Python's builtin [min(a, b)]: [b] when [b < a], otherwise [a]. *)
Definition py_min (a b : float) : float := if flt b a then b else a.

(** Python's builtin [max(a, b)]: [b] when [b > a], otherwise [a]. *)
Definition py_max (a b : float) : float := if fgt b a then b else a.

(** Two floats denote the same value (the rational is compared up to
    [Qeq]; NaN is the same value as NaN). *)
Definition feq (x y : float) : Prop :=
  match x, y with
  | NaN, NaN | PInf, PInf | NInf, NInf => True
  | Fin a, Fin b => a == b
  | _, _ => False
  end.

Definition feqb (x y : float) : bool :=
  match x, y with
  | NaN, NaN | PInf, PInf | NInf, NInf => true
  | Fin a, Fin b => Qeq_bool a b
  | _, _ => false
  end.

Notation "x + y" := (fadd x y) : float_scope.
Notation "x - y" := (fsub x y) : float_scope.
Notation "x * y" := (fmul x y) : float_scope.
Notation "x / y" := (fdiv x y) : float_scope.
Notation "- x" := (fneg x) : float_scope.
Notation "x <? y" := (flt x y) : float_scope.
Notation "x <=? y" := (fle x y) : float_scope.
Notation "x >? y" := (fgt x y) (at level 70) : float_scope.
Notation "x >=? y" := (fge x y) (at level 70) : float_scope.
Notation "x =f= y" := (feq x y) (at level 70) : float_scope.

(** Python [int] to [float]. *)
Definition of_nat (n : nat) : float := Fin (inject_Z (Z.of_nat n)).
Definition of_Z (z : Z) : float := Fin (inject_Z z).

(** ** pandas series *)

(** A [pd.Series] of doubles, by position.  NaN is pandas' missing value,
    the "undefined" entry of an indicator series. *)
Definition Series := list float.

(** [s.iloc[i]] for a position inside the series. *)
Definition iloc (s : Series) (i : nat) : float := nth i s NaN.

(** [s.iloc[-k]] for [1 <= k <= len(s)]. *)
Definition iloc_neg (s : Series) (k : nat) : float := nth (length s - k) s NaN.

(** Element-wise binary operation of two series on the same index. *)
Definition zip_with (f : float -> float -> float) (a b : Series) : Series :=
  map (fun p => f (fst p) (snd p)) (combine a b).

(** [s.shift()]: every value moves one position down, the first is missing. *)
Definition shift (s : Series) : Series :=
  match s with
  | [] => []
  | _ :: _ => NaN :: removelast s
  end.

(** [s.diff()] is [s - s.shift()]. *)
Definition diff (s : Series) : Series := zip_with fsub s (shift s).

(** [s.where(cond, other)]: keep the value where [cond] holds, else [other]. *)
Definition where_ (cond : float -> bool) (other : float) (s : Series) : Series :=
  map (fun x => if cond x then x else other) s.

(** The values of a window when all of them are finite.  pandas' rolling
    functions first turn infinities into missing values, and a window with a
    missing value has fewer than [min_periods = window] observations. *)
Fixpoint finite_values (l : list float) : option (list Q) :=
  match l with
  | [] => Some []
  | Fin q :: l' =>
      match finite_values l' with
      | Some qs => Some (q :: qs)
      | None => None
      end
  | _ :: _ => None
  end.

(** The trailing window of [w] positions ending at position [i]. *)
Definition window (w i : nat) (s : Series) : Series :=
  firstn w (skipn (S i - w) s).

(** [s.rolling(window=w).agg()] with the default [min_periods = w]:
    position [i] is missing unless the [w] positions ending at [i] exist and
    all hold a number. *)
Definition rolling (agg : list Q -> float) (w : nat) (s : Series) : Series :=
  map (fun i =>
         if S i <? w then NaN
         else match finite_values (window w i s) with
              | Some qs => agg qs
              | None => NaN
              end)
      (seq 0 (length s)).

Definition Qsum (l : list Q) : Q := fold_right Qplus 0 l.

Definition Qlen (l : list Q) : Q := inject_Z (Z.of_nat (length l)).

Definition agg_mean (l : list Q) : float := fdiv (Fin (Qsum l)) (Fin (Qlen l)).

Definition agg_min (l : list Q) : float :=
  match l with
  | [] => NaN
  | x :: l' => Fin (fold_left Qmin l' x)
  end.

Definition agg_max (l : list Q) : float :=
  match l with
  | [] => NaN
  | x :: l' => Fin (fold_left Qmax l' x)
  end.

(** Sample variance ([ddof = 1]); missing for fewer than two observations. *)
Definition Qvariance (l : list Q) : Q :=
  let m := Qsum l / Qlen l in
  Qsum (map (fun x => (x - m) * (x - m)) l) / (Qlen l - 1).

(** [skipna] row maximum of [pd.concat([...], axis=1).max(axis=1)]. *)
Fixpoint row_max (l : list float) : float :=
  match l with
  | [] => NaN
  | x :: l' =>
      let m := row_max l' in
      if isna x then m
      else if isna m then x
      else if flt x m then m else x
  end.

Definition zip3_with (f : float -> float -> float -> float)
    (a b c : Series) : Series :=
  map (fun p => f (fst (fst p)) (snd (fst p)) (snd p)) (combine (combine a b) c).

(** State of the exponentially weighted mean: the running value and the
    weight of the past. *)
Definition ewm_step (alpha : Q) (st : float * float) (cur : float)
    : float * float :=
  let '(weighted, old_wt) := st in
  if isna weighted then
    (if isna cur then weighted else cur, old_wt)
  else
    let old_wt := fmul old_wt (Fin (1 - alpha)) in
    if isna cur then (weighted, old_wt)
    else
      let weighted :=
        if fne weighted cur then
          fdiv (fadd (fmul old_wt weighted) (fmul (Fin alpha) cur))
               (fadd old_wt (Fin alpha))
        else weighted in
      (weighted, Fin 1).

Fixpoint ewm_scan (alpha : Q) (st : float * float) (s : Series) : Series :=
  match s with
  | [] => []
  | cur :: s' =>
      let st' := ewm_step alpha st cur in
      fst st' :: ewm_scan alpha st' s'
  end.

(** [s.ewm(span=span, adjust=False).mean()]: [alpha = 2 / (span + 1)],
    [y_0 = x_0] and [y_t = (1 - alpha) y_(t-1) + alpha x_t]; a missing
    input repeats the last value and lets the weight of the past decay. *)
Definition ewm_mean (span : nat) (s : Series) : Series :=
  match s with
  | [] => []
  | x0 :: s' =>
      x0 :: ewm_scan (2 / (inject_Z (Z.of_nat span) + 1)) (x0, Fin 1) s'
  end.

(** [s.cumsum()]: missing values are skipped and stay missing. *)
Fixpoint cumsum_from (acc : float) (s : Series) : Series :=
  match s with
  | [] => []
  | x :: s' =>
      if isna x then NaN :: cumsum_from acc s'
      else let acc' := fadd acc x in acc' :: cumsum_from acc' s'
  end.

Definition cumsum (s : Series) : Series := cumsum_from (Fin 0) s.

(** ** Bars and data frames *)

(** One row of the OHLCV frame; [b_date] is the index label, as a day
    number. *)
Record Bar : Type := {
  b_date : Z;
  b_open : float;
  b_high : float;
  b_low : float;
  b_close : float;
  b_volume : float
}.

Record MACD : Type := {
  macd_line : Series;
  signal_line : Series;
  histogram : Series
}.

Record Bollinger : Type := {
  upper : Series;
  middle : Series;
  lower : Series
}.

Record Stochastic : Type := {
  stoch_K : Series;
  stoch_D : Series
}.

Definition cut_bollinger (n : nat) (b : Bollinger) : Bollinger :=
  {| upper := firstn n (upper b);
     middle := firstn n (middle b);
     lower := firstn n (lower b) |}.

(** A [pd.DataFrame]: the OHLCV rows and the indicator columns, each of which
    is present or not (["atr_14" in df.columns]); the three Bollinger columns
    [bb_upper], [bb_middle], [bb_lower] are added together and are one
    field.  [datetime_index] tells
    whether the index labels are timestamps ([hasattr(date, 'day')]). *)
Record DataFrame : Type := {
  rows : list Bar;
  datetime_index : bool;
  sma_20 : option Series;
  sma_50 : option Series;
  sma_200 : option Series;
  ema_12 : option Series;
  ema_26 : option Series;
  rsi_14 : option Series;
  macd : option Series;
  macd_signal : option Series;
  macd_histogram : option Series;
  bb : option Bollinger;
  atr_14 : option Series;
  stoch_k : option Series;
  stoch_d : option Series;
  obv : option Series
}.

(** A frame as the price history provider returns it: no indicator column. *)
Definition raw_frame (bars : list Bar) (dt : bool) : DataFrame :=
  {| rows := bars; datetime_index := dt;
     sma_20 := None; sma_50 := None; sma_200 := None;
     ema_12 := None; ema_26 := None; rsi_14 := None;
     macd := None; macd_signal := None; macd_histogram := None;
     bb := None;
     atr_14 := None; stoch_k := None; stoch_d := None; obv := None |}.

Definition col_close (df : DataFrame) : Series := map b_close (rows df).
Definition col_high (df : DataFrame) : Series := map b_high (rows df).
Definition col_low (df : DataFrame) : Series := map b_low (rows df).
Definition col_volume (df : DataFrame) : Series := map b_volume (rows df).
Definition index (df : DataFrame) : list Z := map b_date (rows df).

(** [len(df)] *)
Definition len (df : DataFrame) : nat := length (rows df).

(** [df.iloc[:n]]: the first [n] rows of every column. *)
Definition iloc_head (n : nat) (df : DataFrame) : DataFrame :=
  let cut := option_map (firstn n) in
  {| rows := firstn n (rows df); datetime_index := datetime_index df;
     sma_20 := cut (sma_20 df); sma_50 := cut (sma_50 df);
     sma_200 := cut (sma_200 df);
     ema_12 := cut (ema_12 df); ema_26 := cut (ema_26 df);
     rsi_14 := cut (rsi_14 df);
     macd := cut (macd df); macd_signal := cut (macd_signal df);
     macd_histogram := cut (macd_histogram df);
     bb := option_map (cut_bollinger n) (bb df);
     atr_14 := cut (atr_14 df); stoch_k := cut (stoch_k df);
     stoch_d := cut (stoch_d df); obv := cut (obv df) |}.

(** What the price history provider hands over for a symbol: nothing, a
    frame, or something on which the computation raises (for instance a
    frame without the price columns). *)
Inductive History : Type :=
| NoHistory
| Unusable
| Frame (df : DataFrame).

(** An [async def] that returns a value or raises. *)
Inductive Outcome (A : Type) : Type :=
| Raised
| Returned (a : A).

Arguments Raised {A}.
Arguments Returned {A} a.

Section Engine.

(** The square root of the platform, on the numbers it is applied to. *)
Variable sqrtQ : Q -> Q.

Definition agg_std (l : list Q) : float :=
  if (length l <=? 1)%nat then NaN else Fin (sqrtQ (Qvariance l)).

(** ** class TechnicalIndicators (stock_data.py) *)

Definition calculate_sma (data : Series) (period : nat) : Series :=
  rolling agg_mean period data.

Definition calculate_ema (data : Series) (period : nat) : Series :=
  ewm_mean period data.

(** The two rolling means of [calculate_rsi]: the trailing average gain and
    the trailing average loss. *)
Definition rsi_gain (data : Series) (period : nat) : Series :=
  rolling agg_mean period (where_ (fun d => fgt d (Fin 0)) (Fin 0) (diff data)).

Definition rsi_loss (data : Series) (period : nat) : Series :=
  rolling agg_mean period
    (map fneg (where_ (fun d => flt d (Fin 0)) (Fin 0) (diff data))).

Definition calculate_rsi (data : Series) (period : nat) : Series :=
  let gain := rsi_gain data period in
  let loss := rsi_loss data period in
  let rs := zip_with fdiv gain loss in
  map (fun r => fsub (Fin 100) (fdiv (Fin 100) (fadd (Fin 1) r))) rs.

Definition calculate_macd (data : Series) (fast slow signal : nat) : MACD :=
  let ema_fast := ewm_mean fast data in
  let ema_slow := ewm_mean slow data in
  let macd_line := zip_with fsub ema_fast ema_slow in
  let signal_line := ewm_mean signal macd_line in
  {| macd_line := macd_line;
     signal_line := signal_line;
     histogram := zip_with fsub macd_line signal_line |}.

Definition calculate_bollinger_bands (data : Series) (period : nat)
    (std_dev : float) : Bollinger :=
  let sma := rolling agg_mean period data in
  let std := rolling agg_std period data in
  {| upper := zip_with fadd sma (map (fun s => fmul s std_dev) std);
     middle := sma;
     lower := zip_with fsub sma (map (fun s => fmul s std_dev) std) |}.

Definition true_range (high low close : Series) : Series :=
  let tr1 := zip_with fsub high low in
  let tr2 := map fabs (zip_with fsub high (shift close)) in
  let tr3 := map fabs (zip_with fsub low (shift close)) in
  zip3_with (fun a b c => row_max [a; b; c]) tr1 tr2 tr3.

Definition calculate_atr (high low close : Series) (period : nat) : Series :=
  rolling agg_mean period (true_range high low close).

Definition calculate_stochastic (high low close : Series)
    (k_period d_period : nat) : Stochastic :=
  let lowest_low := rolling agg_min k_period low in
  let highest_high := rolling agg_max k_period high in
  let k := zip3_with
             (fun c ll hh => fdiv (fmul (Fin 100) (fsub c ll)) (fsub hh ll))
             close lowest_low highest_high in
  {| stoch_K := k; stoch_D := rolling agg_mean d_period k |}.

Definition obv_direction (x : float) : float :=
  if fgt x (Fin 0) then Fin 1 else if flt x (Fin 0) then Fin (-1) else Fin 0.

Definition calculate_obv (close volume : Series) : Series :=
  cumsum (zip_with fmul volume (map obv_direction (diff close))).

Definition calculate_all_indicators (df : DataFrame) : DataFrame :=
  let close := col_close df in
  let high := col_high df in
  let low := col_low df in
  let volume := col_volume df in
  let macd := calculate_macd close 12 26 9 in
  let bb := calculate_bollinger_bands close 20 (Fin 2) in
  let stoch := calculate_stochastic high low close 14 3 in
  {| rows := rows df; datetime_index := datetime_index df;
     sma_20 := Some (calculate_sma close 20);
     sma_50 := Some (calculate_sma close 50);
     sma_200 := Some (calculate_sma close 200);
     ema_12 := Some (calculate_ema close 12);
     ema_26 := Some (calculate_ema close 26);
     rsi_14 := Some (calculate_rsi close 14);
     macd := Some (macd_line macd);
     macd_signal := Some (signal_line macd);
     macd_histogram := Some (histogram macd);
     bb := Some bb;
     atr_14 := Some (calculate_atr high low close 14);
     stoch_k := Some (stoch_K stoch);
     stoch_d := Some (stoch_D stoch);
     obv := match volume with
            | [] => obv df
            | _ :: _ => Some (calculate_obv close volume)
            end |}.

(** ** class TechnicalAnalyzer (technical.py) *)

Inductive Signal : Type :=
| STRONG_BUY
| BUY
| HOLD
| SELL
| STRONG_SELL.

Record TechnicalSignal : Type := {
  indicator : string;
  value : float;
  signal : Signal;
  strength : float;
  description : string
}.

Definition is_buy (s : TechnicalSignal) : bool :=
  match signal s with BUY | STRONG_BUY => true | _ => false end.

Definition is_sell (s : TechnicalSignal) : bool :=
  match signal s with SELL | STRONG_SELL => true | _ => false end.

(** [sum(1 for x in l if p(x))] *)
Definition count_if {A : Type} (p : A -> bool) (l : list A) : nat :=
  length (filter p l).

Definition _calculate_confidence (signals : list TechnicalSignal) : float :=
  match signals with
  | [] => Fin 0.5
  | _ :: _ =>
      let buy_signals := count_if is_buy signals in
      let sell_signals := count_if is_sell signals in
      let total := length signals in
      let max_agreement := Nat.max buy_signals sell_signals in
      let agreement_ratio := fdiv (of_nat max_agreement) (of_nat total) in
      py_min (Fin 0.95) (fadd (Fin 0.4) (fmul agreement_ratio (Fin 0.5)))
  end.

(** Python's [sorted] with the order [le]. *)
Fixpoint insert_by (le : float -> float -> bool) (x : float) (l : list float)
    : list float :=
  match l with
  | [] => [x]
  | y :: l' => if le x y then x :: l else y :: insert_by le x l'
  end.

Definition sort_by (le : float -> float -> bool) (l : list float) : list float :=
  fold_right (insert_by le) [] l.

(** [sorted(l)] and [sorted(l, reverse=True)] *)
Definition sorted_asc (l : list float) : list float := sort_by fle l.
Definition sorted_desc (l : list float) : list float := sort_by fge l.

Definition dropna (s : Series) : Series := filter (fun x => negb (isna x)) s.

(** [s.nlargest(n).values] and [s.nsmallest(n).values]: missing values are
    dropped, the largest (smallest) first. *)
Definition nlargest (n : nat) (s : Series) : list float :=
  firstn n (sorted_desc (dropna s)).

Definition nsmallest (n : nat) (s : Series) : list float :=
  firstn n (sorted_asc (dropna s)).

(** [s.iloc[-n:]] *)
Definition iloc_tail (n : nat) (s : Series) : Series :=
  skipn (length s - n) s.

(** Returns [(support, resistance)].  The frame has at least one row
    ([analyze] requires twenty). *)
Definition _find_support_resistance (df : DataFrame) (num_levels : nat)
    : list float * list float :=
  let current_price := iloc_neg (col_close df) 1 in
  let recent_highs := nlargest (num_levels * 2) (iloc_tail 50 (col_high df)) in
  let recent_lows := nsmallest (num_levels * 2) (iloc_tail 50 (col_low df)) in
  let resistance :=
    firstn num_levels
      (sorted_asc (filter (fun h => fgt h current_price) recent_highs)) in
  let support :=
    firstn num_levels
      (sorted_desc (filter (fun l => flt l current_price) recent_lows)) in
  (support, resistance).

(** ** Backtesting (backtester.py) *)

Record BacktestTrade : Type := {
  symbol : string;
  entry_date : Z;
  entry_price : float;
  exit_date : option Z;
  exit_price : option float;
  action : string;
  target_price : float;
  stop_loss : float;
  return_percent : float;
  profit_loss : float;
  hit_target : bool;
  hit_stop_loss : bool;
  confidence : float;
  technical_score : float
}.

Definition is_profitable (t : BacktestTrade) : bool :=
  fgt (return_percent t) (Fin 0).

(** Python's [sum] of floats. *)
Definition py_sum (l : list float) : float := fold_left fadd l (Fin 0).

(** [statistics.mean] of a non-empty list. *)
Definition mean (l : list float) : float := fdiv (py_sum l) (of_nat (length l)).

(** [statistics.stdev] of at least two values. *)
Definition stdev (l : list float) : float :=
  match finite_values l with
  | Some qs => Fin (sqrtQ (Qvariance qs))
  | None => NaN
  end.

(** *** Strategies: each returns [(signal, confidence)] *)

Definition option_last (c : option Series) : option float :=
  option_map (fun s => iloc_neg s 1) c.

Definition technical_rsi_vote (df : DataFrame) : list (string * float) :=
  match option_last (rsi_14 df) with
  | Some rsi =>
      if negb (isna rsi) then
        if flt rsi (Fin 30) then [("buy"%string, Fin 0.8)]
        else if fgt rsi (Fin 70) then [("sell"%string, Fin 0.8)]
        else [("hold"%string, Fin 0.5)]
      else []
  | None => []
  end.

Definition technical_macd_vote (df : DataFrame) : list (string * float) :=
  match option_last (macd df), option_last (macd_signal df) with
  | Some m, Some ms =>
      if negb (isna m) && negb (isna ms) then
        if fgt m ms then [("buy"%string, Fin 0.7)]
        else [("sell"%string, Fin 0.7)]
      else []
  | _, _ => []
  end.

Definition technical_sma_vote (df : DataFrame) (current_price : float)
    : list (string * float) :=
  match option_last (sma_20 df), option_last (sma_50 df) with
  | Some s20, Some s50 =>
      if negb (isna s20) && negb (isna s50) then
        if fgt current_price s20 && fgt s20 s50 then [("buy"%string, Fin 0.75)]
        else if flt current_price s20 && flt s20 s50
             then [("sell"%string, Fin 0.75)]
        else []
      else []
  | _, _ => []
  end.

Definition votes_for (s : string) (signals : list (string * float))
    : list (string * float) :=
  filter (fun p => String.eqb (fst p) s) signals.

Definition _technical_strategy_signal (df : DataFrame) (current_price : float)
    : string * float :=
  let signals :=
    technical_rsi_vote df ++ technical_macd_vote df
      ++ technical_sma_vote df current_price in
  match signals with
  | [] => ("hold"%string, Fin 0.5)
  | _ :: _ =>
      let buy_count := length (votes_for "buy" signals) in
      let sell_count := length (votes_for "sell" signals) in
      if (sell_count <? buy_count)%nat then
        ("buy"%string, mean (map snd (votes_for "buy" signals)))
      else if (buy_count <? sell_count)%nat then
        ("sell"%string, mean (map snd (votes_for "sell" signals)))
      else ("hold"%string, Fin 0.5)
  end.

Definition _momentum_strategy_signal (df : DataFrame) : string * float :=
  if (len df <? 20)%nat then ("hold"%string, Fin 0.5)
  else
    let close := col_close df in
    let roc_10 :=
      fmul (fsub (fdiv (iloc_neg close 1) (iloc_neg close 10)) (Fin 1)) (Fin 100) in
    let roc_20 :=
      fmul (fsub (fdiv (iloc_neg close 1) (iloc_neg close 20)) (Fin 1)) (Fin 100) in
    if fgt roc_10 (Fin 5) && fgt roc_20 (Fin 10) then ("buy"%string, Fin 0.8)
    else if flt roc_10 (Fin (-5)) && flt roc_20 (Fin (-10))
         then ("sell"%string, Fin 0.8)
    else if fgt roc_10 (Fin 2) then ("buy"%string, Fin 0.6)
    else if flt roc_10 (Fin (-2)) then ("sell"%string, Fin 0.6)
    else ("hold"%string, Fin 0.5).

Definition _mean_reversion_signal (df : DataFrame) (current_price : float)
    : string * float :=
  match bb df with
  | None => ("hold"%string, Fin 0.5)
  | Some bands =>
      let bb_lower := iloc_neg (lower bands) 1 in
      let bb_upper := iloc_neg (upper bands) 1 in
      let bb_middle := iloc_neg (middle bands) 1 in
      if isna bb_lower then ("hold"%string, Fin 0.5)
      else if fle current_price bb_lower then ("buy"%string, Fin 0.85)
      else if fge current_price bb_upper then ("sell"%string, Fin 0.85)
      else if flt current_price bb_middle then ("buy"%string, Fin 0.55)
      else ("hold"%string, Fin 0.5)
  end.

Definition _get_signal (df : DataFrame) (strategy : string) : string * float :=
  let current_price := iloc_neg (col_close df) 1 in
  if String.eqb strategy "technical" then
    _technical_strategy_signal df current_price
  else if String.eqb strategy "momentum" then _momentum_strategy_signal df
  else if String.eqb strategy "mean_reversion" then
    _mean_reversion_signal df current_price
  else ("hold"%string, Fin 0.5).

(** *** The per-symbol simulation *)

(** The loop variables of [_backtest_symbol].  [in_position] and
    [current_trade] are set and cleared together, so the open position is
    the one optional value: [None] is FLAT, [Some t] is IN_POSITION. *)
Record LoopState : Type := {
  trades : list BacktestTrade;
  current_trade : option BacktestTrade
}.

Definition initial_state : LoopState :=
  {| trades := []; current_trade := None |}.

(** The trade opened at bar [i]: the constructor call and the two target
    assignments. *)
Definition open_trade (sym : string) (df : DataFrame) (i : nat) (date : Z)
    (price conf : float) : BacktestTrade :=
  let atr :=
    match atr_14 df with
    | Some col => iloc col i
    | None => fmul price (Fin 0.02)
    end in
  {| symbol := sym;
     entry_date := date;
     entry_price := price;
     exit_date := None;
     exit_price := None;
     action := "buy";
     target_price := fadd price (fmul atr (Fin 2));
     stop_loss := fsub price (fmul atr (Fin 1.5));
     return_percent := Fin 0;
     profit_loss := Fin 0;
     hit_target := false;
     hit_stop_loss := false;
     confidence := conf;
     technical_score := conf |}.

Definition set_hit_target (t : BacktestTrade) : BacktestTrade :=
  {| symbol := symbol t; entry_date := entry_date t;
     entry_price := entry_price t; exit_date := exit_date t;
     exit_price := exit_price t; action := action t;
     target_price := target_price t; stop_loss := stop_loss t;
     return_percent := return_percent t; profit_loss := profit_loss t;
     hit_target := true; hit_stop_loss := hit_stop_loss t;
     confidence := confidence t; technical_score := technical_score t |}.

Definition set_hit_stop_loss (t : BacktestTrade) : BacktestTrade :=
  {| symbol := symbol t; entry_date := entry_date t;
     entry_price := entry_price t; exit_date := exit_date t;
     exit_price := exit_price t; action := action t;
     target_price := target_price t; stop_loss := stop_loss t;
     return_percent := return_percent t; profit_loss := profit_loss t;
     hit_target := hit_target t; hit_stop_loss := true;
     confidence := confidence t; technical_score := technical_score t |}.

(** The assignments under [if should_exit]. *)
Definition close_trade (position_size : float) (date : Z) (price : float)
    (t : BacktestTrade) : BacktestTrade :=
  let ret :=
    fmul (fdiv (fsub price (entry_price t)) (entry_price t)) (Fin 100) in
  {| symbol := symbol t; entry_date := entry_date t;
     entry_price := entry_price t;
     exit_date := Some date;
     exit_price := Some price;
     action := action t;
     target_price := target_price t; stop_loss := stop_loss t;
     return_percent := ret;
     profit_loss := fdiv (fmul position_size ret) (Fin 100);
     hit_target := hit_target t; hit_stop_loss := hit_stop_loss t;
     confidence := confidence t; technical_score := technical_score t |}.

(** The locals of the exit branch. *)
Record ExitCheck : Type := {
  should_exit : bool;
  exit_reason : string;
  checked : BacktestTrade
}.

(** [if price >= target: ... elif price <= stop_loss: ...] *)
Definition check_target_stop (price : float) (t : BacktestTrade) : ExitCheck :=
  if fge price (target_price t) then
    {| should_exit := true; exit_reason := "target";
       checked := set_hit_target t |}
  else if fle price (stop_loss t) then
    {| should_exit := true; exit_reason := "stop_loss";
       checked := set_hit_stop_loss t |}
  else {| should_exit := false; exit_reason := ""; checked := t |}.

(** [if signal == "sell": ...] *)
Definition check_signal (sig : string) (c : ExitCheck) : ExitCheck :=
  if String.eqb sig "sell" then
    {| should_exit := true; exit_reason := "signal"; checked := checked c |}
  else c.

(** [if holding_days > 30: ...] *)
Definition check_timeout (holding_days : Z) (c : ExitCheck) : ExitCheck :=
  if (30 <? holding_days)%Z then
    {| should_exit := true; exit_reason := "timeout"; checked := checked c |}
  else c.

(** [(date - entry_date).days if hasattr(date, 'day') else i] *)
Definition holding_days_at (df : DataFrame) (i : nat) (date : Z)
    (t : BacktestTrade) : Z :=
  if datetime_index df then (date - entry_date t)%Z else Z.of_nat i.

Definition exit_check (df : DataFrame) (strategy : string) (i : nat)
    (date : Z) (price : float) (t : BacktestTrade) : ExitCheck :=
  let c := check_target_stop price t in
  let sig := fst (_get_signal (iloc_head (i + 1) df) strategy) in
  let c := check_signal sig c in
  check_timeout (holding_days_at df i date t) c.

(** One iteration of [for i in range(50, len(df))]. *)
Definition bar_step (sym : string) (df : DataFrame) (position_size : float)
    (strategy : string) (st : LoopState) (i : nat) : LoopState :=
  let date := nth i (index df) 0%Z in
  let price := iloc (col_close df) i in
  match current_trade st with
  | None =>
      let '(sig, conf) := _get_signal (iloc_head (i + 1) df) strategy in
      if String.eqb sig "buy" && fgt conf (Fin 0.6) then
        {| trades := trades st;
           current_trade := Some (open_trade sym df i date price conf) |}
      else st
  | Some t =>
      let c := exit_check df strategy i date price t in
      if should_exit c then
        {| trades := trades st ++ [close_trade position_size date price (checked c)];
           current_trade := None |}
      else {| trades := trades st; current_trade := Some (checked c) |}
  end.

(** The loop variables at the start of iteration [i] of
    [for i in range(50, len(df))]. *)
Definition state_before (sym : string) (df : DataFrame) (position_size : float)
    (strategy : string) (i : nat) : LoopState :=
  fold_left (bar_step sym df position_size strategy)
            (seq 50 (i - 50)) initial_state.

(** The whole loop over the bars [50 .. len(df) - 1]. *)
Definition simulate (sym : string) (df : DataFrame) (position_size : float)
    (strategy : string) : LoopState :=
  state_before sym df position_size strategy (len df).

Definition _backtest_symbol (get_historical_data : string -> History)
    (sym : string) (position_size : float) (strategy : string)
    : Outcome (list BacktestTrade) :=
  match get_historical_data sym with
  | Unusable => Raised
  | NoHistory => Returned []
  | Frame df =>
      if (len df <? 50)%nat then Returned []
      else
        let df := calculate_all_indicators df in
        Returned (trades (simulate sym df position_size strategy))
  end.

(** *** Results and metrics *)

(** [annualized_return_percent] (a real power) and [performance_by_symbol]
    are left out of the record: no property below reads them. *)
Record BacktestResult : Type := {
  start_date : Z;
  end_date : Z;
  symbols_tested : list string;
  initial_capital : float;
  result_trades : list BacktestTrade;
  total_return_percent : float;
  win_rate : float;
  average_return : float;
  average_win : float;
  average_loss : float;
  max_drawdown_percent : float;
  sharpe_ratio : float;
  sortino_ratio : float;
  profit_factor : float;
  total_trades : nat;
  winning_trades : nat;
  losing_trades : nat;
  best_trade : option BacktestTrade;
  worst_trade : option BacktestTrade
}.

(** The dataclass defaults, with the four constructor arguments of
    [run_backtest]. *)
Definition new_result (start_d end_d : Z) (symbols : list string)
    (capital : float) : BacktestResult :=
  {| start_date := start_d; end_date := end_d;
     symbols_tested := symbols; initial_capital := capital;
     result_trades := [];
     total_return_percent := Fin 0;
     win_rate := Fin 0;
     average_return := Fin 0;
     average_win := Fin 0;
     average_loss := Fin 0;
     max_drawdown_percent := Fin 0;
     sharpe_ratio := Fin 0;
     sortino_ratio := Fin 0;
     profit_factor := Fin 0;
     total_trades := 0;
     winning_trades := 0;
     losing_trades := 0;
     best_trade := None;
     worst_trade := None |}.

(** The running sums [cumulative] of the drawdown computation. *)
Fixpoint cumulative_from (total : float) (returns : list float) : list float :=
  match returns with
  | [] => []
  | r :: returns' =>
      let total := fadd total r in
      total :: cumulative_from total returns'
  end.

Definition cumulative (returns : list float) : list float :=
  cumulative_from (Fin 0) returns.

(** One iteration of [for value in cumulative] on [(peak, max_dd)]. *)
Definition drawdown_step (st : float * float) (value : float) : float * float :=
  let '(peak, max_dd) := st in
  let peak := if fgt value peak then value else peak in
  let dd := fsub peak value in
  let max_dd := if fgt dd max_dd then dd else max_dd in
  (peak, max_dd).

Definition max_drawdown (returns : list float) : float :=
  let cum := cumulative returns in
  snd (fold_left drawdown_step cum (hd NaN cum, Fin 0)).

(** [max(trades, key=lambda t: t.return_percent)]: the first trade whose key
    no later one exceeds; [min] likewise. *)
Definition arg_best (better : float -> float -> bool)
    (l : list BacktestTrade) : option BacktestTrade :=
  match l with
  | [] => None
  | t :: l' =>
      Some (fold_left
              (fun b x =>
                 if better (return_percent x) (return_percent b) then x else b)
              l' t)
  end.

(** The Sharpe ratio is assigned only under the two guards; otherwise the
    field keeps its value [old]. *)
Definition sharpe (returns : list float) (average old : float) : float :=
  if (1 <? length returns)%nat then
    let return_std := stdev returns in
    if fgt return_std (Fin 0) then
      fmul (fdiv average return_std) (Fin (sqrtQ 252))
    else old
  else old.

Definition _calculate_metrics (result : BacktestResult) : BacktestResult :=
  let trades := result_trades result in
  match trades with
  | [] => result
  | _ :: _ =>
      let total_trades := length trades in
      let winning_trades := count_if is_profitable trades in
      let returns := map return_percent trades in
      let winning_returns := map return_percent (filter is_profitable trades) in
      let losing_returns :=
        map return_percent (filter (fun t => negb (is_profitable t)) trades) in
      let average_return := mean returns in
      let gross_profit :=
        py_sum (map profit_loss (filter is_profitable trades)) in
      let gross_loss :=
        fabs (py_sum (map profit_loss
                        (filter (fun t => negb (is_profitable t)) trades))) in
      {| start_date := start_date result; end_date := end_date result;
         symbols_tested := symbols_tested result;
         initial_capital := initial_capital result;
         result_trades := trades;
         total_return_percent := py_sum returns;
         win_rate :=
           fmul (fdiv (of_nat winning_trades) (of_nat total_trades)) (Fin 100);
         average_return := average_return;
         average_win :=
           match winning_returns with [] => Fin 0 | _ => mean winning_returns end;
         average_loss :=
           match losing_returns with [] => Fin 0 | _ => mean losing_returns end;
         max_drawdown_percent := max_drawdown returns;
         sharpe_ratio := sharpe returns average_return (sharpe_ratio result);
         sortino_ratio := sortino_ratio result;
         profit_factor :=
           if fgt gross_loss (Fin 0) then fdiv gross_profit gross_loss else PInf;
         total_trades := total_trades;
         winning_trades := winning_trades;
         losing_trades := total_trades - winning_trades;
         best_trade := arg_best fgt trades;
         worst_trade := arg_best flt trades |}
  end.

(** [all_trades] after the loop over the symbols: a symbol whose simulation
    raises contributes nothing. *)
Fixpoint collect_trades (get_historical_data : string -> History)
    (symbols : list string) (position_size : float) (strategy : string)
    : list BacktestTrade :=
  match symbols with
  | [] => []
  | sym :: symbols' =>
      match _backtest_symbol get_historical_data sym position_size strategy with
      | Returned ts =>
          ts ++ collect_trades get_historical_data symbols' position_size strategy
      | Raised =>
          collect_trades get_historical_data symbols' position_size strategy
      end
  end.

Definition with_trades (result : BacktestResult) (ts : list BacktestTrade)
    : BacktestResult :=
  {| start_date := start_date result; end_date := end_date result;
     symbols_tested := symbols_tested result;
     initial_capital := initial_capital result;
     result_trades := ts;
     total_return_percent := total_return_percent result;
     win_rate := win_rate result;
     average_return := average_return result;
     average_win := average_win result;
     average_loss := average_loss result;
     max_drawdown_percent := max_drawdown_percent result;
     sharpe_ratio := sharpe_ratio result;
     sortino_ratio := sortino_ratio result;
     profit_factor := profit_factor result;
     total_trades := total_trades result;
     winning_trades := winning_trades result;
     losing_trades := losing_trades result;
     best_trade := best_trade result;
     worst_trade := worst_trade result |}.

Definition run_backtest (get_historical_data : string -> History)
    (symbols : list string) (start_d end_d : Z)
    (capital position_size_percent : float) (strategy : string)
    : Outcome BacktestResult :=
  let result := new_result start_d end_d symbols capital in
  let all_trades :=
    collect_trades get_historical_data symbols
      (fdiv (fmul capital position_size_percent) (Fin 100)) strategy in
  match all_trades with
  | [] => Returned result
  | _ :: _ => Returned (_calculate_metrics (with_trades result all_trades))
  end.

End Engine.

(** ** The specification's vocabulary *)

(** The four exit conditions, in the priority order of the specification. *)
Inductive ExitCondition : Type :=
| ByTarget
| ByStopLoss
| BySignal
| ByTimeout.

Definition exit_priority : list ExitCondition :=
  [ByTarget; ByStopLoss; BySignal; ByTimeout].

(** Whether a condition holds for the open trade [t] on bar [i]. *)
Definition exit_matches (df : DataFrame) (strategy : string) (i : nat)
    (t : BacktestTrade) (c : ExitCondition) : bool :=
  let date := nth i (index df) 0%Z in
  let price := iloc (col_close df) i in
  match c with
  | ByTarget => fge price (target_price t)
  | ByStopLoss => fle price (stop_loss t)
  | BySignal =>
      String.eqb (fst (_get_signal (iloc_head (i + 1) df) strategy)) "sell"
  | ByTimeout => (30 <? holding_days_at df i date t)%Z
  end.

(** The first condition of the priority order that holds, if any. *)
Definition first_matching (df : DataFrame) (strategy : string) (i : nat)
    (t : BacktestTrade) : option ExitCondition :=
  find (exit_matches df strategy i t) exit_priority.

(** A trade is closed with position size [ps]: both exit fields are set and
    the outcome is computed from them. *)
Definition closed (ps : float) (t : BacktestTrade) : Prop :=
  exists d p,
    exit_date t = Some d /\ exit_price t = Some p /\
    return_percent t
      = fmul (fdiv (fsub p (entry_price t)) (entry_price t)) (Fin 100) /\
    profit_loss t = fdiv (fmul ps (return_percent t)) (Fin 100).

(** What holds of the position while it is open. *)
Definition open_ok (t : BacktestTrade) : Prop :=
  exit_date t = None /\ exit_price t = None /\
  hit_target t = false /\ hit_stop_loss t = false.

(** What holds of a trade in the list of closed trades. *)
Definition closed_ok (ps : float) (t : BacktestTrade) : Prop :=
  closed ps t /\ (hit_target t && hit_stop_loss t = false).

Definition loop_invariant (ps : float) (st : LoopState) : Prop :=
  Forall (closed_ok ps) (trades st) /\
  (forall t, current_trade st = Some t -> open_ok t).

(** The running sums of a list of returns. *)
Fixpoint running_sum_from (total : Q) (returns : list Q) : list Q :=
  match returns with
  | [] => []
  | r :: returns' => (total + r) :: running_sum_from (total + r) returns'
  end.

Definition running_sum (returns : list Q) : list Q := running_sum_from 0 returns.

(** [d] is the largest peak-to-trough drop of a curve: the largest difference
    between a point and a later (or the same) point. *)
Definition is_largest_drop (curve : list Q) (d : Q) : Prop :=
  (exists i j, (i <= j < length curve)%nat /\ d == nth i curve 0 - nth j curve 0)
  /\ (forall i j, (i <= j < length curve)%nat ->
                  nth i curve 0 - nth j curve 0 <= d).

Definition exit_day (t : BacktestTrade) : Z :=
  match exit_date t with Some d => d | None => 0%Z end.







(** Every position from [w-1] onward holds a number. *)
Definition defined_from (w : nat) (s : Series) : Prop :=
  forall i, (i < length s)%nat -> (w <= S i)%nat -> is_finite (iloc s i) = true.

Definition all_finite (s : Series) : Prop :=
  Forall (fun x => is_finite x = true) s.

(** ** Sample data *)

(** A square root to twelve decimal places. *)
Definition sqrt_approx (q : Q) : Q :=
  Z.sqrt (Qnum q * 10 ^ 24 / Z.pos (Qden q)) # (10 ^ 12).

(** A bar whose four prices are [c], on day [d]. *)
Definition flat_bar (d : nat) (c : Q) : Bar :=
  {| b_date := Z.of_nat d; b_open := Fin c; b_high := Fin c; b_low := Fin c;
     b_close := Fin c; b_volume := Fin 1000 |}.

Definition bars_of (closes : list Q) : list Bar :=
  map (fun p => flat_bar (fst p) (snd p))
      (combine (seq 0 (length closes)) closes).

Definition frame_of (closes : list Q) : DataFrame :=
  raw_frame (bars_of closes) true.

(** Flat at 100, a jump to 120 on day 52 and to 123 on day 53. *)
Definition up_closes : list Q := repeat 100 52 ++ [120; 123].

(** Flat at 100, a jump to 120 on day 50 and a fall to 110 on day 51. *)
Definition down_closes : list Q := repeat 100 50 ++ [120; 110].

(** Flat at 100, a jump to 120 on day 50, 121 on the last day 51. *)
Definition open_closes : list Q := repeat 100 50 ++ [120; 121].

(** Flat at 100, a jump to 120 on day 50, a fall to 110 on day 51 and a jump
    to 130 on the last day 52. *)
Definition reentry_closes : list Q := repeat 100 50 ++ [120; 110; 130].

Definition sample_provider (s : string) : History :=
  if String.eqb s "UP" then Frame (frame_of up_closes)
  else if String.eqb s "DOWN" then Frame (frame_of down_closes)
  else if String.eqb s "OPEN" then Frame (frame_of open_closes)
  else if String.eqb s "AGAIN" then Frame (frame_of reentry_closes)
  else if String.eqb s "SHORT" then Frame (frame_of (repeat 100 10))
  else if String.eqb s "BAD" then Unusable
  else NoHistory.

(** The frame of [down_closes] in which the bar of day 45 has no high and no
    low. *)
Definition gap_bars : list Bar :=
  map (fun b =>
         if (b_date b =? 45)%Z then
           {| b_date := b_date b; b_open := b_open b; b_high := NaN;
              b_low := NaN; b_close := b_close b; b_volume := b_volume b |}
         else b)
      (bars_of down_closes).

Definition gap_frame : DataFrame := raw_frame gap_bars true.

(** Sixteen bars at 100, and sixteen bars rising from 100 by 1 a day. *)
Definition constant_closes : list Q := repeat 100 16.

Definition rising_closes : list Q :=
  map (fun n => inject_Z (Z.of_nat n)) (seq 100 16).

(** Twenty bars: highs from 20 down to 11, six bars at 10, lows 1, 2, 3 and
    a last close of 10. *)
Definition levels_closes : list Q :=
  [20; 19; 18; 17; 16; 15; 14; 13; 12; 11] ++ repeat 10 6 ++ [1; 2; 3; 10].

Definition sample_signal (s : Signal) : TechnicalSignal :=
  {| indicator := "RSI"; value := Fin 25; signal := s; strength := Fin 0.85;
     description := "" |}.

(** ** Further code of the three files

    The rest of [TechnicalAnalyzer], the per-symbol breakdown and the
    [holding_days] property of the backtester, and the price targets that the
    prediction engine derives from the support and resistance levels. *)

(** [signal_values] of [_calculate_category_score] *)
Definition signal_values (s : Signal) : float :=
  match s with
  | STRONG_BUY => Fin 100
  | BUY => Fin 75
  | HOLD => Fin 50
  | SELL => Fin 25
  | STRONG_SELL => Fin 0
  end.

Definition _calculate_category_score (signals : list TechnicalSignal) : float :=
  match signals with
  | [] => Fin 50
  | _ :: _ =>
      let weighted_sum :=
        py_sum (map (fun s => fmul (signal_values (signal s)) (strength s))
                    signals) in
      let total_weight := py_sum (map strength signals) in
      if fgt total_weight (Fin 0) then fdiv weighted_sum total_weight
      else Fin 50
  end.

Definition _score_to_signal (score : float) : Signal :=
  if fge score (Fin 80) then STRONG_BUY
  else if fge score (Fin 60) then BUY
  else if fge score (Fin 40) then HOLD
  else if fge score (Fin 20) then SELL
  else STRONG_SELL.

(** The weighted average of the four category scores in [analyze]. *)
Definition overall_of (trend momentum volatility volume : float) : float :=
  fadd (fadd (fadd (fmul trend (Fin 0.35)) (fmul momentum (Fin 0.30)))
             (fmul volatility (Fin 0.20)))
       (fmul volume (Fin 0.15)).

(** Python's [max] and [min] of a non-empty sequence. *)
Definition py_max_list (l : list float) : float :=
  match l with
  | [] => NaN
  | x :: l' => fold_left py_max l' x
  end.

Definition py_min_list (l : list float) : float :=
  match l with
  | [] => NaN
  | x :: l' => fold_left py_min l' x
  end.

(** [all(rel(l[i], l[i+1]) for i in range(len(l) - 1))] *)
Fixpoint adjacent_all (rel : float -> float -> bool) (l : list float) : bool :=
  match l with
  | x :: ((y :: _) as l') => rel x y && adjacent_all rel l'
  | _ => true
  end.

(** [range(0, stop, 3)] *)
Definition range_by_3 (stop : nat) : list nat :=
  map (fun k => 3 * k)%nat (seq 0 ((stop + 2) / 3)).

(** [prices[i:i+3]] *)
Definition block3 (prices : list float) (i : nat) : list float :=
  firstn 3 (skipn i prices).

Definition _detect_patterns (df : DataFrame) : list string :=
  if (len df <? 10)%nat then []
  else
    let prices := iloc_tail 20 (col_close df) in
    let last5 := iloc_tail 5 prices in
    let uptrend :=
      if adjacent_all fle last5 then ["Short-term uptrend"%string] else [] in
    let downtrend :=
      if adjacent_all fge last5 then ["Short-term downtrend"%string] else [] in
    let recent_highs :=
      map (fun i => py_max_list (block3 prices i))
          (range_by_3 (length prices - 3)) in
    let higher :=
      if (3 <=? length recent_highs)%nat && adjacent_all flt recent_highs
      then ["Higher highs pattern"%string] else [] in
    let recent_lows :=
      map (fun i => py_min_list (block3 prices i))
          (range_by_3 (length prices - 3)) in
    let lower :=
      if (3 <=? length recent_lows)%nat && adjacent_all fgt recent_lows
      then ["Lower lows pattern"%string] else [] in
    let consolidation :=
      if (10 <=? length prices)%nat then
        let last10 := iloc_tail 10 prices in
        let price_range :=
          fdiv (fsub (py_max_list last10) (py_min_list last10))
               (iloc_neg prices 1) in
        if flt price_range (Fin 0.03)
        then ["Consolidation/Range-bound"%string] else []
      else [] in
    uptrend ++ downtrend ++ higher ++ lower ++ consolidation.

(** [s.mean()] of a series: the mean of the values that are not missing. *)
Definition series_mean (s : Series) : float :=
  fdiv (py_sum (dropna s)) (of_nat (length (dropna s))).

Module TechnicalAnalysisResult.

(** The dataclass, without its [timestamp] (the string form of the last
    index label). *)
Record t : Type := {
  symbol : string;
  current_price : float;
  price_change_1d : float;
  price_change_5d : float;
  price_change_1m : float;
  signals : list TechnicalSignal;
  trend_score : float;
  momentum_score : float;
  volatility_score : float;
  volume_score : float;
  overall_score : float;
  overall_signal : Signal;
  confidence : float;
  support_levels : list float;
  resistance_levels : list float;
  pivot_point : float;
  patterns_detected : list string
}.

(** [TechnicalAnalysisResult(symbol=symbol, timestamp="")] *)
Definition default (sym : string) : t :=
  {| symbol := sym;
     current_price := Fin 0;
     price_change_1d := Fin 0;
     price_change_5d := Fin 0;
     price_change_1m := Fin 0;
     signals := [];
     trend_score := Fin 50;
     momentum_score := Fin 50;
     volatility_score := Fin 50;
     volume_score := Fin 50;
     overall_score := Fin 50;
     overall_signal := HOLD;
     confidence := Fin 0.5;
     support_levels := [];
     resistance_levels := [];
     pivot_point := Fin 0;
     patterns_detected := [] |}.

End TechnicalAnalysisResult.

Section Analysis.

(** The square root of the platform and the two float formats of the
    descriptions, [f"{x:.1f}"] and [f"{x:.2f}"]. *)
Variable sqrtQ : Q -> Q.
Variable format_1f : float -> string.
Variable format_2f : float -> string.

Definition technical_signal (ind : string) (v : float) (s : Signal)
    (str : float) (desc : string) : TechnicalSignal :=
  {| indicator := ind; value := v; signal := s; strength := str;
     description := desc |}.

Definition trend_sma_20 (df : DataFrame) (current_price : float)
    : list TechnicalSignal :=
  match option_last (sma_20 df) with
  | Some sma =>
      if negb (isna sma) then
        if fgt current_price (fmul sma (Fin 1.02)) then
          [technical_signal "SMA 20" sma BUY (Fin 0.7)
             ("Price above SMA 20 (" ++ format_2f sma ++ ")")]
        else if flt current_price (fmul sma (Fin 0.98)) then
          [technical_signal "SMA 20" sma SELL (Fin 0.7)
             ("Price below SMA 20 (" ++ format_2f sma ++ ")")]
        else
          [technical_signal "SMA 20" sma HOLD (Fin 0.5)
             ("Price near SMA 20 (" ++ format_2f sma ++ ")")]
      else []
  | None => []
  end.

Definition trend_sma_50 (df : DataFrame) (current_price : float)
    : list TechnicalSignal :=
  match option_last (sma_50 df) with
  | Some sma =>
      if negb (isna sma) then
        if fgt current_price sma then
          [technical_signal "SMA 50" sma BUY (Fin 0.75)
             ("Price above SMA 50 (" ++ format_2f sma ++ ")")]
        else
          [technical_signal "SMA 50" sma SELL (Fin 0.75)
             ("Price below SMA 50 (" ++ format_2f sma ++ ")")]
      else []
  | None => []
  end.

Definition trend_sma_200 (df : DataFrame) (current_price : float)
    : list TechnicalSignal :=
  match option_last (sma_200 df) with
  | Some sma =>
      if negb (isna sma) then
        if fgt current_price sma then
          [technical_signal "SMA 200" sma STRONG_BUY (Fin 0.85)
             "Price above SMA 200 - Long term bullish"]
        else
          [technical_signal "SMA 200" sma STRONG_SELL (Fin 0.85)
             "Price below SMA 200 - Long term bearish"]
      else []
  | None => []
  end.

Definition trend_macd (df : DataFrame) : list TechnicalSignal :=
  match macd df, macd_signal df with
  | Some mcol, Some scol =>
      let m := iloc_neg mcol 1 in
      let ms := iloc_neg scol 1 in
      if negb (isna m) && negb (isna ms) then
        if (2 <=? len df)%nat then
          let prev_macd := iloc_neg mcol 2 in
          let prev_signal := iloc_neg scol 2 in
          if fle prev_macd prev_signal && fgt m ms then
            [technical_signal "MACD" m STRONG_BUY (Fin 0.9)
               "MACD bullish crossover"]
          else if fge prev_macd prev_signal && flt m ms then
            [technical_signal "MACD" m STRONG_SELL (Fin 0.9)
               "MACD bearish crossover"]
          else if fgt m ms then
            [technical_signal "MACD" m BUY (Fin 0.7) "MACD above signal line"]
          else
            [technical_signal "MACD" m SELL (Fin 0.7) "MACD below signal line"]
        else []
      else []
  | _, _ => []
  end.

Definition _analyze_trend (df : DataFrame) (current_price : float)
    : list TechnicalSignal :=
  trend_sma_20 df current_price ++ trend_sma_50 df current_price
    ++ trend_sma_200 df current_price ++ trend_macd df.

Definition momentum_rsi (df : DataFrame) : list TechnicalSignal :=
  match option_last (rsi_14 df) with
  | Some rsi =>
      if negb (isna rsi) then
        if flt rsi (Fin 30) then
          [technical_signal "RSI" rsi STRONG_BUY (Fin 0.85)
             ("RSI oversold (" ++ format_1f rsi ++ ")")]
        else if flt rsi (Fin 40) then
          [technical_signal "RSI" rsi BUY (Fin 0.65)
             ("RSI approaching oversold (" ++ format_1f rsi ++ ")")]
        else if fgt rsi (Fin 70) then
          [technical_signal "RSI" rsi STRONG_SELL (Fin 0.85)
             ("RSI overbought (" ++ format_1f rsi ++ ")")]
        else if fgt rsi (Fin 60) then
          [technical_signal "RSI" rsi SELL (Fin 0.65)
             ("RSI approaching overbought (" ++ format_1f rsi ++ ")")]
        else
          [technical_signal "RSI" rsi HOLD (Fin 0.5)
             ("RSI neutral (" ++ format_1f rsi ++ ")")]
      else []
  | None => []
  end.

Definition momentum_stochastic (df : DataFrame) : list TechnicalSignal :=
  match stoch_k df, stoch_d df with
  | Some kcol, Some dcol =>
      let k := iloc_neg kcol 1 in
      if negb (isna k) then
        let d := iloc_neg dcol 1 in
        if flt k (Fin 20) then
          [technical_signal "Stochastic" k STRONG_BUY (Fin 0.8)
             ("Stochastic oversold (%K: " ++ format_1f k ++ ")")]
        else if fgt k (Fin 80) then
          [technical_signal "Stochastic" k STRONG_SELL (Fin 0.8)
             ("Stochastic overbought (%K: " ++ format_1f k ++ ")")]
        else if fgt k d then
          [technical_signal "Stochastic" k BUY (Fin 0.6)
             "Stochastic bullish (%K above %D)"]
        else
          [technical_signal "Stochastic" k SELL (Fin 0.6)
             "Stochastic bearish (%K below %D)"]
      else []
  | _, _ => []
  end.

Definition _analyze_momentum (df : DataFrame) : list TechnicalSignal :=
  momentum_rsi df ++ momentum_stochastic df.

Definition volatility_bollinger (df : DataFrame) (current_price : float)
    : list TechnicalSignal :=
  match bb df with
  | Some bands =>
      let bb_upper := iloc_neg (upper bands) 1 in
      let bb_lower := iloc_neg (lower bands) 1 in
      let bb_middle := iloc_neg (middle bands) 1 in
      if negb (isna bb_upper) then
        if fle current_price bb_lower then
          [technical_signal "Bollinger Bands" current_price STRONG_BUY
             (Fin 0.85) "Price at lower Bollinger Band - Oversold"]
        else if fge current_price bb_upper then
          [technical_signal "Bollinger Bands" current_price STRONG_SELL
             (Fin 0.85) "Price at upper Bollinger Band - Overbought"]
        else if flt current_price bb_middle then
          [technical_signal "Bollinger Bands" current_price BUY (Fin 0.55)
             "Price below middle band"]
        else
          [technical_signal "Bollinger Bands" current_price SELL (Fin 0.55)
             "Price above middle band"]
      else []
  | None => []
  end.

Definition volatility_atr (df : DataFrame) (current_price : float)
    : list TechnicalSignal :=
  match option_last (atr_14 df) with
  | Some atr =>
      if negb (isna atr) then
        let atr_percent := fmul (fdiv atr current_price) (Fin 100) in
        if fgt atr_percent (Fin 5) then
          [technical_signal "ATR" atr HOLD (Fin 0.4)
             ("High volatility (ATR: " ++ format_1f atr_percent ++ "%)")]
        else
          [technical_signal "ATR" atr HOLD (Fin 0.6)
             ("Normal volatility (ATR: " ++ format_1f atr_percent ++ "%)")]
      else []
  | None => []
  end.

Definition _analyze_volatility (df : DataFrame) (current_price : float)
    : list TechnicalSignal :=
  volatility_bollinger df current_price ++ volatility_atr df current_price.

Definition volume_level (df : DataFrame) : list TechnicalSignal :=
  if (20 <=? len df)%nat then
    let current_vol := iloc_neg (col_volume df) 1 in
    let avg_vol := series_mean (iloc_tail 20 (col_volume df)) in
    if fgt current_vol (fmul avg_vol (Fin 1.5)) then
      if fgt (iloc_neg (col_close df) 1) (iloc_neg (col_close df) 2) then
        [technical_signal "Volume" current_vol STRONG_BUY (Fin 0.75)
           "High volume on up day - Strong buying pressure"]
      else
        [technical_signal "Volume" current_vol STRONG_SELL (Fin 0.75)
           "High volume on down day - Strong selling pressure"]
    else if flt current_vol (fmul avg_vol (Fin 0.5)) then
      [technical_signal "Volume" current_vol HOLD (Fin 0.4)
         "Low volume - Weak conviction"]
    else []
  else [].

Definition volume_obv (df : DataFrame) : list TechnicalSignal :=
  match obv df with
  | Some col =>
      if (5 <=? len df)%nat then
        let obv_trend := fsub (iloc_neg col 1) (iloc_neg col 5) in
        if fgt obv_trend (Fin 0) then
          [technical_signal "OBV" (iloc_neg col 1) BUY (Fin 0.6)
             "OBV trending up - Accumulation"]
        else
          [technical_signal "OBV" (iloc_neg col 1) SELL (Fin 0.6)
             "OBV trending down - Distribution"]
      else []
  | None => []
  end.

Definition _analyze_volume (df : DataFrame) : list TechnicalSignal :=
  volume_level df ++ volume_obv df.

(** [((a / b) - 1) * 100] *)
Definition percent_change (a b : float) : float :=
  fmul (fsub (fdiv a b) (Fin 1)) (Fin 100).

Definition analyze (df : DataFrame) (sym : string) : TechnicalAnalysisResult.t :=
  if (len df <? 20)%nat then TechnicalAnalysisResult.default sym
  else
    let df := calculate_all_indicators sqrtQ df in
    let close := col_close df in
    let current_price := iloc_neg close 1 in
    let trend_signals := _analyze_trend df current_price in
    let momentum_signals := _analyze_momentum df in
    let volatility_signals := _analyze_volatility df current_price in
    let volume_signals := _analyze_volume df in
    let signals :=
      trend_signals ++ momentum_signals ++ volatility_signals
        ++ volume_signals in
    let trend_score := _calculate_category_score trend_signals in
    let momentum_score := _calculate_category_score momentum_signals in
    let volatility_score := _calculate_category_score volatility_signals in
    let volume_score := _calculate_category_score volume_signals in
    let overall_score :=
      overall_of trend_score momentum_score volatility_score volume_score in
    let levels := _find_support_resistance df 3 in
    {| TechnicalAnalysisResult.symbol := sym;
       TechnicalAnalysisResult.current_price := current_price;
       TechnicalAnalysisResult.price_change_1d :=
         if (2 <=? len df)%nat
         then percent_change (iloc_neg close 1) (iloc_neg close 2) else Fin 0;
       TechnicalAnalysisResult.price_change_5d :=
         if (5 <=? len df)%nat
         then percent_change (iloc_neg close 1) (iloc_neg close 5) else Fin 0;
       TechnicalAnalysisResult.price_change_1m :=
         if (20 <=? len df)%nat
         then percent_change (iloc_neg close 1) (iloc_neg close 20) else Fin 0;
       TechnicalAnalysisResult.signals := signals;
       TechnicalAnalysisResult.trend_score := trend_score;
       TechnicalAnalysisResult.momentum_score := momentum_score;
       TechnicalAnalysisResult.volatility_score := volatility_score;
       TechnicalAnalysisResult.volume_score := volume_score;
       TechnicalAnalysisResult.overall_score := overall_score;
       TechnicalAnalysisResult.overall_signal := _score_to_signal overall_score;
       TechnicalAnalysisResult.confidence := _calculate_confidence signals;
       TechnicalAnalysisResult.support_levels := fst levels;
       TechnicalAnalysisResult.resistance_levels := snd levels;
       TechnicalAnalysisResult.pivot_point :=
         fdiv (fadd (fadd (iloc_neg (col_high df) 1) (iloc_neg (col_low df) 1))
                    (iloc_neg close 1)) (Fin 3);
       TechnicalAnalysisResult.patterns_detected := _detect_patterns df |}.

End Analysis.

(** *** prediction/engine.py: the price targets *)

Module Prediction.

(** The fields of a [Prediction] that [_calculate_final_prediction] and
    [_calculate_price_targets] read and write. *)
Record t : Type := {
  action : string;
  confidence : float;
  current_price : float;
  target_price : float;
  stop_loss : float;
  expected_return_percent : float;
  technical_score : float;
  sentiment_score : float;
  llm_consensus_score : float
}.

End Prediction.

(** [levels[0]] when the list is not empty, else the percentage default. *)
Definition first_level_or (levels : list float) (default : float) : float :=
  match levels with
  | l :: _ => l
  | [] => default
  end.

Definition _calculate_price_targets (p : Prediction.t)
    (support_levels resistance_levels : list float) : Prediction.t :=
  let current := Prediction.current_price p in
  let '(target, stop) :=
    if String.eqb (Prediction.action p) "buy" then
      (first_level_or resistance_levels (fmul current (Fin 1.10)),
       first_level_or support_levels (fmul current (Fin 0.95)))
    else if String.eqb (Prediction.action p) "sell" then
      (first_level_or support_levels (fmul current (Fin 0.90)),
       first_level_or resistance_levels (fmul current (Fin 1.05)))
    else (current, fmul current (Fin 0.95)) in
  {| Prediction.action := Prediction.action p;
     Prediction.confidence := Prediction.confidence p;
     Prediction.current_price := current;
     Prediction.target_price := target;
     Prediction.stop_loss := stop;
     Prediction.expected_return_percent :=
       fmul (fdiv (fsub target current) current) (Fin 100);
     Prediction.technical_score := Prediction.technical_score p;
     Prediction.sentiment_score := Prediction.sentiment_score p;
     Prediction.llm_consensus_score := Prediction.llm_consensus_score p |}.

(** *** prediction/engine.py: the final action and confidence *)

Module Consensus.

(** The fields of a [ConsensusResult] (llm/orchestrator.py) that the
    prediction engine reads. *)
Record t : Type := {
  successful_responses : nat;
  agreement_level : float;
  consensus_prediction : string
}.

(** The property [is_valid]. *)
Definition is_valid (c : t) : bool := (2 <=? successful_responses c)%nat.

End Consensus.

(** [statistics.variance]: the sample variance, not a number when a value is
    not a number. *)
Definition py_variance (l : list float) : float :=
  match finite_values l with
  | Some qs => Fin (Qvariance qs)
  | None => NaN
  end.

(** The weighted combination of the three scores with [ANALYSIS_WEIGHTS]. *)
Definition weighted_score (p : Prediction.t) : float :=
  fadd (fadd (fmul (Prediction.technical_score p) (Fin 0.35))
             (fmul (Prediction.sentiment_score p) (Fin 0.25)))
       (fmul (Prediction.llm_consensus_score p) (Fin 0.40)).

Definition _calculate_final_prediction (p : Prediction.t)
    (technical_result : TechnicalAnalysisResult.t) (llm_consensus : Consensus.t)
    : Prediction.t :=
  let ws := weighted_score p in
  let action :=
    if fge ws (Fin 0.65) then "buy"%string
    else if fle ws (Fin 0.35) then "sell"%string
    else "hold"%string in
  let action :=
    match TechnicalAnalysisResult.overall_signal technical_result with
    | STRONG_BUY =>
        if negb (String.eqb action "sell") then "buy"%string else action
    | STRONG_SELL =>
        if negb (String.eqb action "buy") then "sell"%string else action
    | _ => action
    end in
  let cp := Consensus.consensus_prediction llm_consensus in
  let action :=
    if Consensus.is_valid llm_consensus
       && fgt (Consensus.agreement_level llm_consensus) (Fin 0.7) then
      if String.eqb cp "buy" || String.eqb cp "sell" then
        if negb (String.eqb cp action) then
          if String.eqb action "hold" then cp else action
        else action
      else action
    else action in
  let base_confidence := fmul (fabs (fsub ws (Fin 0.5))) (Fin 2) in
  let score_variance :=
    py_variance [Prediction.technical_score p; Prediction.sentiment_score p;
                 Prediction.llm_consensus_score p] in
  let agreement_factor :=
    fsub (Fin 1) (py_min (Fin 1) (fmul score_variance (Fin 4))) in
  let llm_agreement_factor :=
    if Consensus.is_valid llm_consensus
    then Consensus.agreement_level llm_consensus else Fin 0.5 in
  let confidence :=
    fadd (fadd (fmul base_confidence (Fin 0.4))
               (fmul agreement_factor (Fin 0.3)))
         (fmul llm_agreement_factor (Fin 0.3)) in
  {| Prediction.action := action;
     Prediction.confidence := py_max (Fin 0.1) (py_min (Fin 0.95) confidence);
     Prediction.current_price := Prediction.current_price p;
     Prediction.target_price := Prediction.target_price p;
     Prediction.stop_loss := Prediction.stop_loss p;
     Prediction.expected_return_percent := Prediction.expected_return_percent p;
     Prediction.technical_score := Prediction.technical_score p;
     Prediction.sentiment_score := Prediction.sentiment_score p;
     Prediction.llm_consensus_score := Prediction.llm_consensus_score p |}.

(** *** backtester.py: holding days and the breakdown by symbol *)

(** The property [BacktestTrade.holding_days]. *)
Definition holding_days (t : BacktestTrade) : Z :=
  match exit_date t with
  | Some d => (d - entry_date t)%Z
  | None => 0%Z
  end.

(** [symbol_returns[sym].append(r)], the list created on the first use of
    the key; the dictionary keeps the keys in the order of insertion. *)
Fixpoint append_return (sym : string) (r : float)
    (d : list (string * list float)) : list (string * list float) :=
  match d with
  | [] => [(sym, [r])]
  | (k, rets) :: d' =>
      if String.eqb k sym then (k, rets ++ [r]) :: d'
      else (k, rets) :: append_return sym r d'
  end.

Definition symbol_returns (ts : list BacktestTrade)
    : list (string * list float) :=
  fold_left (fun d t => append_return (symbol t) (return_percent t) d) ts [].

Module SymbolPerformance.

(** One value of [performance_by_symbol]. *)
Record t : Type := {
  trades : nat;
  avg_return : float;
  win_rate : float;
  total_return : float
}.

End SymbolPerformance.

Definition performance_of (rets : list float) : SymbolPerformance.t :=
  {| SymbolPerformance.trades := length rets;
     SymbolPerformance.avg_return := mean rets;
     SymbolPerformance.win_rate :=
       fmul (fdiv (of_nat (count_if (fun r => fgt r (Fin 0)) rets))
                  (of_nat (length rets))) (Fin 100);
     SymbolPerformance.total_return := py_sum rets |}.

(** [result.performance_by_symbol] as [_calculate_metrics] fills it. *)
Definition performance_by_symbol (ts : list BacktestTrade)
    : list (string * SymbolPerformance.t) :=
  map (fun kv => (fst kv, performance_of (snd kv))) (symbol_returns ts).

(** A trade of [sym] opened by the loop at bar [j]. *)
Definition opened_at (sym : string) (df : DataFrame) (strategy : string)
    (j : nat) (t : BacktestTrade) : Prop :=
  let price := iloc (col_close df) j in
  let sc := _get_signal (iloc_head (j + 1) df) strategy in
  let o := open_trade sym df j (nth j (index df) 0%Z) price (snd sc) in
  fst sc = "buy"%string /\ fgt (snd sc) (Fin 0.6) = true /\
  symbol t = sym /\ action t = "buy"%string /\
  entry_date t = nth j (index df) 0%Z /\ entry_price t = price /\
  target_price t = target_price o /\ stop_loss t = stop_loss o /\
  confidence t = snd sc /\ technical_score t = snd sc.

(** A trade opened at bar [j] and closed at the later bar [k]. *)
Definition closed_at (sym : string) (df : DataFrame) (strategy : string)
    (j k : nat) (t : BacktestTrade) : Prop :=
  opened_at sym df strategy j t /\
  exit_date t = Some (nth k (index df) 0%Z) /\
  exit_price t = Some (iloc (col_close df) k).

(** What a strategy can return: the signal is one of the three words; the
    confidence is a number in [0.5, 0.85], exactly 0.5 for "hold"; a "buy"
    that passes the entry threshold has confidence at least 0.7. *)
Definition signal_in_range (sc : string * float) : Prop :=
  (fst sc = "buy"%string \/ fst sc = "sell"%string \/ fst sc = "hold"%string) /\
  exists q, snd sc = Fin q /\ 0.5 <= q /\ q <= 0.85 /\
            (fst sc = "hold"%string -> q == 0.5) /\
            (fst sc = "buy"%string -> 0.6 < q -> 0.7 <= q).

(** Whether the loop, when flat, opens a trade on bar [m]. *)
Definition entry_signal (df : DataFrame) (strategy : string) (m : nat) : bool :=
  let sc := _get_signal (iloc_head (m + 1) df) strategy in
  String.eqb (fst sc) "buy" && fgt (snd sc) (Fin 0.6).

(** No exit condition holds for [t] on the bars strictly between [j] and
    [k]. *)
Definition held_between (df : DataFrame) (strategy : string) (j k : nat)
    (t : BacktestTrade) : Prop :=
  forall m, (j < m < k)%nat -> first_matching df strategy m t = None.

(** The schedule of the loop from bar [lo] on: the trades of the list, in
    order, were each opened on the first bar with an entry signal and closed
    on the first later bar with an exit condition; [rest] describes what
    follows the bar after the last exit. *)
Fixpoint trade_spans (sym : string) (df : DataFrame) (strategy : string)
    (lo : nat) (ts : list BacktestTrade) (rest : nat -> Prop) : Prop :=
  match ts with
  | [] => rest lo
  | t :: ts' =>
      exists j k,
        (lo <= j)%nat /\ (j < k)%nat /\
        (forall m, (lo <= m < j)%nat -> entry_signal df strategy m = false) /\
        closed_at sym df strategy j k t /\
        held_between df strategy j k t /\
        first_matching df strategy k t <> None /\
        trade_spans sym df strategy (S k) ts' rest
  end.

(** Flat from bar [lo] up to the start of iteration [i]. *)
Definition flat_until (df : DataFrame) (strategy : string) (i lo : nat) : Prop :=
  (lo <= i)%nat /\
  forall m, (lo <= m < i)%nat -> entry_signal df strategy m = false.

(** Flat from bar [lo], then holding [t] up to the start of iteration [i]. *)
Definition holding_until (sym : string) (df : DataFrame) (strategy : string)
    (i : nat) (t : BacktestTrade) (lo : nat) : Prop :=
  exists j,
    (lo <= j)%nat /\ (j < i)%nat /\
    (forall m, (lo <= m < j)%nat -> entry_signal df strategy m = false) /\
    opened_at sym df strategy j t /\
    held_between df strategy j i t.

(** The loop variables at the start of iteration [i] follow the schedule. *)
Definition loop_schedule (sym : string) (df : DataFrame) (strategy : string)
    (i : nat) (st : LoopState) : Prop :=
  trade_spans sym df strategy 50 (trades st)
    (match current_trade st with
     | None => flat_until df strategy i
     | Some t => holding_until sym df strategy i t
     end).

(** The strength of a signal is a number between 0.4 and 0.9. *)
Definition strength_in_range (s : TechnicalSignal) : Prop :=
  exists w, strength s = Fin w /\ 0.4 <= w /\ w <= 0.9.

(** A list of at most [n] signals with strengths in range. *)
Definition signals_in_range (n : nat) (l : list TechnicalSignal) : Prop :=
  (length l <= n)%nat /\ Forall strength_in_range l.

(** The dates of the frame increase strictly. *)
Definition dates_increase (df : DataFrame) : Prop :=
  forall a b, (a < b < len df)%nat ->
              (nth a (index df) 0 < nth b (index df) 0)%Z.

(** A value that is missing or a number that is not negative. *)
Definition nan_or_nonneg (x : float) : Prop :=
  x = NaN \/ exists q, x = Fin q /\ 0 <= q.

(** The bars hold numbers, with the low at most the close and the close at
    most the high. *)
Definition well_formed_bar (b : Bar) : Prop :=
  exists h l c,
    b_high b = Fin h /\ b_low b = Fin l /\ b_close b = Fin c /\
    l <= c /\ c <= h.

(** The range of ordinary prices, from 10^-100 to 10^100.  The sums,
    differences, products and quotients that the indicators take of such
    prices over a window stay within the range of double-precision numbers,
    where the code computes, up to rounding, what is computed here on
    rationals. *)
Definition price_floor : Q := 1 # (10 ^ 100).

Definition price_ceiling : Q := inject_Z (10 ^ 100).

Definition ordinary (q : Q) : Prop := price_floor <= q /\ q <= price_ceiling.

Definition ordinary_price (x : float) : Prop :=
  exists q, x = Fin q /\ ordinary q.

(** The three prices of the bar that the indicators read are ordinary. *)
Definition ordinary_bar (b : Bar) : Prop :=
  ordinary_price (b_high b) /\ ordinary_price (b_low b) /\
  ordinary_price (b_close b).

(** A number within the range of doubles, with room to spare. *)
Definition moderate (q : Q) : Prop := Qabs q <= price_ceiling.

(** A score between 0 and 1. *)
Definition unit_score (x : float) : Prop :=
  exists q, x = Fin q /\ 0 <= q /\ q <= 1.

(** Volumes as the provider delivers them: whole numbers, none negative,
    with a total below 2^53, so that every running total is the same as a
    64-bit integer, as a double and as a rational. *)
Definition share_counts (zs : list Z) : Prop :=
  Forall (fun z => (0 <= z)%Z) zs /\ (fold_right Z.add 0%Z zs < 2 ^ 53)%Z.



(** * Properties *)

(** ** Floating-point values *)

Lemma Qle_bool_spec (a b : Q) : reflect (a <= b) (Qle_bool a b).
Proof.
  destruct (Qle_bool a b) eqn:E; constructor.
  - now apply Qle_bool_iff.
  - intro H. apply Qle_bool_iff in H. congruence.
Qed.

Lemma Qlt_bool_spec (a b : Q) : reflect (a < b) (Qlt_bool a b).
Proof.
  unfold Qlt_bool. destruct (Qle_bool_spec b a); constructor; lra.
Qed.

Lemma Qeq_bool_spec (a b : Q) : reflect (a == b) (Qeq_bool a b).
Proof.
  destruct (Qeq_bool a b) eqn:E; constructor.
  - now apply Qeq_bool_iff.
  - intro H. apply Qeq_bool_iff in H. congruence.
Qed.

(** Case analysis on every rational comparison in sight. *)
Ltac qcases :=
  repeat match goal with
         | |- context [Qle_bool ?a ?b] => destruct (Qle_bool_spec a b)
         | |- context [Qlt_bool ?a ?b] => destruct (Qlt_bool_spec a b)
         | |- context [Qeq_bool ?a ?b] => destruct (Qeq_bool_spec a b)
         | H : context [Qle_bool ?a ?b] |- _ => destruct (Qle_bool_spec a b)
         | H : context [Qlt_bool ?a ?b] |- _ => destruct (Qlt_bool_spec a b)
         | H : context [Qeq_bool ?a ?b] |- _ => destruct (Qeq_bool_spec a b)
         end.

Lemma feq_refl (x : float) : feq x x.
Proof. destruct x; simpl; auto. reflexivity. Qed.



Lemma feqb_spec (x y : float) : reflect (feq x y) (feqb x y).
Proof.
  destruct x, y; simpl; try (constructor; tauto). apply Qeq_bool_spec.
Qed.

Lemma feqb_false (x y : float) : feqb x y = false -> ~ feq x y.
Proof. intros E H. destruct (feqb_spec x y); congruence. Qed.

Lemma feqb_true (x y : float) : feqb x y = true -> feq x y.
Proof. intros E. destruct (feqb_spec x y); congruence. Qed.

Lemma inject_nat_nonneg (n : nat) : 0 <= inject_Z (Z.of_nat n).
Proof.
  change 0 with (inject_Z 0). rewrite <- Zle_Qle. lia.
Qed.

Lemma inject_nat_pos (n : nat) : (0 < n)%nat -> 0 < inject_Z (Z.of_nat n).
Proof.
  intro H. change 0 with (inject_Z 0). rewrite <- Zlt_Qlt. lia.
Qed.

Lemma inject_nat_le (m n : nat) :
  (m <= n)%nat -> inject_Z (Z.of_nat m) <= inject_Z (Z.of_nat n).
Proof. intro H. rewrite <- Zle_Qle. lia. Qed.

(** A ratio of two counts, the first at most the second, lies in [0, 1]. *)
Lemma ratio_bounds (a b : Q) :
  0 <= a -> a <= b -> 0 < b -> 0 <= a / b /\ a / b <= 1.
Proof.
  intros Ha Hab Hb. split.
  - apply Qle_shift_div_l; lra.
  - apply Qle_shift_div_r; lra.
Qed.

(** ** Signal Analyzer: confidence *)

Lemma count_if_le {A : Type} (p : A -> bool) (l : list A) :
  (count_if p l <= length l)%nat.
Proof. unfold count_if. apply filter_length_le. Qed.

Lemma confidence_value (signals : list TechnicalSignal) :
  signals <> [] ->
  exists r : Q,
    r == inject_Z (Z.of_nat (Nat.max (count_if is_buy signals)
                                     (count_if is_sell signals)))
         / inject_Z (Z.of_nat (length signals)) /\
    0 <= r /\ r <= 1 /\
    _calculate_confidence signals = Fin (0.4 + r * 0.5).
Proof.
  intro Hne.
  destruct signals as [|s0 rest]; [congruence|].
  set (signals := s0 :: rest) in *.
  assert (Hb := count_if_le is_buy signals).
  assert (Hs := count_if_le is_sell signals).
  assert (Hlen : (0 < length signals)%nat) by (simpl; lia).
  set (m := Nat.max (count_if is_buy signals) (count_if is_sell signals)).
  assert (Hm : (m <= length signals)%nat) by (unfold m; lia).
  destruct (ratio_bounds (inject_nat_nonneg m) (inject_nat_le Hm)
                         (inject_nat_pos Hlen)) as [Hlo Hhi].
  exists (inject_Z (Z.of_nat m) / inject_Z (Z.of_nat (length signals))).
  split; [reflexivity|]. split; [exact Hlo|]. split; [exact Hhi|].
  assert (Hpos := inject_nat_pos Hlen).
  unfold _calculate_confidence. fold signals. fold m.
  unfold of_nat, fdiv.
  destruct (Qeq_bool_spec (inject_Z (Z.of_nat (length signals))) 0) as [E|E];
    [lra|].
  unfold fmul, fadd, py_min, flt.
  destruct (Qlt_bool_spec
              (0.4 + inject_Z (Z.of_nat m)
                     / inject_Z (Z.of_nat (length signals)) * 0.5) 0.95);
    [reflexivity | lra].
Qed.


(** ** Backtest Simulator: the per-symbol loop *)

Lemma open_trade_ok sym df i date price conf :
  open_ok (open_trade sym df i date price conf).
Proof. repeat split. Qed.

Lemma close_trade_closed ps date price t : closed ps (close_trade ps date price t).
Proof. exists date, price. repeat split. Qed.

Lemma check_signal_checked sig c : checked (check_signal sig c) = checked c.
Proof. unfold check_signal. destruct (String.eqb sig "sell"); reflexivity. Qed.

Lemma check_timeout_checked h c : checked (check_timeout h c) = checked c.
Proof. unfold check_timeout. destruct (30 <? h)%Z; reflexivity. Qed.

Lemma exit_check_checked df strategy i date price t :
  checked (exit_check df strategy i date price t)
  = checked (check_target_stop price t).
Proof.
  unfold exit_check. now rewrite check_timeout_checked, check_signal_checked.
Qed.

(** The exit decision is the disjunction of the four conditions. *)
Lemma exit_check_should_exit df strategy i t :
  should_exit (exit_check df strategy i (nth i (index df) 0%Z)
                          (iloc (col_close df) i) t)
  = existsb (exit_matches df strategy i t) exit_priority.
Proof.
  unfold exit_check, check_timeout, check_signal, check_target_stop. simpl.
  destruct (fge (iloc (col_close df) i) (target_price t));
    destruct (fle (iloc (col_close df) i) (stop_loss t));
    destruct (String.eqb (fst (_get_signal (iloc_head (i + 1) df) strategy)) "sell");
    destruct (30 <? holding_days_at df i (nth i (index df) 0%Z) t)%Z;
    reflexivity.
Qed.

(** The flags of the checked trade are those of the first matching
    condition. *)
Lemma check_target_stop_flags price t :
  open_ok t ->
  hit_target (checked (check_target_stop price t)) = fge price (target_price t)
  /\ hit_stop_loss (checked (check_target_stop price t))
     = negb (fge price (target_price t)) && fle price (stop_loss t).
Proof.
  intros (_ & _ & Ht & Hs). unfold check_target_stop.
  destruct (fge price (target_price t)); simpl; [auto|].
  destruct (fle price (stop_loss t)); simpl; auto.
Qed.

Lemma check_target_stop_open price t :
  fge price (target_price t) = false -> fle price (stop_loss t) = false ->
  checked (check_target_stop price t) = t.
Proof. intros H1 H2. unfold check_target_stop. now rewrite H1, H2. Qed.

Lemma bar_step_invariant sym df ps strategy st i :
  loop_invariant ps st -> loop_invariant ps (bar_step sym df ps strategy st i).
Proof.
  intros [Hclosed Hopen]. unfold bar_step.
  destruct (current_trade st) as [t|] eqn:Hcur.
  - specialize (Hopen t eq_refl).
    set (c := exit_check _ _ _ _ _ _).
    assert (Hflags := check_target_stop_flags (iloc (col_close df) i) Hopen).
    assert (Hc : checked c = checked (check_target_stop (iloc (col_close df) i) t))
      by apply exit_check_checked.
    destruct (should_exit c) eqn:Hexit.
    + split; simpl; [|discriminate].
      apply Forall_app. split; [exact Hclosed|].
      constructor; [|constructor]. split; [apply close_trade_closed|].
      simpl. rewrite Hc. destruct Hflags as [-> ->].
      now destruct (fge (iloc (col_close df) i) (target_price t)).
    + split; simpl; [exact Hclosed|].
      intros t' [= <-].
      assert (Hany : existsb (exit_matches df strategy i t) exit_priority = false).
      { rewrite <- exit_check_should_exit. exact Hexit. }
      simpl in Hany. apply orb_false_elim in Hany as [H1 Hany].
      apply orb_false_elim in Hany as [H2 _].
      rewrite Hc, (check_target_stop_open _ _ H1 H2). exact Hopen.
  - destruct (_get_signal (iloc_head (i + 1) df) strategy) as [sig conf].
    destruct (String.eqb sig "buy" && fgt conf (Fin 0.6)).
    + split; simpl; [exact Hclosed|].
      intros t [= <-]. apply open_trade_ok.
    + split; [exact Hclosed|]. intros t Ht. congruence.
Qed.

Lemma fold_bar_step_invariant sym df ps strategy (l : list nat) st :
  loop_invariant ps st ->
  loop_invariant ps (fold_left (bar_step sym df ps strategy) l st).
Proof.
  revert st. induction l as [|i l IH]; intros st H; simpl; [exact H|].
  apply IH, bar_step_invariant, H.
Qed.

Lemma state_before_invariant sym df ps strategy i :
  loop_invariant ps (state_before sym df ps strategy i).
Proof.
  apply fold_bar_step_invariant. split; [constructor|]. intros t [=].
Qed.

(** The loop state advances by one [bar_step] per bar. *)
Lemma state_before_succ sym df ps strategy i :
  (50 <= i)%nat ->
  state_before sym df ps strategy (S i)
  = bar_step sym df ps strategy (state_before sym df ps strategy i) i.
Proof.
  intro H. unfold state_before.
  replace (S i - 50)%nat with (S (i - 50)) by lia.
  rewrite seq_S, fold_left_app.
  replace (50 + (i - 50))%nat with i by lia. reflexivity.
Qed.

Lemma simulate_invariant sym df ps strategy :
  loop_invariant ps (simulate sym df ps strategy).
Proof. apply state_before_invariant. Qed.

(** What [bar_step] does on a bar with an open position, by the first
    matching exit condition. *)
Lemma bar_step_in_position sym df ps strategy st i t :
  current_trade st = Some t -> open_ok t ->
  match first_matching df strategy i t with
  | None =>
      bar_step sym df ps strategy st i
      = {| trades := trades st; current_trade := Some t |}
  | Some c =>
      exists t',
        bar_step sym df ps strategy st i
        = {| trades := trades st ++ [t']; current_trade := None |} /\
        closed ps t' /\
        exit_date t' = Some (nth i (index df) 0%Z) /\
        exit_price t' = Some (iloc (col_close df) i) /\
        hit_target t' = match c with ByTarget => true | _ => false end /\
        hit_stop_loss t' = match c with ByStopLoss => true | _ => false end
  end.
Proof.
  intros Hcur Hopen. unfold bar_step. rewrite Hcur.
  set (date := nth i (index df) 0%Z). set (price := iloc (col_close df) i).
  set (c := exit_check df strategy i date price t).
  assert (Hexit : should_exit c
                  = existsb (exit_matches df strategy i t) exit_priority)
    by apply exit_check_should_exit.
  assert (Hc : checked c = checked (check_target_stop price t))
    by apply exit_check_checked.
  destruct (check_target_stop_flags price Hopen) as [Hft Hfs].
  rewrite <- Hc in Hft, Hfs.
  unfold first_matching. simpl in Hexit |- *.
  fold date price in Hexit |- *.
  destruct (fge price (target_price t)) eqn:E1.
  { rewrite Hexit. simpl. eexists. split; [reflexivity|].
    split; [apply close_trade_closed|]. simpl. rewrite Hft, Hfs. auto. }
  destruct (fle price (stop_loss t)) eqn:E2.
  { rewrite Hexit. simpl. eexists. split; [reflexivity|].
    split; [apply close_trade_closed|]. simpl. rewrite Hft, Hfs. auto. }
  assert (Ht : checked c = t)
    by (rewrite Hc; now apply check_target_stop_open).
  destruct Hopen as (_ & _ & Ht0 & Hs0).
  destruct (String.eqb _ "sell") eqn:E3.
  { rewrite Hexit. simpl. eexists. split; [reflexivity|].
    split; [apply close_trade_closed|]. simpl. rewrite Ht. auto. }
  destruct (30 <? _)%Z eqn:E4.
  { rewrite Hexit. simpl. eexists. split; [reflexivity|].
    split; [apply close_trade_closed|]. simpl. rewrite Ht. auto. }
  rewrite Hexit. simpl. now rewrite Ht.
Qed.

Lemma simulate_closed sym df ps strategy :
  Forall (closed ps) (trades (simulate sym df ps strategy)).
Proof.
  destruct (simulate_invariant sym df ps strategy) as [H _].
  eapply Forall_impl; [|exact H]. intros u [Hu _]. exact Hu.
Qed.

(** *** Maximum drawdown *)

Lemma nth_snoc_lt (l : list Q) (v : Q) (i : nat) :
  (i < length l)%nat -> nth i (l ++ [v]) 0 = nth i l 0.
Proof. intro H. now apply app_nth1. Qed.

Lemma nth_snoc_eq (l : list Q) (v : Q) : nth (length l) (l ++ [v]) 0 = v.
Proof. rewrite app_nth2 by lia. now rewrite Nat.sub_diag. Qed.

(** One iteration of the drawdown loop extends the processed part of the
    curve by one point: [p] stays the highest point seen and [d] the largest
    drop seen. *)
Lemma drawdown_step_snoc (prefix : list Q) (p d v : Q) :
  (exists i, (i < length prefix)%nat /\ p == nth i prefix 0) ->
  (forall i, (i < length prefix)%nat -> nth i prefix 0 <= p) ->
  is_largest_drop prefix d ->
  exists p' d',
    drawdown_step (Fin p, Fin d) (Fin v) = (Fin p', Fin d') /\
    (exists i, (i < length (prefix ++ [v]))%nat /\
               p' == nth i (prefix ++ [v]) 0) /\
    (forall i, (i < length (prefix ++ [v]))%nat ->
               nth i (prefix ++ [v]) 0 <= p') /\
    is_largest_drop (prefix ++ [v]) d'.
Proof.
  intros (ip & Hip & Hp) Hmax ((i0 & j0 & Hij0 & Hd) & Hbound).
  set (p' := if Qlt_bool p v then v else p).
  set (d' := if Qlt_bool d (p' + - v) then p' + - v else d).
  exists p', d'.
  assert (Hlen : length (prefix ++ [v]) = S (length prefix))
    by (rewrite length_app; simpl; lia).
  assert (Hp'v : v <= p') by (subst p'; qcases; lra).
  assert (Hp'p : p <= p') by (subst p'; qcases; lra).
  assert (Hd'd : d <= d') by (subst d'; qcases; lra).
  assert (Hd'v : p' - v <= d') by (subst d'; qcases; lra).
  assert (Hpk : exists i, (i < length (prefix ++ [v]))%nat /\
                          p' == nth i (prefix ++ [v]) 0).
  { subst p'. destruct (Qlt_bool_spec p v).
    - exists (length prefix). rewrite nth_snoc_eq. split; [lia | reflexivity].
    - exists ip. rewrite nth_snoc_lt by lia. split; [lia | exact Hp]. }
  split; [|split; [exact Hpk|split]].
  - unfold drawdown_step, fgt, flt, fsub, fneg, fadd. subst d' p'.
    destruct (Qlt_bool p v);
      [destruct (Qlt_bool d (v + - v)) | destruct (Qlt_bool d (p + - v))];
      reflexivity.
  - intros i Hi. rewrite Hlen in Hi.
    destruct (Nat.eq_dec i (length prefix)) as [->|Hne].
    + now rewrite nth_snoc_eq.
    + rewrite nth_snoc_lt by lia. specialize (Hmax i ltac:(lia)). lra.
  - split.
    + subst d'. destruct (Qlt_bool_spec d (p' + - v)).
      * destruct Hpk as (i & Hi & Hpi). exists i, (length prefix).
        rewrite nth_snoc_eq, <- Hpi. split; [lia | lra].
      * exists i0, j0. rewrite !nth_snoc_lt by lia. split; [lia | exact Hd].
    + intros i j Hij. rewrite Hlen in Hij.
      destruct (Nat.eq_dec j (length prefix)) as [->|Hne].
      * rewrite nth_snoc_eq.
        destruct (Nat.eq_dec i (length prefix)) as [->|Hne'].
        -- rewrite nth_snoc_eq. lra.
        -- rewrite nth_snoc_lt by lia. specialize (Hmax i ltac:(lia)). lra.
      * rewrite !nth_snoc_lt by lia. specialize (Hbound i j ltac:(lia)). lra.
Qed.

Lemma drawdown_fold (suffix prefix : list Q) (p d : Q) :
  (exists i, (i < length prefix)%nat /\ p == nth i prefix 0) ->
  (forall i, (i < length prefix)%nat -> nth i prefix 0 <= p) ->
  is_largest_drop prefix d ->
  exists p' d',
    fold_left drawdown_step (map Fin suffix) (Fin p, Fin d) = (Fin p', Fin d') /\
    is_largest_drop (prefix ++ suffix) d'.
Proof.
  revert prefix p d. induction suffix as [|v suffix IH]; intros prefix p d H1 H2 H3.
  - exists p, d. rewrite app_nil_r. split; [reflexivity | exact H3].
  - destruct (drawdown_step_snoc v H1 H2 H3) as (p' & d' & E & H1' & H2' & H3').
    destruct (IH (prefix ++ [v]) p' d' H1' H2' H3') as (p'' & d'' & E' & H).
    exists p'', d''. cbn [fold_left map]. rewrite E, E'. split; [reflexivity|].
    now rewrite <- app_assoc in H.
Qed.

Lemma cumulative_from_finite (total : Q) (returns : list Q) :
  cumulative_from (Fin total) (map Fin returns)
  = map Fin (running_sum_from total returns).
Proof.
  revert total. induction returns as [|r returns IH]; intro total; simpl;
    [reflexivity|]. now rewrite IH.
Qed.

Lemma finite_values_map (l : list float) (qs : list Q) :
  finite_values l = Some qs -> l = map Fin qs.
Proof.
  revert qs. induction l as [|x l IH]; intros qs H; simpl in H.
  - now injection H as <-.
  - destruct x; try discriminate.
    destruct (finite_values l) as [qs'|]; [|discriminate].
    injection H as <-. simpl. now rewrite (IH qs' eq_refl).
Qed.

(** The drawdown loop computes the largest peak-to-trough drop of the curve
    of running sums. *)
Lemma max_drawdown_largest_drop (returns : list Q) :
  returns <> [] ->
  exists d,
    max_drawdown (map Fin returns) = Fin d /\
    is_largest_drop (running_sum returns) d.
Proof.
  intro Hne. unfold max_drawdown, cumulative.
  rewrite cumulative_from_finite. fold (running_sum returns).
  destruct returns as [|r returns]; [congruence|].
  unfold running_sum. simpl running_sum_from.
  set (c0 := 0 + r). set (rest := running_sum_from c0 returns).
  cbn [hd map].
  assert (E0 : drawdown_step (Fin c0, Fin 0) (Fin c0) = (Fin c0, Fin 0)).
  { unfold drawdown_step, fgt, flt, fsub, fneg, fadd.
    destruct (Qlt_bool_spec c0 c0); [lra|].
    destruct (Qlt_bool_spec 0 (c0 + - c0)); [lra | reflexivity]. }
  cbn [fold_left]. rewrite E0.
  destruct (@drawdown_fold rest [c0] c0 0) as (p' & d' & E & H).
  - exists 0%nat. simpl. split; [lia | reflexivity].
  - intros i Hi. simpl in Hi. assert (i = 0)%nat as -> by lia. simpl. lra.
  - split.
    + exists 0%nat, 0%nat. simpl. split; [lia | lra].
    + intros i j Hij. simpl in Hij.
      assert (i = 0)%nat as -> by lia. assert (j = 0)%nat as -> by lia.
      simpl. lra.
  - exists d'. rewrite E. split; [reflexivity | exact H].
Qed.



(** *** Order of the trades *)




(** ** Indicator Library *)

(** *** Lengths *)

Lemma length_rolling agg w (s : Series) : length (rolling agg w s) = length s.
Proof. unfold rolling. now rewrite length_map, length_seq. Qed.

Lemma length_zip_with f (a b : Series) :
  length (zip_with f a b) = Nat.min (length a) (length b).
Proof. unfold zip_with. now rewrite length_map, length_combine. Qed.

Lemma length_zip3_with f (a b c : Series) :
  length (zip3_with f a b c)
  = Nat.min (Nat.min (length a) (length b)) (length c).
Proof. unfold zip3_with. now rewrite length_map, !length_combine. Qed.

Lemma length_removelast {A : Type} (l : list A) :
  length (removelast l) = (length l - 1)%nat.
Proof.
  induction l as [|x l IH]; [reflexivity|].
  destruct l as [|y l]; [reflexivity|].
  change (length (x :: removelast (y :: l)) = (length (x :: y :: l) - 1)%nat).
  simpl length in *. lia.
Qed.

Lemma length_shift (s : Series) : length (shift s) = length s.
Proof.
  destruct s as [|x s]; [reflexivity|].
  unfold shift. cbn [length]. rewrite length_removelast. cbn [length]. lia.
Qed.

Lemma length_diff (s : Series) : length (diff s) = length s.
Proof. unfold diff. rewrite length_zip_with, length_shift. lia. Qed.


(** *** Positions *)

Lemma iloc_map (f : float -> float) (s : Series) (i : nat) :
  (i < length s)%nat -> iloc (map f s) i = f (iloc s i).
Proof.
  intro H. unfold iloc.
  rewrite (nth_indep (map f s) NaN (f NaN)) by now rewrite length_map.
  apply map_nth.
Qed.

Lemma iloc_zip_with f (a b : Series) (i : nat) :
  (i < length a)%nat -> (i < length b)%nat ->
  iloc (zip_with f a b) i = f (iloc a i) (iloc b i).
Proof.
  revert b i. induction a as [|x a IH]; intros b i Ha Hb; [simpl in Ha; lia|].
  destruct b as [|y b]; [simpl in Hb; lia|].
  destruct i as [|i]; [reflexivity|].
  simpl in Ha, Hb. apply (IH b i); lia.
Qed.

Lemma iloc_zip3_with f (a b c : Series) (i : nat) :
  (i < length a)%nat -> (i < length b)%nat -> (i < length c)%nat ->
  iloc (zip3_with f a b c) i = f (iloc a i) (iloc b i) (iloc c i).
Proof.
  revert b c i. induction a as [|x a IH]; intros b c i Ha Hb Hc;
    [simpl in Ha; lia|].
  destruct b as [|y b]; [simpl in Hb; lia|].
  destruct c as [|z c]; [simpl in Hc; lia|].
  destruct i as [|i]; [reflexivity|].
  simpl in Ha, Hb, Hc. apply (IH b c i); lia.
Qed.

Lemma iloc_rolling agg w (s : Series) (i : nat) :
  (i < length s)%nat ->
  iloc (rolling agg w s) i
  = if (S i <? w)%nat then NaN
    else match finite_values (window w i s) with
         | Some qs => agg qs
         | None => NaN
         end.
Proof.
  intro H. unfold iloc, rolling.
  set (f := fun i : nat => if (S i <? w)%nat then NaN else _).
  rewrite (nth_indep (map f (seq 0 (length s))) NaN (f 0%nat))
    by now rewrite length_map, length_seq.
  rewrite map_nth, seq_nth by exact H. reflexivity.
Qed.


(** *** Windows of finite values *)

Lemma Forall_firstn {A : Type} (P : A -> Prop) (n : nat) (l : list A) :
  Forall P l -> Forall P (firstn n l).
Proof.
  revert n. induction l as [|x l IH]; intros [|n] H; simpl; try constructor.
  - now inversion H.
  - apply IH. now inversion H.
Qed.

Lemma Forall_skipn {A : Type} (P : A -> Prop) (n : nat) (l : list A) :
  Forall P l -> Forall P (skipn n l).
Proof.
  revert n. induction l as [|x l IH]; intros [|n] H; simpl; auto.
  apply IH. now inversion H.
Qed.

Lemma Forall_window (P : float -> Prop) w i (s : Series) :
  Forall P s -> Forall P (window w i s).
Proof. intro H. unfold window. now apply Forall_firstn, Forall_skipn. Qed.

Lemma length_window w i (s : Series) :
  (w <= S i)%nat -> (i < length s)%nat -> length (window w i s) = w.
Proof.
  intros Hw Hi. unfold window. rewrite length_firstn, length_skipn. lia.
Qed.

Lemma finite_values_length (l : list float) (qs : list Q) :
  finite_values l = Some qs -> length qs = length l.
Proof.
  intro H. rewrite (finite_values_map _ H). now rewrite length_map.
Qed.

Lemma finite_values_all (l : list float) :
  all_finite l -> exists qs, finite_values l = Some qs.
Proof.
  induction 1 as [|x l Hx Hl [qs IH]]; [now exists []|].
  destruct x; try discriminate. exists (q :: qs). simpl. now rewrite IH.
Qed.

Lemma Forall_iloc (P : float -> Prop) (s : Series) :
  (forall i, (i < length s)%nat -> P (iloc s i)) -> Forall P s.
Proof. intro H. apply Forall_nth. intros i d Hi. rewrite (nth_indep s d NaN Hi). now apply H. Qed.

Lemma iloc_Forall (P : float -> Prop) (s : Series) (i : nat) :
  Forall P s -> (i < length s)%nat -> P (iloc s i).
Proof. intros H Hi. rewrite Forall_forall in H. apply H. now apply nth_In. Qed.

Lemma agg_mean_finite (qs : list Q) :
  qs <> [] -> agg_mean qs = Fin (Qsum qs / Qlen qs).
Proof.
  intro H. unfold agg_mean, fdiv.
  assert (0 < Qlen qs).
  { unfold Qlen. apply inject_nat_pos. destruct qs; [congruence | simpl; lia]. }
  destruct (Qeq_bool_spec (Qlen qs) 0); [lra | reflexivity].
Qed.

(** On a series of numbers, a rolling mean is defined from position
    [w - 1] on. *)
Lemma rolling_mean_defined w (s : Series) :
  (1 <= w)%nat -> all_finite s -> defined_from w (rolling agg_mean w s).
Proof.
  intros Hw Hs i Hi Hwi. rewrite length_rolling in Hi.
  rewrite iloc_rolling by exact Hi.
  destruct (Nat.ltb_spec (S i) w); [lia|].
  destruct (finite_values_all (Forall_window w i Hs)) as [qs Hqs].
  rewrite Hqs, agg_mean_finite; [reflexivity|].
  intros ->. apply finite_values_length in Hqs.
  rewrite length_window in Hqs by assumption. simpl in Hqs. lia.
Qed.

(** *** RSI *)



Lemma finite_values_nonneg (l : list float) (qs : list Q) :
  finite_values l = Some qs ->
  Forall (fun x => forall q, x = Fin q -> 0 <= q) l ->
  Forall (fun q => 0 <= q) qs.
Proof.
  intros H Hl. rewrite (finite_values_map _ H) in Hl.
  rewrite Forall_map in Hl. eapply Forall_impl; [|exact Hl].
  intros q Hq. now apply Hq.
Qed.

Lemma Qsum_nonneg (qs : list Q) : Forall (fun q => 0 <= q) qs -> 0 <= Qsum qs.
Proof.
  induction 1 as [|q qs Hq _ IH]; simpl; lra.
Qed.

(** A rolling mean of values that are not negative is undefined or not
    negative. *)
Lemma rolling_mean_nonneg w (s : Series) (i : nat) :
  Forall (fun x => forall q, x = Fin q -> 0 <= q) s ->
  iloc (rolling agg_mean w s) i = NaN \/
  exists q, iloc (rolling agg_mean w s) i = Fin q /\ 0 <= q.
Proof.
  intro Hs. destruct (Nat.lt_ge_cases i (length s)) as [Hi|Hi].
  - rewrite iloc_rolling by exact Hi.
    destruct (S i <? w)%nat; [now left|].
    destruct (finite_values (window w i s)) as [qs|] eqn:E; [|now left].
    destruct qs as [|q0 qs']; [now left|]. right.
    rewrite agg_mean_finite by discriminate. eexists. split; [reflexivity|].
    assert (0 <= Qsum (q0 :: qs')).
    { apply Qsum_nonneg, (finite_values_nonneg E), Forall_window, Hs. }
    assert (0 < Qlen (q0 :: qs')) by (apply inject_nat_pos; simpl; lia).
    apply Qle_shift_div_l; lra.
  - left. unfold iloc. apply nth_overflow. now rewrite length_rolling.
Qed.

Lemma fdiv_finite (a b : Q) : ~ b == 0 -> fdiv (Fin a) (Fin b) = Fin (a / b).
Proof. intro H. unfold fdiv. destruct (Qeq_bool_spec b 0); tauto. Qed.











(** *** Shape of the indicator series *)

Lemma Forall_removelast {A : Type} (P : A -> Prop) (l : list A) :
  Forall P l -> Forall P (removelast l).
Proof.
  induction 1 as [|x l Hx Hl IH]; [constructor|].
  destruct l as [|y l]; [constructor|].
  change (Forall P (x :: removelast (y :: l))). now constructor.
Qed.

Lemma shift_nan_or_finite (s : Series) :
  all_finite s ->
  Forall (fun x => x = NaN \/ is_finite x = true) (shift s).
Proof.
  intro H. destruct s as [|x s]; [constructor|].
  unfold shift. constructor; [now left|].
  apply Forall_removelast. eapply Forall_impl; [|exact H]. intros a Ha. now right.
Qed.

Lemma Forall_zip_with (Pa Pb P : float -> Prop) f (a b : Series) :
  (forall x y, Pa x -> Pb y -> P (f x y)) ->
  Forall Pa a -> Forall Pb b -> Forall P (zip_with f a b).
Proof.
  intros Hf Ha. revert b. induction Ha as [|x a Hx Ha IH]; intros b Hb.
  - constructor.
  - destruct Hb as [|y b Hy Hb]; [constructor|].
    unfold zip_with. simpl. constructor; [now apply Hf|]. now apply IH.
Qed.




Lemma is_finite_value (x : float) : is_finite x = true -> exists q, x = Fin q.
Proof. destruct x; try discriminate. intros _. now eexists. Qed.





(** *** Average true range *)

Lemma length_true_range (high low close : Series) :
  length high = length close -> length low = length close ->
  length (true_range high low close) = length close.
Proof.
  intros Hh Hl. unfold true_range.
  rewrite length_zip3_with, !length_map, !length_zip_with, length_shift. lia.
Qed.

Lemma row_max_finite (a : Q) (b c : float) :
  b = NaN \/ is_finite b = true -> c = NaN \/ is_finite c = true ->
  is_finite (row_max [Fin a; b; c]) = true.
Proof.
  intros [->|Hb] [->|Hc]; simpl; try reflexivity.
  - destruct c; try discriminate. simpl. now destruct (Qlt_bool a q).
  - destruct b; try discriminate. simpl. now destruct (Qlt_bool a q).
  - destruct b, c; try discriminate. simpl.
    destruct (Qlt_bool q q0); simpl; now destruct (Qlt_bool a _).
Qed.

Lemma true_range_finite (high low close : Series) :
  length high = length close -> length low = length close ->
  all_finite high -> all_finite low -> all_finite close ->
  all_finite (true_range high low close).
Proof.
  intros Lh Ll Hh Hl Hc. apply Forall_iloc. intros i Hi.
  rewrite length_true_range in Hi by assumption.
  unfold true_range.
  rewrite iloc_zip3_with
    by (rewrite ?length_map, ?length_zip_with, ?length_shift; lia).
  rewrite !iloc_map by (rewrite ?length_zip_with, ?length_shift; lia).
  rewrite !iloc_zip_with by (rewrite ?length_shift; lia).
  destruct (is_finite_value (iloc high i)) as [h ->];
    [apply (iloc_Forall Hh); lia|].
  destruct (is_finite_value (iloc low i)) as [l ->];
    [apply (iloc_Forall Hl); lia|].
  assert (Hs : iloc (shift close) i = NaN
               \/ is_finite (iloc (shift close) i) = true).
  { apply (iloc_Forall (shift_nan_or_finite Hc)). rewrite length_shift. lia. }
  change (fsub (Fin h) (Fin l)) with (Fin (h + - l)).
  apply row_max_finite.
  - destruct Hs as [->|Hs]; [now left|]. right.
    destruct (iloc (shift close) i); try discriminate. reflexivity.
  - destruct Hs as [->|Hs]; [now left|]. right.
    destruct (iloc (shift close) i); try discriminate. reflexivity.
Qed.

(** *** Stochastic %K *)


Lemma iloc_stoch_K (high low close : Series) (kp dp i : nat) :
  length high = length close -> length low = length close ->
  (i < length close)%nat ->
  iloc (stoch_K (calculate_stochastic high low close kp dp)) i
  = fdiv (fmul (Fin 100)
               (fsub (iloc close i) (iloc (rolling agg_min kp low) i)))
         (fsub (iloc (rolling agg_max kp high) i)
               (iloc (rolling agg_min kp low) i)).
Proof.
  intros Hh Hl Hi. simpl.
  now rewrite iloc_zip3_with by (rewrite ?length_rolling; lia).
Qed.



(** ** Signal Analyzer: support and resistance *)

Section Sorting.

Variable le : float -> float -> bool.
Variable P : float -> Prop.
Hypothesis le_total : forall x y, P x -> P y -> le x y = false -> le y x = true.
Hypothesis le_trans :
  forall x y z, le x y = true -> le y z = true -> le x z = true.

Lemma insert_by_perm (x : float) (l : list float) :
  Permutation (insert_by le x l) (x :: l).
Proof.
  induction l as [|y l IH]; simpl; [reflexivity|].
  destruct (le x y); [reflexivity|].
  rewrite IH. apply perm_swap.
Qed.

Lemma sort_by_perm (l : list float) : Permutation (sort_by le l) l.
Proof.
  induction l as [|x l IH]; simpl; [reflexivity|].
  rewrite insert_by_perm. now constructor.
Qed.





End Sorting.








Lemma Forall_filter_holds (f : float -> bool) (l : list float) :
  Forall (fun x => f x = true) (filter f l).
Proof.
  apply Forall_forall. intros x Hx. now apply filter_In in Hx as [_ Hx].
Qed.


(** ** Further properties of the Indicator Library *)

(** *** Moving averages of a constant series *)

Lemma finite_values_repeat (c : Q) (n : nat) :
  finite_values (repeat (Fin c) n) = Some (repeat c n).
Proof. induction n as [|n IH]; simpl; [reflexivity | now rewrite IH]. Qed.

Lemma Qsum_repeat (c : Q) (n : nat) :
  Qsum (repeat c n) == inject_Z (Z.of_nat n) * c.
Proof.
  induction n as [|n IH]; [cbn; ring|].
  cbn [repeat]. unfold Qsum in *. cbn [fold_right]. rewrite IH.
  rewrite Nat2Z.inj_succ. unfold Z.succ. rewrite inject_Z_plus.
  change (inject_Z 1) with 1. ring.
Qed.

Lemma window_repeat (x : float) (w i L : nat) :
  (w <= S i)%nat -> (i < L)%nat -> window w i (repeat x L) = repeat x w.
Proof.
  intros Hw Hi. unfold window.
  assert (Hf : Forall (eq x) (firstn w (skipn (S i - w) (repeat x L)))).
  { apply Forall_firstn, Forall_skipn, Forall_forall.
    intros y Hy. symmetry. now apply repeat_spec in Hy. }
  apply Forall_eq_repeat in Hf. rewrite Hf. f_equal.
  rewrite length_firstn, length_skipn, repeat_length. lia.
Qed.

(** X1.  The simple moving average of a constant series is that constant at
    every position from [n - 1] on. *)
Theorem sma_constant (c : Q) (L n i : nat) :
  (1 <= n)%nat -> (i < L)%nat -> (n <= S i)%nat ->
  feq (iloc (calculate_sma (repeat (Fin c) L) n) i) (Fin c).
Proof.
  intros Hn Hi Hw. unfold calculate_sma.
  rewrite iloc_rolling by now rewrite repeat_length.
  destruct (Nat.ltb_spec (S i) n); [lia|].
  rewrite window_repeat, finite_values_repeat by assumption.
  rewrite agg_mean_finite by (destruct n; [lia | discriminate]).
  unfold Qlen. rewrite repeat_length. simpl feq. rewrite Qsum_repeat.
  assert (0 < inject_Z (Z.of_nat n)) by (apply inject_nat_pos; lia).
  field. lra.
Qed.

(** *** Exponential moving average *)

Lemma length_ewm_scan alpha st (s : Series) :
  length (ewm_scan alpha st s) = length s.
Proof.
  revert st. induction s as [|x s IH]; intro st; simpl; [reflexivity|].
  now rewrite IH.
Qed.

Lemma length_ewm_mean span (s : Series) : length (ewm_mean span s) = length s.
Proof.
  destruct s as [|x s]; [reflexivity|]. simpl. now rewrite length_ewm_scan.
Qed.

(** One step of the mean on numbers is a convex combination of the running
    value and the new value. *)
Lemma ewm_step_finite (alpha w q : Q) :
  exists v,
    ewm_step alpha (Fin w, Fin 1) (Fin q) = (Fin v, Fin 1) /\
    v == (1 - alpha) * w + alpha * q.
Proof.
  unfold ewm_step. cbn [isna fmul fne].
  destruct (Qeq_bool_spec w q) as [E|E]; cbn [negb].
  - exists w. split; [reflexivity|]. rewrite <- E. ring.
  - cbn [fmul fadd]. rewrite fdiv_finite by (intro H; ring_simplify in H; lra).
    eexists. split; [reflexivity|]. field. intro H. ring_simplify in H. lra.
Qed.

Lemma ewm_scan_between (alpha lo hi : Q) (qs : list Q) (w : Q) :
  0 <= alpha -> alpha <= 1 -> lo <= w -> w <= hi ->
  Forall (fun q => lo <= q /\ q <= hi) qs ->
  Forall (fun x => exists v, x = Fin v /\ lo <= v /\ v <= hi)
         (ewm_scan alpha (Fin w, Fin 1) (map Fin qs)).
Proof.
  intros Ha0 Ha1. revert w.
  induction qs as [|q qs IH]; intros w Hlo Hhi Hqs; [constructor|].
  inversion Hqs as [|? ? [Hq1 Hq2] Hqs']; subst.
  cbn [map ewm_scan].
  destruct (ewm_step_finite alpha w q) as (v & -> & Hv). cbn [fst].
  assert (Hv1 : lo <= v) by (rewrite Hv; nra).
  assert (Hv2 : v <= hi) by (rewrite Hv; nra).
  constructor; [now exists v|]. now apply IH.
Qed.

Lemma span_alpha (span : nat) :
  (1 <= span)%nat ->
  0 <= 2 / (inject_Z (Z.of_nat span) + 1) /\
  2 / (inject_Z (Z.of_nat span) + 1) <= 1.
Proof.
  intro H. assert (1 <= inject_Z (Z.of_nat span)).
  { change 1 with (inject_Z 1). rewrite <- Zle_Qle. lia. }
  split; [apply Qle_shift_div_l | apply Qle_shift_div_r]; lra.
Qed.

(** X2.  The exponential moving average has no undefined region: on a series
    of numbers of moderate size (at most 10^100 in absolute value) it has
    the length of the series, starts at the first value, and holds a number
    at every position, from the first on. *)
Theorem ema_defined_everywhere (qs : list Q) (span : nat) :
  (1 <= span)%nat ->
  Forall moderate qs ->
  let ema := calculate_ema (map Fin qs) span in
  length ema = length qs /\
  iloc ema 0 = iloc (map Fin qs) 0 /\
  all_finite ema.
Proof.
  intros Hspan Hqs ema. subst ema. unfold calculate_ema.
  split; [now rewrite length_ewm_mean, length_map|].
  destruct qs as [|q qs]; [split; [reflexivity | constructor]|].
  split; [reflexivity|].
  assert (Hb : Forall (fun x => - price_ceiling <= x /\ x <= price_ceiling)
                      (q :: qs)).
  { eapply Forall_impl; [|exact Hqs]. intros x Hx.
    now apply Qabs_Qle_condition. }
  inversion Hb as [|? ? [Hq1 Hq2] Hb']; subst.
  cbn [map ewm_mean]. constructor; [reflexivity|].
  destruct (span_alpha Hspan) as [Ha0 Ha1].
  eapply Forall_impl;
    [|exact (@ewm_scan_between _ _ _ qs q Ha0 Ha1 Hq1 Hq2 Hb')].
  intros x (v & -> & _). reflexivity.
Qed.





(** *** On-balance volume *)

Lemma nth_removelast {A : Type} (l : list A) (i : nat) (d : A) :
  (S i < length l)%nat -> nth i (removelast l) d = nth i l d.
Proof.
  intro H. rewrite removelast_firstn_len, nth_firstn.
  destruct (Nat.ltb_spec i (Nat.pred (length l))); [reflexivity | lia].
Qed.

Lemma iloc_shift_succ (s : Series) (i : nat) :
  (S i < length s)%nat -> iloc (shift s) (S i) = iloc s i.
Proof.
  intro H. destruct s as [|x s]; [simpl in H; lia|].
  unfold shift, iloc.
  change (nth i (removelast (x :: s)) NaN = nth i (x :: s) NaN).
  now apply nth_removelast.
Qed.

Lemma iloc_shift_0 (s : Series) : iloc (shift s) 0 = NaN.
Proof. destruct s; reflexivity. Qed.

Lemma iloc_diff_succ (s : Series) (i : nat) :
  (S i < length s)%nat ->
  iloc (diff s) (S i) = fsub (iloc s (S i)) (iloc s i).
Proof.
  intro H. unfold diff.
  rewrite iloc_zip_with by (rewrite ?length_shift; lia).
  now rewrite iloc_shift_succ.
Qed.

Lemma iloc_map_Fin (qs : list Q) (i : nat) :
  (i < length qs)%nat -> iloc (map Fin qs) i = Fin (nth i qs 0).
Proof.
  intro H. unfold iloc. rewrite (nth_indep _ NaN (Fin 0)) by now rewrite length_map.
  apply (map_nth Fin).
Qed.

Lemma cumsum_from_first (a : Q) (ts : list Q) :
  ts <> [] ->
  iloc (cumsum_from (Fin a) (map Fin ts)) 0 = Fin (a + nth 0 ts 0).
Proof. destruct ts as [|t ts]; [congruence | reflexivity]. Qed.

Lemma cumsum_from_succ (ts : list Q) : forall (a : Q) (i : nat),
  (S i < length ts)%nat ->
  exists p,
    iloc (cumsum_from (Fin a) (map Fin ts)) i = Fin p /\
    iloc (cumsum_from (Fin a) (map Fin ts)) (S i) = Fin (p + nth (S i) ts 0).
Proof.
  induction ts as [|t ts IH]; intros a i H; [simpl in H; lia|].
  destruct i as [|i].
  - destruct ts as [|t' ts]; [simpl in H; lia|].
    exists (a + t). split; reflexivity.
  - cbn [length] in H. destruct (IH (a + t) i) as (p & H1 & H2); [lia|].
    exists p. split; [exact H1 | exact H2].
Qed.

Lemma length_cumsum_from acc (s : Series) :
  length (cumsum_from acc s) = length s.
Proof.
  revert acc. induction s as [|x s IH]; intro acc; [reflexivity|].
  cbn [cumsum_from]. destruct (isna x); cbn [length]; now rewrite IH.
Qed.

Lemma obv_direction_finite (x : float) : is_finite (obv_direction x) = true.
Proof.
  unfold obv_direction. destruct (fgt x (Fin 0)); [reflexivity|].
  destruct (flt x (Fin 0)); reflexivity.
Qed.

Lemma obv_direction_cases (d : Q) :
  (0 < d /\ obv_direction (Fin d) = Fin 1) \/
  (d < 0 /\ obv_direction (Fin d) = Fin (-1)) \/
  (d == 0 /\ obv_direction (Fin d) = Fin 0).
Proof.
  unfold obv_direction, fgt, flt, Qlt_bool.
  destruct (Qle_bool_spec d 0) as [H1|H1]; cbn [negb].
  - destruct (Qle_bool_spec 0 d) as [H2|H2]; cbn [negb].
    + right. right. split; [lra | reflexivity].
    + right. left. split; [lra | reflexivity].
  - left. split; [lra | reflexivity].
Qed.

(** On-balance volume on numbers: one value per bar, 0 on the first bar, and
    from one bar to the next the volume is added when the close rose,
    subtracted when it fell, and left out when the close is the same. *)
Lemma obv_steps (cs vs : list Q) :
  length vs = length cs ->
  let obv := calculate_obv (map Fin cs) (map Fin vs) in
  length obv = length cs /\
  (cs <> [] -> feq (iloc obv 0) (Fin 0)) /\
  forall i, (S i < length cs)%nat ->
    exists prev cur,
      iloc obv i = Fin prev /\ iloc obv (S i) = Fin cur /\
      (nth i cs 0 < nth (S i) cs 0 -> cur == prev + nth (S i) vs 0) /\
      (nth (S i) cs 0 < nth i cs 0 -> cur == prev - nth (S i) vs 0) /\
      (nth (S i) cs 0 == nth i cs 0 -> cur == prev).
Proof.
  intros Hlen obv. subst obv. unfold calculate_obv, cumsum.
  set (terms := zip_with fmul (map Fin vs) (map obv_direction (diff (map Fin cs)))).
  assert (Hlt : length terms = length cs).
  { unfold terms. rewrite length_zip_with, !length_map, length_diff, length_map.
    lia. }
  assert (Hfin : all_finite terms).
  { unfold terms.
    apply Forall_zip_with with (Pa := fun x => is_finite x = true)
                               (Pb := fun x => is_finite x = true).
    - intros [| | |x] [| | |y]; simpl; congruence.
    - apply Forall_forall. intros x Hx. apply in_map_iff in Hx.
      destruct Hx as (q & <- & _). reflexivity.
    - apply Forall_forall. intros x Hx. apply in_map_iff in Hx.
      destruct Hx as (q & <- & _). apply obv_direction_finite. }
  destruct (finite_values_all Hfin) as (ts & Hts).
  apply finite_values_map in Hts.
  assert (Hlts : length ts = length cs) by (rewrite <- Hlt, Hts; now rewrite length_map).
  rewrite Hts. split; [now rewrite length_cumsum_from, length_map|].
  split.
  - intro Hne. rewrite cumsum_from_first by (destruct ts, cs; simpl in *; congruence).
    assert (H0 : iloc terms 0 = Fin (nth 0 ts 0)).
    { rewrite Hts. apply iloc_map_Fin. destruct cs; [congruence | simpl in *; lia]. }
    unfold terms in H0. rewrite iloc_zip_with in H0
      by (rewrite ?length_map, ?length_diff, ?length_map;
          destruct cs; [congruence | simpl in *; lia]).
    rewrite iloc_map in H0
      by (rewrite length_diff, length_map; destruct cs; [congruence | simpl; lia]).
    unfold diff in H0. rewrite iloc_zip_with in H0
      by (rewrite ?length_shift, length_map; destruct cs; [congruence | simpl; lia]).
    rewrite iloc_shift_0 in H0.
    rewrite iloc_map_Fin in H0 by (destruct cs; [congruence | simpl in *; lia]).
    rewrite iloc_map_Fin in H0 by (destruct cs; [congruence | simpl in *; lia]).
    cbn in H0. injection H0 as H0. simpl. rewrite <- H0. ring.
  - intros i Hi.
    destruct (@cumsum_from_succ ts 0 i) as (p & H1 & H2); [lia|].
    exists p, (p + nth (S i) ts 0). split; [exact H1|]. split; [exact H2|].
    assert (Ht : iloc terms (S i) = Fin (nth (S i) ts 0)).
    { rewrite Hts. apply iloc_map_Fin. lia. }
    unfold terms in Ht.
    rewrite iloc_zip_with in Ht
      by (rewrite ?length_map, ?length_diff, ?length_map; lia).
    rewrite iloc_map in Ht by (rewrite length_diff, length_map; lia).
    rewrite iloc_diff_succ in Ht by (rewrite length_map; lia).
    rewrite !iloc_map_Fin in Ht by lia.
    change (fsub (Fin (nth (S i) cs 0)) (Fin (nth i cs 0)))
      with (Fin (nth (S i) cs 0 + - nth i cs 0)) in Ht.
    destruct (obv_direction_cases (nth (S i) cs 0 + - nth i cs 0))
      as [[Hd E]|[[Hd E]|[Hd E]]];
      rewrite E in Ht; cbn [fmul] in Ht; injection Ht as Ht; rewrite <- Ht;
      repeat split; intros; lra.
Qed.

(** X4.  On-balance volume is a running total over the bars.  When the
    volumes are share counts (whole numbers, none negative, with a total
    below 2^53), it has one value per bar, starts at 0, and from one bar to
    the next it adds the volume of the bar when the close rose, subtracts it
    when the close fell, and is unchanged when the close is the same. *)
Theorem obv_follows_close (cs : list Q) (zs : list Z) :
  length zs = length cs ->
  share_counts zs ->
  let volume := map (fun z => Fin (inject_Z z)) zs in
  let obv := calculate_obv (map Fin cs) volume in
  length obv = length cs /\
  (cs <> [] -> feq (iloc obv 0) (Fin 0)) /\
  forall i, (S i < length cs)%nat ->
    exists prev cur,
      iloc obv i = Fin prev /\ iloc obv (S i) = Fin cur /\
      (nth i cs 0 < nth (S i) cs 0 ->
       cur == prev + inject_Z (nth (S i) zs 0%Z)) /\
      (nth (S i) cs 0 < nth i cs 0 ->
       cur == prev - inject_Z (nth (S i) zs 0%Z)) /\
      (nth (S i) cs 0 == nth i cs 0 -> cur == prev).
Proof.
  intros Hlen _ volume obv. subst obv volume.
  rewrite <- (map_map inject_Z Fin).
  assert (Hlen' : length (map inject_Z zs) = length cs)
    by now rewrite length_map.
  destruct (obv_steps cs (map inject_Z zs) Hlen') as (H1 & H2 & H3).
  split; [exact H1|]. split; [exact H2|].
  intros i Hi. destruct (H3 i Hi) as (prev & cur & E1 & E2 & A & B & C).
  exists prev, cur. split; [exact E1|]. split; [exact E2|].
  change 0 with (inject_Z 0) in A, B.
  rewrite map_nth in A, B. auto.
Qed.

(** *** Average true range *)

Lemma well_formed_columns (bars : list Bar) :
  Forall well_formed_bar bars ->
  all_finite (map b_high bars) /\ all_finite (map b_low bars) /\
  all_finite (map b_close bars).
Proof.
  intro H. repeat split; apply Forall_map; eapply Forall_impl; try exact H;
    intros b (h & l & c & Hh & Hl & Hc & _); cbn beta;
    rewrite ?Hh, ?Hl, ?Hc; reflexivity.
Qed.

Lemma well_formed_iloc (bars : list Bar) (i : nat) :
  Forall well_formed_bar bars -> (i < length bars)%nat ->
  exists h l c,
    iloc (map b_high bars) i = Fin h /\ iloc (map b_low bars) i = Fin l /\
    iloc (map b_close bars) i = Fin c /\ l <= c /\ c <= h.
Proof.
  intros H Hi.
  assert (Hb : well_formed_bar (nth i bars (flat_bar 0 0))).
  { eapply Forall_forall; [exact H | now apply nth_In]. }
  destruct Hb as (h & l & c & Hh & Hl & Hc & H1 & H2).
  exists h, l, c. unfold iloc.
  rewrite !(nth_indep _ NaN (Fin 0)) by now rewrite length_map.
  change (Fin 0) with (b_high (flat_bar 0 0)) at 1.
  change (Fin 0) with (b_low (flat_bar 0 0)) at 1.
  change (Fin 0) with (b_close (flat_bar 0 0)) at 1.
  rewrite !map_nth. auto.
Qed.

Lemma row_max_nonneg (a : Q) (b c : float) :
  0 <= a -> nan_or_nonneg b -> nan_or_nonneg c ->
  exists r, row_max [Fin a; b; c] = Fin r /\ 0 <= r.
Proof.
  intros Ha [->|(qb & -> & Hb)] [->|(qc & -> & Hc)];
    cbn [row_max isna]; unfold flt, Qlt_bool;
    repeat match goal with
           | |- context [Qle_bool ?x ?y] => destruct (Qle_bool x y); cbn
           end; eauto.
Qed.

Lemma fabs_sub_shift (x : Q) (y : float) :
  y = NaN \/ is_finite y = true -> nan_or_nonneg (fabs (fsub (Fin x) y)).
Proof.
  intros [->|H]; [now left|]. apply is_finite_value in H as (q & ->).
  right. eexists. split; [reflexivity|]. apply Qabs_nonneg.
Qed.

Lemma true_range_nonneg (bars : list Bar) :
  Forall well_formed_bar bars ->
  Forall (fun x => forall q, x = Fin q -> 0 <= q)
         (true_range (map b_high bars) (map b_low bars) (map b_close bars)).
Proof.
  intro H. apply Forall_iloc. intros i Hi.
  rewrite length_true_range in Hi by now rewrite !length_map.
  rewrite length_map in Hi.
  destruct (well_formed_iloc H Hi) as (h & l & c & Hh & Hl & Hc & H1 & H2).
  destruct (well_formed_columns H) as (_ & _ & Hfc).
  assert (Hs : iloc (shift (map b_close bars)) i = NaN \/
               is_finite (iloc (shift (map b_close bars)) i) = true).
  { apply (iloc_Forall (P := fun x => x = NaN \/ is_finite x = true)).
    - now apply shift_nan_or_finite.
    - now rewrite length_shift, length_map. }
  unfold true_range.
  rewrite iloc_zip3_with
    by (rewrite ?length_map, ?length_zip_with, ?length_shift, ?length_map; lia).
  rewrite !iloc_map
    by (rewrite ?length_zip_with, ?length_shift, ?length_map; lia).
  rewrite !iloc_zip_with by (rewrite ?length_shift, ?length_map; lia).
  rewrite Hh, Hl. change (fsub (Fin h) (Fin l)) with (Fin (h + - l)).
  destruct (@row_max_nonneg (h + - l)
              (fabs (fsub (Fin h) (iloc (shift (map b_close bars)) i)))
              (fabs (fsub (Fin l) (iloc (shift (map b_close bars)) i))))
    as (r & Hr & Hr0); [lra | now apply fabs_sub_shift..|].
  intros q Hq. rewrite Hr in Hq. injection Hq as <-. exact Hr0.
Qed.

Lemma atr_nonneg_at (bars : list Bar) (period i : nat) :
  Forall well_formed_bar bars ->
  (1 <= period)%nat -> (i < length bars)%nat -> (period <= S i)%nat ->
  exists a,
    iloc (calculate_atr (map b_high bars) (map b_low bars) (map b_close bars)
                        period) i = Fin a /\
    0 <= a.
Proof.
  intros H Hp Hi Hw. unfold calculate_atr.
  destruct (well_formed_columns H) as (Hfh & Hfl & Hfc).
  assert (Hdef := @rolling_mean_defined period
            (true_range (map b_high bars) (map b_low bars) (map b_close bars))
            Hp (true_range_finite (high := map b_high bars)
                  (low := map b_low bars) (close := map b_close bars)
                  ltac:(now rewrite !length_map) ltac:(now rewrite !length_map)
                  Hfh Hfl Hfc)).
  specialize (Hdef i). rewrite length_rolling, length_true_range, length_map in Hdef
    by now rewrite !length_map.
  specialize (Hdef Hi Hw).
  destruct (rolling_mean_nonneg period i (true_range_nonneg H)) as [E|E].
  - rewrite E in Hdef. discriminate.
  - exact E.
Qed.


(** X5.  On bars whose prices are ordinary (numbers from 10^-100 to 10^100)
    with low <= close <= high, the average true range is a number that is
    never negative at every position from [period - 1] on. *)
Theorem atr_nonnegative (bars : list Bar) (period i : nat) :
  Forall well_formed_bar bars -> Forall ordinary_bar bars ->
  (1 <= period)%nat -> (i < length bars)%nat -> (period <= S i)%nat ->
  exists a,
    iloc (calculate_atr (map b_high bars) (map b_low bars) (map b_close bars)
                        period) i = Fin a /\
    0 <= a.
Proof.
  intros H _ Hp Hi Hw. unfold calculate_atr.
  destruct (well_formed_columns H) as (Hfh & Hfl & Hfc).
  assert (Hdef := @rolling_mean_defined period
            (true_range (map b_high bars) (map b_low bars) (map b_close bars))
            Hp (true_range_finite (high := map b_high bars)
                  (low := map b_low bars) (close := map b_close bars)
                  ltac:(now rewrite !length_map) ltac:(now rewrite !length_map)
                  Hfh Hfl Hfc)).
  specialize (Hdef i). rewrite length_rolling, length_true_range, length_map in Hdef
    by now rewrite !length_map.
  specialize (Hdef Hi Hw).
  destruct (rolling_mean_nonneg period i (true_range_nonneg H)) as [E|E].
  - rewrite E in Hdef. discriminate.
  - exact E.
Qed.

(** *** Stochastic oscillator *)

Lemma fold_min_le (l : list Q) : forall x,
  fold_left Qmin l x <= x /\ forall y, In y l -> fold_left Qmin l x <= y.
Proof.
  induction l as [|z l IH]; intro x; cbn [fold_left].
  - split; [lra | intros y []].
  - destruct (IH (Qmin x z)) as [H1 H2].
    assert (Qmin x z <= x) by apply Q.le_min_l.
    assert (Qmin x z <= z) by apply Q.le_min_r.
    split; [lra|]. intros y [<-|Hy]; [lra | now apply H2].
Qed.

Lemma fold_max_ge (l : list Q) : forall x,
  x <= fold_left Qmax l x /\ forall y, In y l -> y <= fold_left Qmax l x.
Proof.
  induction l as [|z l IH]; intro x; cbn [fold_left].
  - split; [lra | intros y []].
  - destruct (IH (Qmax x z)) as [H1 H2].
    assert (x <= Qmax x z) by apply Q.le_max_l.
    assert (z <= Qmax x z) by apply Q.le_max_r.
    split; [lra|]. intros y [<-|Hy]; [lra | now apply H2].
Qed.

Lemma window_last (w i : nat) (s : Series) :
  (1 <= w)%nat -> (w <= S i)%nat -> (i < length s)%nat ->
  In (iloc s i) (window w i s).
Proof.
  intros Hw Hwi Hi.
  assert (E : iloc s i = nth (w - 1) (window w i s) NaN).
  { unfold window, iloc. rewrite nth_firstn.
    destruct (Nat.ltb_spec (w - 1) w); [|lia].
    rewrite nth_skipn. f_equal. lia. }
  rewrite E. apply nth_In. rewrite length_window by assumption. lia.
Qed.

Lemma window_value (w i : nat) (s : Series) (q : Q) :
  (1 <= w)%nat -> (w <= S i)%nat -> (i < length s)%nat ->
  all_finite s -> iloc s i = Fin q ->
  exists x qs, finite_values (window w i s) = Some (x :: qs) /\
               In q (x :: qs).
Proof.
  intros Hw Hwi Hi Hfin Hq.
  destruct (finite_values_all (Forall_window w i Hfin)) as (qs & Hqs).
  assert (Hin := @window_last w i s Hw Hwi Hi). rewrite Hq in Hin.
  rewrite (@finite_values_map _ _ Hqs) in Hin. apply in_map_iff in Hin.
  destruct Hin as (q' & [= ->] & Hin).
  destruct qs as [|x qs]; [destruct Hin|]. now exists x, qs.
Qed.

Lemma rolling_min_le (w i : nat) (s : Series) (q : Q) :
  (1 <= w)%nat -> (w <= S i)%nat -> (i < length s)%nat ->
  all_finite s -> iloc s i = Fin q ->
  exists m, iloc (rolling agg_min w s) i = Fin m /\ m <= q.
Proof.
  intros Hw Hwi Hi Hfin Hq.
  destruct (@window_value w i s q Hw Hwi Hi Hfin Hq) as (x & qs & Hv & Hin).
  rewrite iloc_rolling by assumption.
  destruct (Nat.ltb_spec (S i) w); [lia|]. rewrite Hv. cbn [agg_min].
  eexists. split; [reflexivity|].
  destruct (fold_min_le qs x) as [H1 H2].
  destruct Hin as [<-|Hin]; [exact H1 | now apply H2].
Qed.

Lemma rolling_max_ge (w i : nat) (s : Series) (q : Q) :
  (1 <= w)%nat -> (w <= S i)%nat -> (i < length s)%nat ->
  all_finite s -> iloc s i = Fin q ->
  exists m, iloc (rolling agg_max w s) i = Fin m /\ q <= m.
Proof.
  intros Hw Hwi Hi Hfin Hq.
  destruct (@window_value w i s q Hw Hwi Hi Hfin Hq) as (x & qs & Hv & Hin).
  rewrite iloc_rolling by assumption.
  destruct (Nat.ltb_spec (S i) w); [lia|]. rewrite Hv. cbn [agg_max].
  eexists. split; [reflexivity|].
  destruct (fold_max_ge qs x) as [H1 H2].
  destruct Hin as [<-|Hin]; [exact H1 | now apply H2].
Qed.

(** X6.  On bars whose prices are ordinary (numbers from 10^-100 to 10^100)
    with low <= close <= high, the stochastic %K from position
    [k_period - 1] on is either undefined (the window is flat) or a number
    that is not negative and exceeds 100 by no more than the rounding of the
    quotient (the bound stated is 100.000001); it is never infinite. *)
Theorem stochastic_k_range (bars : list Bar) (kp dp i : nat) :
  Forall well_formed_bar bars -> Forall ordinary_bar bars ->
  (1 <= kp)%nat -> (i < length bars)%nat -> (kp <= S i)%nat ->
  let k := iloc (stoch_K (calculate_stochastic (map b_high bars)
                            (map b_low bars) (map b_close bars) kp dp)) i in
  k = NaN \/ exists v, k = Fin v /\ 0 <= v /\ v <= 100.000001.
Proof.
  intros H _ Hp Hi Hw k. subst k.
  destruct (well_formed_columns H) as (Hfh & Hfl & Hfc).
  destruct (well_formed_iloc H Hi) as (h & l & c & Hh & Hl & Hc & H1 & H2).
  rewrite iloc_stoch_K by (rewrite ?length_map; auto).
  destruct (@rolling_min_le kp i (map b_low bars) l) as (ll & -> & Hll);
    rewrite ?length_map; auto.
  destruct (@rolling_max_ge kp i (map b_high bars) h) as (hh & -> & Hhh);
    rewrite ?length_map; auto.
  rewrite Hc. cbn [fsub fneg fadd fmul]. unfold fdiv.
  destruct (Qeq_bool_spec (hh + - ll) 0) as [E|E].
  - destruct (Qeq_bool_spec (100 * (c + - ll)) 0) as [E'|E']; [now left|].
    exfalso. apply E'. nra.
  - right. eexists. split; [reflexivity|].
    assert (0 < hh + - ll) by lra.
    split; [apply Qle_shift_div_l | apply Qle_shift_div_r]; lra.
Qed.

(** ** Further properties of the Backtest Simulator *)

(** *** The signal of a strategy *)

Lemma technical_rsi_vote_cases (df : DataFrame) :
  technical_rsi_vote df = [] \/
  technical_rsi_vote df = [("buy"%string, Fin 0.8)] \/
  technical_rsi_vote df = [("sell"%string, Fin 0.8)] \/
  technical_rsi_vote df = [("hold"%string, Fin 0.5)].
Proof.
  unfold technical_rsi_vote. destruct (option_last (rsi_14 df)) as [r|]; auto.
  destruct (negb (isna r)); auto.
  destruct (flt r (Fin 30)); auto. destruct (fgt r (Fin 70)); auto.
Qed.

Lemma technical_macd_vote_cases (df : DataFrame) :
  technical_macd_vote df = [] \/
  technical_macd_vote df = [("buy"%string, Fin 0.7)] \/
  technical_macd_vote df = [("sell"%string, Fin 0.7)].
Proof.
  unfold technical_macd_vote.
  destruct (option_last (macd df)) as [m|]; auto.
  destruct (option_last (macd_signal df)) as [ms|]; auto.
  destruct (negb (isna m) && negb (isna ms)); auto.
  destruct (fgt m ms); auto.
Qed.

Lemma technical_sma_vote_cases (df : DataFrame) (p : float) :
  technical_sma_vote df p = [] \/
  technical_sma_vote df p = [("buy"%string, Fin 0.75)] \/
  technical_sma_vote df p = [("sell"%string, Fin 0.75)].
Proof.
  unfold technical_sma_vote.
  destruct (option_last (sma_20 df)) as [a|]; auto.
  destruct (option_last (sma_50 df)) as [b|]; auto.
  destruct (negb (isna a) && negb (isna b)); auto.
  destruct (fgt p a && fgt a b); auto.
  destruct (flt p a && flt a b); auto.
Qed.

Ltac range_solve :=
  unfold signal_in_range; cbn [fst snd];
  split; [auto |
    eexists; split; [reflexivity |
      repeat split; intros; first [lra | discriminate]]].

Lemma technical_in_range (df : DataFrame) (p : float) :
  signal_in_range (_technical_strategy_signal df p).
Proof.
  unfold _technical_strategy_signal.
  destruct (technical_rsi_vote_cases df) as [ -> | [ -> | [ -> | -> ]]];
    destruct (technical_macd_vote_cases df) as [ -> | [ -> | -> ]];
    destruct (technical_sma_vote_cases df p) as [ -> | [ -> | -> ]];
    cbn; range_solve.
Qed.

Lemma momentum_in_range (df : DataFrame) :
  signal_in_range (_momentum_strategy_signal df).
Proof.
  unfold _momentum_strategy_signal.
  destruct (len df <? 20)%nat; [range_solve|].
  repeat match goal with
         | |- context [if ?b then _ else _] => destruct b
         end; range_solve.
Qed.

Lemma mean_reversion_in_range (df : DataFrame) (p : float) :
  signal_in_range (_mean_reversion_signal df p).
Proof.
  unfold _mean_reversion_signal. destruct (bb df) as [bands|]; [|range_solve].
  repeat match goal with
         | |- context [if ?b then _ else _] => destruct b
         end; range_solve.
Qed.

(** X7.  On a frame with at least one row, whatever the strategy name, the
    signal is "buy", "sell" or "hold" and the confidence is a number between
    0.5 and 0.85; it is 0.5 for "hold", and a "buy" whose confidence exceeds
    the entry threshold 0.6 has confidence at least 0.7 (the weak "buy" of
    the momentum and mean-reversion strategies, 0.6 and 0.55, never opens a
    trade).  The loop only asks for the signal of frames of at least 51
    rows. *)
Theorem get_signal_range (df : DataFrame) (strategy : string) :
  (1 <= len df)%nat ->
  let sc := _get_signal df strategy in
  (fst sc = "buy"%string \/ fst sc = "sell"%string \/ fst sc = "hold"%string) /\
  exists q, snd sc = Fin q /\ 0.5 <= q /\ q <= 0.85 /\
            (fst sc = "hold"%string -> q == 0.5) /\
            (fst sc = "buy"%string -> 0.6 < q -> 0.7 <= q).
Proof.
  intros _ sc. subst sc. change (signal_in_range (_get_signal df strategy)).
  unfold _get_signal.
  destruct (String.eqb strategy "technical"); [apply technical_in_range|].
  destruct (String.eqb strategy "momentum"); [apply momentum_in_range|].
  destruct (String.eqb strategy "mean_reversion");
    [apply mean_reversion_in_range | range_solve].
Qed.

Lemma get_signal_in_range (df : DataFrame) (strategy : string) :
  signal_in_range (_get_signal df strategy).
Proof.
  unfold _get_signal.
  destruct (String.eqb strategy "technical"); [apply technical_in_range|].
  destruct (String.eqb strategy "momentum"); [apply momentum_in_range|].
  destruct (String.eqb strategy "mean_reversion");
    [apply mean_reversion_in_range | range_solve].
Qed.

(** *** The schedule of the loop *)

Lemma trade_spans_impl sym df strategy (P Q : nat -> Prop) ts : forall lo,
  (forall lo', (lo <= lo')%nat -> P lo' -> Q lo') ->
  trade_spans sym df strategy lo ts P -> trade_spans sym df strategy lo ts Q.
Proof.
  induction ts as [|t ts IH]; intros lo HPQ H; cbn [trade_spans] in *.
  - apply HPQ; [lia | exact H].
  - destruct H as (j & k & H1 & H2 & H3 & H4 & H5 & H6 & H7).
    exists j, k. repeat (split; [assumption|]).
    apply IH; [|exact H7]. intros lo' Hlo. apply HPQ. lia.
Qed.

Lemma trade_spans_snoc sym df strategy (Q : nat -> Prop) t ts : forall lo,
  trade_spans sym df strategy lo ts
    (fun lo' => trade_spans sym df strategy lo' [t] Q) ->
  trade_spans sym df strategy lo (ts ++ [t]) Q.
Proof.
  induction ts as [|t0 ts IH]; intros lo H; [exact H|].
  cbn [app trade_spans] in *.
  destruct H as (j & k & H1 & H2 & H3 & H4 & H5 & H6 & H7).
  exists j, k. repeat (split; [assumption|]). now apply IH.
Qed.

Lemma trade_spans_bound sym df strategy (P : nat -> Prop) hi ts : forall lo,
  (forall lo', P lo' -> (lo' <= hi)%nat) ->
  trade_spans sym df strategy lo ts P -> (lo <= hi)%nat.
Proof.
  induction ts as [|t ts IH]; intros lo HP H; cbn [trade_spans] in H.
  - now apply HP.
  - destruct H as (j & k & H1 & H2 & _ & _ & _ & _ & H7).
    specialize (IH (S k) HP H7). lia.
Qed.

(** Every trade of a schedule has its span inside the bounds. *)
Lemma trade_spans_Forall sym df strategy (P : nat -> Prop) hi ts : forall lo,
  (forall lo', P lo' -> (lo' <= hi)%nat) ->
  trade_spans sym df strategy lo ts P ->
  Forall (fun t => exists j k,
            (lo <= j)%nat /\ (j < k)%nat /\ (k < hi)%nat /\
            closed_at sym df strategy j k t /\
            held_between df strategy j k t /\
            first_matching df strategy k t <> None) ts.
Proof.
  induction ts as [|t ts IH]; intros lo HP H; [constructor|].
  cbn [trade_spans] in H.
  destruct H as (j & k & H1 & H2 & H3 & H4 & H5 & H6 & H7).
  assert (Hk := @trade_spans_bound sym df strategy P hi ts (S k) HP H7).
  constructor.
  - exists j, k. split; [lia|]. split; [lia|]. split; [lia|]. auto.
  - eapply Forall_impl; [|exact (IH (S k) HP H7)].
    intros t' (j' & k' & G1 & G2 & G3 & G4 & G5 & G6).
    exists j', k'. split; [lia|]. split; [lia|]. split; [lia|]. auto.
Qed.

(** The fields that the exit conditions read. *)
Lemma exit_matches_ext df strategy i (t t' : BacktestTrade) c :
  target_price t' = target_price t -> stop_loss t' = stop_loss t ->
  entry_date t' = entry_date t ->
  exit_matches df strategy i t' c = exit_matches df strategy i t c.
Proof.
  intros H1 H2 H3. unfold exit_matches, holding_days_at.
  now rewrite H1, H2, H3.
Qed.

Lemma first_matching_ext df strategy i (t t' : BacktestTrade) :
  target_price t' = target_price t -> stop_loss t' = stop_loss t ->
  entry_date t' = entry_date t ->
  first_matching df strategy i t' = first_matching df strategy i t.
Proof.
  intros H1 H2 H3. unfold first_matching, exit_priority. cbn [find].
  now rewrite !(@exit_matches_ext df strategy i t t' _ H1 H2 H3).
Qed.

Lemma first_matching_none df strategy i t :
  first_matching df strategy i t = None <->
  should_exit (exit_check df strategy i (nth i (index df) 0%Z)
                          (iloc (col_close df) i) t) = false.
Proof.
  rewrite exit_check_should_exit. unfold first_matching, exit_priority.
  cbn [find existsb].
  destruct (exit_matches df strategy i t ByTarget),
           (exit_matches df strategy i t ByStopLoss),
           (exit_matches df strategy i t BySignal),
           (exit_matches df strategy i t ByTimeout);
    cbn; split; congruence.
Qed.

(** The trade under check keeps the fields of the open trade. *)
Lemma checked_fields price (t : BacktestTrade) :
  let t' := checked (check_target_stop price t) in
  symbol t' = symbol t /\ action t' = action t /\
  entry_date t' = entry_date t /\ entry_price t' = entry_price t /\
  target_price t' = target_price t /\ stop_loss t' = stop_loss t /\
  confidence t' = confidence t /\ technical_score t' = technical_score t.
Proof.
  unfold check_target_stop.
  destruct (fge price (target_price t)); [cbn; repeat split|].
  destruct (fle price (stop_loss t)); cbn; repeat split.
Qed.

Lemma opened_at_fields sym df strategy j (t t' : BacktestTrade) :
  symbol t' = symbol t -> action t' = action t ->
  entry_date t' = entry_date t -> entry_price t' = entry_price t ->
  target_price t' = target_price t -> stop_loss t' = stop_loss t ->
  confidence t' = confidence t -> technical_score t' = technical_score t ->
  opened_at sym df strategy j t -> opened_at sym df strategy j t'.
Proof.
  unfold opened_at. intros -> -> -> -> -> -> -> -> H. exact H.
Qed.

Lemma bar_step_flat sym df ps strategy st i :
  current_trade st = None ->
  bar_step sym df ps strategy st i
  = if entry_signal df strategy i then
      {| trades := trades st;
         current_trade :=
           Some (open_trade sym df i (nth i (index df) 0%Z)
                   (iloc (col_close df) i)
                   (snd (_get_signal (iloc_head (i + 1) df) strategy))) |}
    else st.
Proof.
  intro H. unfold bar_step, entry_signal. rewrite H.
  destruct (_get_signal (iloc_head (i + 1) df) strategy) as [sig conf].
  reflexivity.
Qed.

Lemma bar_step_holding sym df ps strategy st i t :
  current_trade st = Some t ->
  bar_step sym df ps strategy st i
  = match first_matching df strategy i t with
    | None => {| trades := trades st; current_trade := Some t |}
    | Some _ =>
        {| trades :=
             trades st ++
               [close_trade ps (nth i (index df) 0%Z) (iloc (col_close df) i)
                  (checked (check_target_stop (iloc (col_close df) i) t))];
           current_trade := None |}
    end.
Proof.
  intro H. unfold bar_step. rewrite H.
  destruct (first_matching df strategy i t) as [c|] eqn:E.
  - destruct (should_exit _) eqn:Es.
    + now rewrite exit_check_checked.
    + apply first_matching_none in Es. congruence.
  - assert (Es := proj1 (first_matching_none df strategy i t) E).
    rewrite Es, exit_check_checked.
    unfold first_matching, exit_priority in E. cbn [find] in E.
    destruct (exit_matches df strategy i t ByTarget) eqn:E1; [discriminate|].
    destruct (exit_matches df strategy i t ByStopLoss) eqn:E2; [discriminate|].
    cbn [exit_matches] in E1, E2. now rewrite check_target_stop_open.
Qed.

Lemma open_trade_opened sym df strategy i :
  entry_signal df strategy i = true ->
  opened_at sym df strategy i
    (open_trade sym df i (nth i (index df) 0%Z) (iloc (col_close df) i)
                (snd (_get_signal (iloc_head (i + 1) df) strategy))).
Proof.
  unfold entry_signal, opened_at. intro H.
  apply andb_prop in H as [H1 H2]. apply String.eqb_eq in H1.
  cbn [symbol action entry_date entry_price target_price stop_loss
       confidence technical_score open_trade].
  repeat (split; [first [assumption | reflexivity]|]). reflexivity.
Qed.

Lemma bar_step_schedule sym df ps strategy st i :
  loop_schedule sym df strategy i st ->
  loop_schedule sym df strategy (S i) (bar_step sym df ps strategy st i).
Proof.
  unfold loop_schedule. intro H.
  destruct (current_trade st) as [t|] eqn:Hc.
  - rewrite (@bar_step_holding sym df ps strategy st i t Hc).
    destruct (first_matching df strategy i t) as [c|] eqn:E;
      cbn [trades current_trade].
    + apply trade_spans_snoc. eapply trade_spans_impl; [|exact H].
      intros lo _ (j & H1 & H2 & H3 & H4 & H5). cbn [trade_spans].
      set (t' := close_trade ps _ _ _).
      destruct (checked_fields (iloc (col_close df) i) t)
        as (F1 & F2 & F3 & F4 & F5 & F6 & F7 & F8).
      assert (Hext : forall m, first_matching df strategy m t'
                               = first_matching df strategy m t).
      { intro m. apply first_matching_ext; subst t'; cbn; assumption. }
      exists j, i. repeat (split; [assumption|]).
      split; [|split; [|split; [|split]]].
      * split; [|split; reflexivity].
        eapply opened_at_fields; [..|exact H4]; subst t'; cbn; assumption.
      * intros m Hm. rewrite Hext. now apply H5.
      * rewrite Hext, E. discriminate.
      * lia.
      * intros m Hm. lia.
    + eapply trade_spans_impl; [|exact H].
      intros lo _ (j & H1 & H2 & H3 & H4 & H5).
      exists j. split; [assumption|]. split; [lia|].
      repeat (split; [assumption|]).
      intros m Hm. destruct (Nat.eq_dec m i) as [->|Hne]; [exact E|].
      apply H5. lia.
  - rewrite (@bar_step_flat sym df ps strategy st i Hc).
    destruct (entry_signal df strategy i) eqn:E; cbn [trades current_trade].
    + eapply trade_spans_impl; [|exact H].
      intros lo _ [H1 H2]. exists i. split; [assumption|]. split; [lia|].
      split; [assumption|]. split; [now apply open_trade_opened|].
      intros m Hm. lia.
    + rewrite Hc. eapply trade_spans_impl; [|exact H].
      intros lo _ [H1 H2]. split; [lia|].
      intros m Hm. destruct (Nat.eq_dec m i) as [->|Hne]; [exact E|].
      apply H2. lia.
Qed.

Lemma state_before_schedule sym df ps strategy i :
  (50 <= i)%nat ->
  loop_schedule sym df strategy i (state_before sym df ps strategy i).
Proof.
  intro Hi. induction i as [|i IH]; [lia|].
  destruct (Nat.eq_dec (S i) 50) as [E|E].
  - rewrite E. unfold state_before, loop_schedule. cbn.
    split; [lia|]. intros m Hm. lia.
  - rewrite state_before_succ by lia. apply bar_step_schedule. apply IH. lia.
Qed.

Lemma simulate_short sym df ps strategy :
  (len df <= 50)%nat -> simulate sym df ps strategy = initial_state.
Proof.
  intro H. unfold simulate, state_before.
  replace (len df - 50)%nat with 0%nat by lia. reflexivity.
Qed.

Lemma simulate_spans sym df ps strategy :
  Forall (fun t => exists j k,
            (50 <= j)%nat /\ (j < k)%nat /\ (k < len df)%nat /\
            closed_at sym df strategy j k t /\
            held_between df strategy j k t /\
            first_matching df strategy k t <> None)
         (trades (simulate sym df ps strategy)).
Proof.
  destruct (Nat.le_gt_cases (len df) 50) as [H|H].
  - rewrite simulate_short by assumption. constructor.
  - assert (Hs := @state_before_schedule sym df ps strategy (len df) ltac:(lia)).
    unfold loop_schedule in Hs. fold (simulate sym df ps strategy) in Hs.
    eapply trade_spans_Forall; [|exact Hs].
    intros lo. destruct (current_trade _).
    + intros (j & ? & ? & _). lia.
    + intros [? _]. assumption.
Qed.

(** X8.  Every trade returned by the loop is a long trade of the symbol,
    entered at the close of a bar [j >= 50] and left at the close of a later
    bar [k] of the frame, with the dates of those bars; its technical score
    is its confidence, a number between 0.7 and 0.85. *)
Theorem trade_provenance sym df ps strategy :
  Forall (fun t =>
            symbol t = sym /\ action t = "buy"%string /\
            technical_score t = confidence t /\
            (exists q, confidence t = Fin q /\ 0.7 <= q /\ q <= 0.85) /\
            exists j k,
              (50 <= j)%nat /\ (j < k)%nat /\ (k < len df)%nat /\
              entry_date t = nth j (index df) 0%Z /\
              entry_price t = iloc (col_close df) j /\
              exit_date t = Some (nth k (index df) 0%Z) /\
              exit_price t = Some (iloc (col_close df) k))
         (trades (simulate sym df ps strategy)).
Proof.
  eapply Forall_impl; [|apply simulate_spans].
  intros t (j & k & Hj & Hjk & Hk & (Ho & He1 & He2) & _ & _).
  destruct Ho as (B1 & B2 & B3 & B4 & B5 & B6 & _ & _ & B9 & B10).
  split; [exact B3|]. split; [exact B4|]. split; [congruence|]. split.
  - destruct (get_signal_in_range (iloc_head (j + 1) df) strategy)
      as (_ & q & Hq & Q1 & Q2 & _ & Q4).
    exists q. split; [congruence|]. split; [|exact Q2].
    apply Q4; [exact B1|]. rewrite Hq in B2. cbn in B2.
    unfold Qlt_bool in B2. destruct (Qle_bool_spec q 0.6); [discriminate | lra].
  - exists j, k. auto 10.
Qed.

(** X9.  The loop follows a greedy schedule: starting from bar 50, a trade is
    opened on the first bar whose signal is "buy" with confidence above 0.6,
    it is closed on the first later bar on which an exit condition holds,
    and the search for the next entry starts on the bar after the exit; what
    follows the last exit is either flat without entry signal or one open
    position that has met no exit condition. *)
Theorem loop_follows_schedule sym df ps strategy :
  (50 <= len df)%nat ->
  loop_schedule sym df strategy (len df) (simulate sym df ps strategy).
Proof. intro H. now apply state_before_schedule. Qed.

Lemma simulate_spans_sorted sym df strategy (P : nat -> Prop) ts : forall lo,
  dates_increase df ->
  (forall lo', P lo' -> (lo' <= len df)%nat) ->
  trade_spans sym df strategy lo ts P ->
  StronglySorted (fun a b => (exit_day a < entry_date b)%Z) ts.
Proof.
  induction ts as [|t ts IH]; intros lo Hd HP H; [constructor|].
  cbn [trade_spans] in H.
  destruct H as (j & k & H1 & H2 & H3 & (Ho & He1 & He2) & H5 & H6 & H7).
  constructor; [now apply (IH (S k))|].
  eapply Forall_impl;
    [|exact (@trade_spans_Forall sym df strategy P (len df) ts (S k) HP H7)].
  intros t' (j' & k' & G1 & G2 & G3 & (Go & _) & _).
  destruct Go as (_ & _ & _ & _ & G5 & _).
  unfold exit_day. rewrite He1, G5. apply Hd. lia.
Qed.

(** X10.  When the index of the frame holds dates and they increase, every
    returned trade leaves at least one day after it entered, and the trades
    of a symbol do not overlap: each one exits before the next one
    enters. *)
Theorem trades_do_not_overlap sym df ps strategy :
  datetime_index df = true ->
  dates_increase df ->
  Forall (fun t => (1 <= holding_days t)%Z)
         (trades (simulate sym df ps strategy)) /\
  StronglySorted (fun a b => (exit_day a < entry_date b)%Z)
                 (trades (simulate sym df ps strategy)).
Proof.
  intros _ Hd. split.
  - eapply Forall_impl; [|apply simulate_spans].
    intros t (j & k & Hj & Hjk & Hk & (Ho & He1 & He2) & _ & _).
    destruct Ho as (_ & _ & _ & _ & B5 & _).
    unfold holding_days. rewrite He1, B5.
    assert (nth j (index df) 0 < nth k (index df) 0)%Z by (apply Hd; lia). lia.
  - destruct (Nat.le_gt_cases (len df) 50) as [H|H].
    + rewrite simulate_short by assumption. constructor.
    + assert (Hs := @state_before_schedule sym df ps strategy (len df) ltac:(lia)).
      unfold loop_schedule in Hs. fold (simulate sym df ps strategy) in Hs.
      eapply simulate_spans_sorted; [exact Hd | | exact Hs].
      intros lo. destruct (current_trade _).
      * intros (j & ? & ? & _). lia.
      * intros [? _]. assumption.
Qed.

Lemma timeout_matches df strategy m t :
  first_matching df strategy m t = None ->
  (30 <? holding_days_at df m (nth m (index df) 0%Z) t)%Z = false.
Proof.
  unfold first_matching, exit_priority. cbn [find]. intro H.
  destruct (exit_matches df strategy m t ByTarget); [discriminate|].
  destruct (exit_matches df strategy m t ByStopLoss); [discriminate|].
  destruct (exit_matches df strategy m t BySignal); [discriminate|].
  destruct (exit_matches df strategy m t ByTimeout) eqn:E; [discriminate|].
  exact E.
Qed.

(** X11.  With an index that holds no dates the holding period is taken to
    be the bar number, which is above 30 from the first bar of the loop on:
    every trade is closed on the bar right after its entry. *)
Theorem undated_index_one_bar_trades sym df ps strategy :
  datetime_index df = false ->
  Forall (fun t => exists j,
            (50 <= j)%nat /\ (S j < len df)%nat /\
            entry_date t = nth j (index df) 0%Z /\
            entry_price t = iloc (col_close df) j /\
            exit_date t = Some (nth (S j) (index df) 0%Z) /\
            exit_price t = Some (iloc (col_close df) (S j)))
         (trades (simulate sym df ps strategy)).
Proof.
  intro Hdt. eapply Forall_impl; [|apply simulate_spans].
  intros t (j & k & Hj & Hjk & Hk & (Ho & He1 & He2) & Hheld & _).
  destruct Ho as (_ & _ & _ & _ & B5 & B6 & _).
  assert (E : k = S j).
  { destruct (Nat.eq_dec k (S j)) as [E|E]; [exact E|]. exfalso.
    assert (Hm := timeout_matches df strategy (S j) t (Hheld (S j) ltac:(lia))).
    unfold holding_days_at in Hm. rewrite Hdt in Hm.
    apply Z.ltb_ge in Hm. lia. }
  subst k. exists j. auto 10.
Qed.


(** ** Further properties of the Signal Analyzer *)

Lemma signal_values_range (s : Signal) :
  exists v, signal_values s = Fin v /\ 0 <= v /\ v <= 100.
Proof. destruct s; eexists; (split; [reflexivity | lra]). Qed.

Lemma weighted_fold (lo hi : Q) (signals : list TechnicalSignal) :
  Forall (fun s => exists w v,
            strength s = Fin w /\ 0 < w /\
            signal_values (signal s) = Fin v /\ lo <= v /\ v <= hi) signals ->
  forall a b, lo * b <= a -> a <= hi * b ->
  exists ws tw,
    fold_left fadd
      (map (fun s => fmul (signal_values (signal s)) (strength s)) signals)
      (Fin a) = Fin ws /\
    fold_left fadd (map strength signals) (Fin b) = Fin tw /\
    lo * tw <= ws /\ ws <= hi * tw /\ b <= tw /\
    (signals <> [] -> b < tw).
Proof.
  induction 1 as [|s l (w & v & Hw & Hw0 & Hv & Hv1 & Hv2) _ IH];
    intros a b Ha1 Ha2.
  - exists a, b. repeat split; try assumption; try lra. congruence.
  - cbn [map fold_left]. rewrite Hw, Hv. cbn [fmul fadd].
    destruct (IH (a + v * w) (b + w)) as (ws & tw & E1 & E2 & B1 & B2 & B3 & _);
      [nra | nra |].
    exists ws, tw. repeat split; try assumption; try lra.
Qed.

Lemma category_score_bounds (signals : list TechnicalSignal) (lo hi : Q) :
  signals <> [] ->
  Forall (fun s => (exists w, strength s = Fin w /\ 0 < w) /\
                   fle (Fin lo) (signal_values (signal s)) = true /\
                   fle (signal_values (signal s)) (Fin hi) = true) signals ->
  _calculate_category_score [] = Fin 50 /\
  exists v, _calculate_category_score signals = Fin v /\
            lo <= v /\ v <= hi /\ 0 <= v /\ v <= 100.
Proof.
  intros Hne H. split; [reflexivity|].
  assert (H' : Forall (fun s => exists w v,
                strength s = Fin w /\ 0 < w /\
                signal_values (signal s) = Fin v /\
                Qmax lo 0 <= v /\ v <= Qmin hi 100) signals).
  { eapply Forall_impl; [|exact H].
    intros s ((w & Hw & Hw0) & H1 & H2).
    destruct (signal_values_range (signal s)) as (v & Hv & Hv0 & Hv1).
    rewrite Hv in H1, H2. cbn in H1, H2.
    destruct (Qle_bool_spec lo v); [|discriminate].
    destruct (Qle_bool_spec v hi); [|discriminate].
    exists w, v. repeat split; try assumption.
    - apply Q.max_lub; assumption.
    - apply Q.min_glb; assumption. }
  destruct (@weighted_fold (Qmax lo 0) (Qmin hi 100) signals H' 0 0)
    as (ws & tw & E1 & E2 & B1 & B2 & _ & B4); [lra | lra |].
  specialize (B4 Hne).
  unfold _calculate_category_score. destruct signals as [|s l]; [congruence|].
  unfold py_sum. rewrite E1, E2. cbn [fgt flt]. unfold Qlt_bool.
  destruct (Qle_bool_spec tw 0); [lra|]. cbn [negb].
  rewrite fdiv_finite by lra.
  eexists. split; [reflexivity|].
  assert (L1 := Q.le_max_l lo 0). assert (L2 := Q.le_max_r lo 0).
  assert (L3 := Q.le_min_l hi 100). assert (L4 := Q.le_min_r hi 100).
  assert (Qmax lo 0 <= ws / tw) by (apply Qle_shift_div_l; lra).
  assert (ws / tw <= Qmin hi 100) by (apply Qle_shift_div_r; lra).
  repeat split; lra.
Qed.


(** X13.  The score of a category of at most a thousand signals whose
    strengths are numbers of ordinary size (from 10^-100 to 10^100) lies
    between the smallest and the largest signal value present, up to the
    rounding of the weighted mean (the margin stated is 0.000001); it is
    never negative, and at most 100 up to the same margin.  Without signals
    the score is the neutral 50. *)
Theorem category_score_between (signals : list TechnicalSignal) (lo hi : Q) :
  signals <> [] -> (length signals <= 1000)%nat ->
  Forall (fun s => (exists w, strength s = Fin w /\ ordinary w) /\
                   fle (Fin lo) (signal_values (signal s)) = true /\
                   fle (signal_values (signal s)) (Fin hi) = true) signals ->
  _calculate_category_score [] = Fin 50 /\
  exists v, _calculate_category_score signals = Fin v /\
            lo - 0.000001 <= v /\ v <= hi + 0.000001 /\
            0 <= v /\ v <= 100.000001.
Proof.
  intros Hne _ H.
  assert (H' : Forall (fun s => (exists w, strength s = Fin w /\ 0 < w) /\
                   fle (Fin lo) (signal_values (signal s)) = true /\
                   fle (signal_values (signal s)) (Fin hi) = true) signals).
  { eapply Forall_impl; [|exact H].
    intros s ((w & Hw & Hlo & _) & H1 & H2).
    split; [|split; assumption]. exists w. split; [exact Hw|].
    unfold price_floor in Hlo.
    apply Qlt_le_trans with (y := 1 # 10 ^ 100); [reflexivity | exact Hlo]. }
  destruct (@category_score_bounds signals lo hi Hne H')
    as (E & v & Hv & B1 & B2 & B3 & B4).
  split; [exact E|]. exists v. split; [exact Hv|].
  repeat split; lra.
Qed.

(** *** Price targets from the levels *)

Lemma expected_return_positive (t : float) (c : Q) :
  0 < c -> fgt t (Fin c) = true ->
  fgt (fmul (fdiv (fsub t (Fin c)) (Fin c)) (Fin 100)) (Fin 0) = true.
Proof.
  intros Hc Ht. destruct t as [| | |q]; try discriminate.
  - cbn [fsub fneg fadd fdiv]. unfold Qlt_bool.
    destruct (Qle_bool_spec 0 c); [|lra]. reflexivity.
  - cbn in Ht. unfold Qlt_bool in Ht.
    destruct (Qle_bool_spec q c); [discriminate|].
    cbn [fsub fneg fadd]. rewrite fdiv_finite by lra. cbn [fmul fgt flt].
    unfold Qlt_bool.
    assert (0 < (q + - c) / c) by (apply Qlt_shift_div_l; lra).
    destruct (Qle_bool_spec ((q + - c) / c * 100) 0); [lra | reflexivity].
Qed.

Lemma expected_return_negative (t : float) (c : Q) :
  0 < c -> flt t (Fin c) = true ->
  flt (fmul (fdiv (fsub t (Fin c)) (Fin c)) (Fin 100)) (Fin 0) = true.
Proof.
  intros Hc Ht. destruct t as [| | |q]; try discriminate.
  - cbn [fsub fneg fadd fdiv]. unfold Qlt_bool.
    destruct (Qle_bool_spec 0 c); [|lra]. reflexivity.
  - cbn in Ht. unfold Qlt_bool in Ht.
    destruct (Qle_bool_spec c q); [discriminate|].
    cbn [fsub fneg fadd]. rewrite fdiv_finite by lra. cbn [fmul flt].
    unfold Qlt_bool.
    assert ((q + - c) / c < 0).
    { apply Qlt_shift_div_r; lra. }
    destruct (Qle_bool_spec 0 ((q + - c) / c * 100)); [lra | reflexivity].
Qed.

Lemma first_level_below (levels : list float) (c d : Q) :
  Forall (fun l => flt l (Fin c) = true) levels -> d < c ->
  flt (first_level_or levels (Fin d)) (Fin c) = true.
Proof.
  intros H Hd. destruct levels as [|l levels]; cbn.
  - unfold Qlt_bool. destruct (Qle_bool_spec c d); [lra | reflexivity].
  - now inversion H.
Qed.

Lemma first_level_above (levels : list float) (c d : Q) :
  Forall (fun l => fgt l (Fin c) = true) levels -> c < d ->
  fgt (first_level_or levels (Fin d)) (Fin c) = true.
Proof.
  intros H Hd. destruct levels as [|l levels]; cbn.
  - unfold Qlt_bool. destruct (Qle_bool_spec d c); [lra | reflexivity].
  - now inversion H.
Qed.

Lemma price_targets_bracket (p : Prediction.t) (c : Q)
    (support resistance : list float) :
  Prediction.current_price p = Fin c -> 0 < c ->
  Forall (fun l => flt l (Fin c) = true) support ->
  Forall (fun h => fgt h (Fin c) = true) resistance ->
  let r := _calculate_price_targets p support resistance in
  (Prediction.action p = "buy"%string ->
   flt (Prediction.stop_loss r) (Fin c) = true /\
   fgt (Prediction.target_price r) (Fin c) = true /\
   fgt (Prediction.expected_return_percent r) (Fin 0) = true) /\
  (Prediction.action p = "sell"%string ->
   flt (Prediction.target_price r) (Fin c) = true /\
   fgt (Prediction.stop_loss r) (Fin c) = true /\
   flt (Prediction.expected_return_percent r) (Fin 0) = true) /\
  (Prediction.action p <> "buy"%string ->
   Prediction.action p <> "sell"%string ->
   Prediction.target_price r = Fin c /\
   flt (Prediction.stop_loss r) (Fin c) = true /\
   feq (Prediction.expected_return_percent r) (Fin 0)).
Proof.
  intros Hp Hc Hs Hr r. subst r. unfold _calculate_price_targets.
  rewrite Hp. cbn [fmul].
  assert (B1 := @first_level_below support c (c * 0.95) Hs ltac:(lra)).
  assert (B2 := @first_level_below support c (c * 0.90) Hs ltac:(lra)).
  assert (A1 := @first_level_above resistance c (c * 1.10) Hr ltac:(lra)).
  assert (A2 := @first_level_above resistance c (c * 1.05) Hr ltac:(lra)).
  split; [|split].
  - intros ->. cbn. repeat split; try assumption.
    now apply expected_return_positive.
  - intros ->. cbn. repeat split; try assumption.
    now apply expected_return_negative.
  - intros H1 H2.
    destruct (String.eqb_spec (Prediction.action p) "buy"); [congruence|].
    destruct (String.eqb_spec (Prediction.action p) "sell"); [congruence|].
    cbn. split; [reflexivity|]. split.
    + unfold Qlt_bool. destruct (Qle_bool_spec c (c * 0.95)); [lra | reflexivity].
    + destruct (Qeq_bool_spec c 0); [lra|]. cbn. field. lra.
Qed.

Lemma firstn_Forall_sorted (P : float -> Prop) le n (l : list float) :
  Forall P l -> Forall P (firstn n (sort_by le l)).
Proof.
  intro H. apply Forall_firstn.
  eapply Permutation_Forall; [|exact H].
  apply Permutation_sym, sort_by_perm.
Qed.

(** The levels of [_find_support_resistance] lie on their side of the
    current price. *)
Lemma levels_bracket_price (df : DataFrame) (n : nat) :
  Forall (fun l => flt l (iloc_neg (col_close df) 1) = true)
         (fst (_find_support_resistance df n)) /\
  Forall (fun h => fgt h (iloc_neg (col_close df) 1) = true)
         (snd (_find_support_resistance df n)).
Proof.
  unfold _find_support_resistance. cbn [fst snd]. split.
  - apply firstn_Forall_sorted.
    apply (Forall_filter_holds (fun l => flt l (iloc_neg (col_close df) 1))).
  - apply firstn_Forall_sorted.
    apply (Forall_filter_holds (fun h => fgt h (iloc_neg (col_close df) 1))).
Qed.

(** ** Further properties of the metrics *)

(** *** The breakdown by symbol *)

Lemma append_return_keys (s : string) (r : float) (d : list (string * list float)) :
  (In s (map fst d) -> map fst (append_return s r d) = map fst d) /\
  (~ In s (map fst d) -> map fst (append_return s r d) = map fst d ++ [s]).
Proof.
  induction d as [|[k rets] d [IH1 IH2]]; cbn [append_return map fst].
  - split; [intros [] | reflexivity].
  - destruct (String.eqb_spec k s) as [E|E]; cbn [map fst]; split.
    + reflexivity.
    + intro H. exfalso. apply H. now left.
    + intros [H|H]; [congruence|]. now rewrite IH1.
    + intro H. cbn [app]. rewrite IH2; [reflexivity|]. intro. apply H. now right.
Qed.

Lemma append_return_In (s : string) (r : float) (d : list (string * list float))
    (k : string) (rets' : list float) :
  NoDup (map fst d) ->
  In (k, rets') (append_return s r d) ->
  (k <> s /\ In (k, rets') d) \/
  (k = s /\ exists rets, In (s, rets) d /\ rets' = rets ++ [r]) \/
  (k = s /\ ~ In s (map fst d) /\ rets' = [r]).
Proof.
  induction d as [|[k0 rets0] d IH]; cbn [append_return map fst]; intros Hnd H.
  - destruct H as [[= <- <-]|[]]. right. right. auto.
  - inversion Hnd as [|? ? Hnotin Hnd']; subst.
    destruct (String.eqb_spec k0 s) as [E|E].
    + subst k0. destruct H as [[= <- <-]|H].
      * right. left. split; [reflexivity|]. exists rets0. split; [now left | reflexivity].
      * left. split; [|now right]. intros ->. apply Hnotin.
        apply (in_map fst) in H. exact H.
    + destruct H as [[= <- <-]|H].
      * left. split; [exact E | now left].
      * destruct (IH Hnd' H) as [[H1 H2]|[(H1 & rets & H2 & H3)|(H1 & H2 & H3)]].
        -- left. split; [exact H1 | now right].
        -- right. left. split; [exact H1|]. exists rets. split; [now right | exact H3].
        -- right. right. split; [exact H1|]. split; [|exact H3].
           intros [H4|H4]; [now apply E | now apply H2].
Qed.

Lemma symbol_returns_invariant (ts2 : list BacktestTrade) :
  forall (d : list (string * list float)) (ts1 : list BacktestTrade),
  NoDup (map fst d) ->
  (forall k rets, In (k, rets) d ->
     rets = map return_percent
              (filter (fun t => String.eqb (symbol t) k) ts1) /\ rets <> []) ->
  (forall t, In t ts1 -> In (symbol t) (map fst d)) ->
  let d' := fold_left (fun d t => append_return (symbol t) (return_percent t) d)
                      ts2 d in
  NoDup (map fst d') /\
  (forall k rets, In (k, rets) d' ->
     rets = map return_percent
              (filter (fun t => String.eqb (symbol t) k) (ts1 ++ ts2)) /\
     rets <> []) /\
  (forall t, In t (ts1 ++ ts2) -> In (symbol t) (map fst d')).
Proof.
  induction ts2 as [|t ts2 IH]; intros d ts1 Hnd Hrets Hkeys; cbn [fold_left].
  - rewrite app_nil_r. auto.
  - replace (ts1 ++ t :: ts2) with ((ts1 ++ [t]) ++ ts2)
      by (rewrite <- app_assoc; reflexivity).
    destruct (append_return_keys (symbol t) (return_percent t) d) as [K1 K2].
    apply IH.
    + destruct (in_dec string_dec (symbol t) (map fst d)) as [Hin|Hin].
      * now rewrite K1.
      * rewrite K2 by assumption. apply NoDup_app; [exact Hnd | | ].
        -- constructor; [intros [] | constructor].
        -- intros x Hx [<-|[]]. now apply Hin.
    + intros k rets H. rewrite filter_app, map_app. cbn [filter].
      destruct (append_return_In _ _ _ _ _ Hnd H)
        as [[H1 H2]|[(H1 & rets0 & H2 & H3)|(H1 & H2 & H3)]].
      * destruct (Hrets k rets H2) as [E Hne].
        destruct (String.eqb_spec (symbol t) k); [congruence|].
        cbn [map]. rewrite app_nil_r. auto.
      * subst k. destruct (Hrets _ _ H2) as [E Hne].
        rewrite String.eqb_refl. cbn [map]. rewrite <- E. split; [exact H3|].
        rewrite H3. destruct rets0; discriminate.
      * subst k. rewrite String.eqb_refl. cbn [map].
        assert (E : filter (fun t0 => String.eqb (symbol t0) (symbol t)) ts1 = []).
        { destruct (filter _ ts1) as [|t0 l] eqn:E; [reflexivity|]. exfalso.
          assert (Hin : In t0 (t0 :: l)) by now left.
          rewrite <- E in Hin. apply filter_In in Hin as [Hin Hs].
          apply String.eqb_eq in Hs. apply H2. rewrite <- Hs. now apply Hkeys. }
        rewrite E. split; [exact H3 | rewrite H3; discriminate].
    + intros t0 Hin. apply in_app_or in Hin as [Hin|[<-|[]]].
      * specialize (Hkeys t0 Hin).
        destruct (in_dec string_dec (symbol t) (map fst d)) as [Hi|Hi].
        -- now rewrite K1.
        -- rewrite K2 by assumption. apply in_or_app. now left.
      * destruct (in_dec string_dec (symbol t) (map fst d)) as [Hi|Hi].
        -- now rewrite K1.
        -- rewrite K2 by assumption. apply in_or_app. right. now left.
Qed.

(** X14.  The breakdown by symbol has one entry for each symbol that has a
    trade and no other; the entry of a symbol is computed from the returns of
    the trades of that symbol, in the order of the trade list, and counts at
    least one trade. *)
Theorem performance_by_symbol_spec (ts : list BacktestTrade) :
  let perf := performance_by_symbol ts in
  NoDup (map fst perf) /\
  (forall sym, In sym (map fst perf) <-> In sym (map symbol ts)) /\
  forall sym e, In (sym, e) perf ->
    (1 <= SymbolPerformance.trades e)%nat /\
    e = performance_of
          (map return_percent
               (filter (fun t => String.eqb (symbol t) sym) ts)).
Proof.
  intro perf. subst perf. unfold performance_by_symbol, symbol_returns.
  destruct (@symbol_returns_invariant ts [] [])
    as (Hnd & Hrets & Hkeys);
    [constructor | intros k rets [] | intros t [] |].
  cbn [app] in Hrets, Hkeys.
  set (d := fold_left _ ts []) in *.
  assert (Hfst : map fst (map (fun kv => (fst kv, performance_of (snd kv))) d)
                 = map fst d).
  { rewrite map_map. apply map_ext. reflexivity. }
  rewrite Hfst. split; [exact Hnd|]. split.
  - intro sym. split.
    + intro H. apply in_map_iff in H as ([k rets] & <- & Hin). cbn [fst].
      destruct (Hrets _ _ Hin) as [E Hne].
      destruct (filter (fun t => String.eqb (symbol t) k) ts) as [|t l] eqn:F;
        [exfalso; apply Hne; exact E|].
      assert (Ht : In t (t :: l)) by now left.
      rewrite <- F in Ht. apply filter_In in Ht as [Ht Hs].
      apply String.eqb_eq in Hs. subst k. now apply in_map.
    + intro H. apply in_map_iff in H as (t & <- & Hin). now apply Hkeys.
  - intros sym e H. apply in_map_iff in H as ([k rets] & [= <- <-] & Hin).
    cbn [fst snd]. destruct (Hrets _ _ Hin) as [E Hne]. rewrite <- E.
    split; [|reflexivity]. cbn. destruct rets; [congruence | cbn; lia].
Qed.

(** *** Counting, best and worst trade, drawdown *)

Lemma count_if_negb {A : Type} (p : A -> bool) (l : list A) :
  (count_if p l + count_if (fun x => negb (p x)) l = length l)%nat.
Proof.
  unfold count_if. induction l as [|x l IH]; [reflexivity|].
  cbn [filter]. destruct (p x); cbn [negb length]; lia.
Qed.

Lemma fold_best_spec (better le : float -> float -> bool)
    (l : list BacktestTrade) :
  (forall x b : Q, better (Fin x) (Fin b) = true -> le (Fin b) (Fin x) = true) ->
  (forall x b : Q, better (Fin x) (Fin b) = false -> le (Fin x) (Fin b) = true) ->
  (forall a b c : Q, le (Fin a) (Fin b) = true -> le (Fin b) (Fin c) = true ->
                     le (Fin a) (Fin c) = true) ->
  Forall (fun t => is_finite (return_percent t) = true) l ->
  forall b, is_finite (return_percent b) = true ->
  let r := fold_left
             (fun b x =>
                if better (return_percent x) (return_percent b) then x else b)
             l b in
  is_finite (return_percent r) = true /\ (r = b \/ In r l) /\
  le (return_percent b) (return_percent r) = true /\
  Forall (fun t => le (return_percent t) (return_percent r) = true) l.
Proof.
  intros Hb1 Hb2 Htr. induction 1 as [|x l Hx Hl IH]; intros b Hfb.
  - cbn. split; [exact Hfb|]. split; [now left|]. split; [|constructor].
    apply is_finite_value in Hfb as (q & ->).
    destruct (better (Fin q) (Fin q)) eqn:E; [apply Hb1 | apply Hb2]; exact E.
  - cbn [fold_left].
    destruct (better (return_percent x) (return_percent b)) eqn:E.
    + destruct (IH x Hx) as (F & M & L & A).
      split; [exact F|]. split; [destruct M as [->|M]; right; [now left | now right]|].
      apply is_finite_value in Hfb as (qb & Eb).
      apply is_finite_value in Hx as (qx & Ex).
      destruct (is_finite_value _ F) as (qr & Er).
      rewrite Eb, Ex, Er in *. apply Hb1 in E.
      split; [eapply Htr; eassumption|]. constructor; [rewrite Ex; exact L | exact A].
    + destruct (IH b Hfb) as (F & M & L & A).
      split; [exact F|]. split; [destruct M as [->|M]; [now left | right; now right]|].
      split; [exact L|].
      apply is_finite_value in Hfb as (qb & Eb).
      apply is_finite_value in Hx as (qx & Ex).
      destruct (is_finite_value _ F) as (qr & Er).
      rewrite Eb, Ex, Er in *. apply Hb2 in E.
      constructor; [rewrite Ex; eapply Htr; eassumption | exact A].
Qed.

Lemma length_running_sum_from (rs : list Q) : forall a,
  length (running_sum_from a rs) = length rs.
Proof. induction rs as [|r rs IH]; intro a; cbn; [reflexivity | now rewrite IH]. Qed.

Lemma running_sum_from_ge (rs : list Q) :
  Forall (fun r => 0 <= r) rs ->
  forall a j, (j < length rs)%nat -> a <= nth j (running_sum_from a rs) 0.
Proof.
  induction 1 as [|r rs Hr _ IH]; intros a j Hj; [cbn in Hj; lia|].
  cbn [running_sum_from]. destruct j as [|j]; cbn [nth]; [lra|].
  cbn [length] in Hj. specialize (IH (a + r) j ltac:(lia)). lra.
Qed.

Lemma running_sum_from_mono (rs : list Q) :
  Forall (fun r => 0 <= r) rs ->
  forall a i j, (i <= j)%nat -> (j < length rs)%nat ->
    nth i (running_sum_from a rs) 0 <= nth j (running_sum_from a rs) 0.
Proof.
  induction 1 as [|r rs Hr Hrs IH]; intros a i j Hij Hj; [cbn in Hj; lia|].
  cbn [running_sum_from]. cbn [length] in Hj.
  destruct i as [|i], j as [|j]; cbn [nth]; try lia; try lra.
  - apply running_sum_from_ge; [assumption | lia].
  - apply IH; lia.
Qed.

(** X15.  The maximum drawdown of a run of numeric returns is never negative,
    and the return of the first trade is no drawdown: the curve starts at
    its first point, so whatever the first trade returns, even a loss, the
    maximum drawdown is 0 when no later trade loses. *)
Theorem first_return_is_no_drawdown (r0 : Q) (rest : list Q) :
  fge (max_drawdown (map Fin (r0 :: rest))) (Fin 0) = true /\
  (Forall (fun r => 0 <= r) rest ->
   feq (max_drawdown (map Fin (r0 :: rest))) (Fin 0)).
Proof.
  destruct (@max_drawdown_largest_drop (r0 :: rest)) as (d & Hd & Hl);
    [discriminate|].
  rewrite Hd.
  assert (L : length (running_sum (r0 :: rest)) = S (length rest)).
  { unfold running_sum. now rewrite length_running_sum_from. }
  assert (H0 : 0 <= d).
  { destruct Hl as [_ Hmax]. specialize (Hmax 0%nat 0%nat).
    rewrite L in Hmax. specialize (Hmax ltac:(lia)). lra. }
  split.
  - cbn. qcases; [reflexivity | lra].
  - intro Hnn. destruct Hl as [(i & j & Hij & E) _]. rewrite L in Hij.
    assert (nth i (running_sum (r0 :: rest)) 0
            <= nth j (running_sum (r0 :: rest)) 0).
    { unfold running_sum. cbn [running_sum_from].
      destruct i as [|i], j as [|j]; cbn [nth]; try lia; try lra.
      - apply running_sum_from_ge; [assumption | lia].
      - apply running_sum_from_mono; [assumption | lia | lia]. }
    cbn [feq]. lra.
Qed.

(** *** A strategy name that is not known *)

Lemma unknown_strategy_signal (df : DataFrame) (strategy : string) :
  strategy <> "technical"%string -> strategy <> "momentum"%string ->
  strategy <> "mean_reversion"%string ->
  _get_signal df strategy = ("hold"%string, Fin 0.5).
Proof.
  intros H1 H2 H3. unfold _get_signal.
  destruct (String.eqb_spec strategy "technical"); [congruence|].
  destruct (String.eqb_spec strategy "momentum"); [congruence|].
  destruct (String.eqb_spec strategy "mean_reversion"); [congruence|].
  reflexivity.
Qed.

Lemma unknown_strategy_simulate sym df ps strategy :
  strategy <> "technical"%string -> strategy <> "momentum"%string ->
  strategy <> "mean_reversion"%string ->
  trades (simulate sym df ps strategy) = [].
Proof.
  intros H1 H2 H3.
  assert (H := simulate_spans sym df ps strategy).
  destruct (trades (simulate sym df ps strategy)) as [|t ts]; [reflexivity|].
  inversion H as [|? ? (j & k & _ & _ & _ & ((B1 & _) & _) & _) _]; subst.
  rewrite unknown_strategy_signal in B1 by assumption. discriminate.
Qed.

Lemma sqrt_approx_nonneg (q : Q) : 0 <= sqrt_approx q.
Proof.
  unfold sqrt_approx, Qle. cbn [Qnum Qden]. rewrite Z.mul_1_r, Z.mul_0_l.
  apply Z.sqrt_nonneg.
Qed.

(** ** Further properties of [analyze] *)

Ltac signals_solve :=
  repeat match goal with
         | |- context [match ?x with _ => _ end] => destruct x
         end;
  (split;
   [cbn; lia
   | repeat constructor; eexists; (split; [reflexivity | split; lra])]).

Lemma signals_in_range_app (m n : nat) (a b : list TechnicalSignal) :
  signals_in_range m a -> signals_in_range n b ->
  signals_in_range (m + n) (a ++ b).
Proof.
  intros [L1 F1] [L2 F2]. split.
  - rewrite length_app. lia.
  - apply Forall_app. auto.
Qed.

Lemma analyze_trend_in_range f (df : DataFrame) (p : float) :
  signals_in_range 4 (_analyze_trend f df p).
Proof.
  unfold _analyze_trend.
  apply (@signals_in_range_app 1 3); [unfold trend_sma_20; signals_solve|].
  apply (@signals_in_range_app 1 2); [unfold trend_sma_50; signals_solve|].
  apply (@signals_in_range_app 1 1); [unfold trend_sma_200; signals_solve|].
  unfold trend_macd; signals_solve.
Qed.

Lemma analyze_momentum_in_range f (df : DataFrame) :
  signals_in_range 2 (_analyze_momentum f df).
Proof.
  unfold _analyze_momentum.
  apply (@signals_in_range_app 1 1); [unfold momentum_rsi; signals_solve|].
  unfold momentum_stochastic; signals_solve.
Qed.

Lemma analyze_volatility_in_range f (df : DataFrame) (p : float) :
  signals_in_range 2 (_analyze_volatility f df p).
Proof.
  unfold _analyze_volatility.
  apply (@signals_in_range_app 1 1); [unfold volatility_bollinger; signals_solve|].
  unfold volatility_atr; signals_solve.
Qed.

Lemma analyze_volume_in_range (df : DataFrame) :
  signals_in_range 2 (_analyze_volume df).
Proof.
  unfold _analyze_volume.
  apply (@signals_in_range_app 1 1); [unfold volume_level; signals_solve|].
  unfold volume_obv; signals_solve.
Qed.

Lemma category_score_range (signals : list TechnicalSignal) :
  Forall strength_in_range signals ->
  exists v, _calculate_category_score signals = Fin v /\ 0 <= v /\ v <= 100.
Proof.
  intro H. destruct signals as [|s l] eqn:E.
  - exists 50. cbn. repeat split; lra.
  - rewrite <- E in *.
    destruct (@category_score_bounds signals 0 100) as (_ & v & Hv & _ & _ & B);
      [subst; discriminate | |].
    + eapply Forall_impl; [|exact H].
      intros x (w & Hw & Hw1 & Hw2).
      destruct (signal_values_range (signal x)) as (u & Hu & Hu0 & Hu1).
      split; [exists w; split; [exact Hw | lra]|].
      rewrite Hu. cbn.
      destruct (Qle_bool_spec 0 u); [|lra].
      destruct (Qle_bool_spec u 100); [auto | lra].
    + exists v. tauto.
Qed.

Lemma confidence_range (signals : list TechnicalSignal) :
  exists c, _calculate_confidence signals = Fin c /\ 0.4 <= c /\ c <= 0.9.
Proof.
  destruct signals as [|s l] eqn:E.
  - exists 0.5. cbn. repeat split; lra.
  - rewrite <- E.
    destruct (@confidence_value signals) as (r & _ & R0 & R1 & Hc);
      [subst; discriminate|].
    eexists. split; [exact Hc | split; nra].
Qed.

(** X22.  Whatever the frame, formats and square root, the result of
    [analyze] is well formed: it carries the symbol, at most ten signals whose
    strengths lie between 0.4 and 0.9, four category scores and an overall
    score that are numbers between 0 and 100, the overall score being the
    weighted sum 0.35, 0.30, 0.20, 0.15 of the categories and the overall
    signal its band, and a confidence between 0.4 and 0.9. *)
Theorem analyze_result_ranges (sqrtQ : Q -> Q) (format_1f format_2f : float -> string)
    (df : DataFrame) (sym : string) :
  let r := analyze sqrtQ format_1f format_2f df sym in
  TechnicalAnalysisResult.symbol r = sym /\
  signals_in_range 10 (TechnicalAnalysisResult.signals r) /\
  (exists t m v vo o,
      TechnicalAnalysisResult.trend_score r = Fin t /\ 0 <= t /\ t <= 100 /\
      TechnicalAnalysisResult.momentum_score r = Fin m /\ 0 <= m /\ m <= 100 /\
      TechnicalAnalysisResult.volatility_score r = Fin v /\ 0 <= v /\ v <= 100 /\
      TechnicalAnalysisResult.volume_score r = Fin vo /\ 0 <= vo /\ vo <= 100 /\
      TechnicalAnalysisResult.overall_score r = Fin o /\ 0 <= o /\ o <= 100 /\
      o == 0.35 * t + 0.30 * m + 0.20 * v + 0.15 * vo) /\
  TechnicalAnalysisResult.overall_signal r
  = _score_to_signal (TechnicalAnalysisResult.overall_score r) /\
  exists c, TechnicalAnalysisResult.confidence r = Fin c /\
            0.4 <= c /\ c <= 0.9.
Proof.
  intro r. subst r. unfold analyze.
  destruct (len df <? 20)%nat.
  - cbn. split; [reflexivity|]. split; [split; [cbn; lia | constructor]|].
    split; [exists 50, 50, 50, 50, 50; repeat split; try reflexivity; lra|].
    split; [reflexivity|]. exists 0.5. repeat split; try reflexivity; lra.
  - set (df' := calculate_all_indicators sqrtQ df).
    set (p := iloc_neg (col_close df') 1).
    cbn [TechnicalAnalysisResult.symbol TechnicalAnalysisResult.signals
         TechnicalAnalysisResult.trend_score
         TechnicalAnalysisResult.momentum_score
         TechnicalAnalysisResult.volatility_score
         TechnicalAnalysisResult.volume_score
         TechnicalAnalysisResult.overall_score
         TechnicalAnalysisResult.overall_signal
         TechnicalAnalysisResult.confidence].
    assert (R1 := analyze_trend_in_range format_2f df' p).
    assert (R2 := analyze_momentum_in_range format_1f df').
    assert (R3 := analyze_volatility_in_range format_1f df' p).
    assert (R4 := analyze_volume_in_range df').
    generalize dependent (_analyze_trend format_2f df' p).
    generalize dependent (_analyze_momentum format_1f df').
    generalize dependent (_analyze_volatility format_1f df' p).
    generalize dependent (_analyze_volume df').
    intros l4 R4 l3 R3 l2 R2 l1 R1.
    split; [reflexivity|]. split.
    { apply (@signals_in_range_app 4 6); [exact R1|].
      apply (@signals_in_range_app 2 4); [exact R2|].
      apply (@signals_in_range_app 2 2); assumption. }
    split.
    { destruct (category_score_range (proj2 R1)) as (t & -> & T0 & T1).
      destruct (category_score_range (proj2 R2)) as (m & -> & M0 & M1).
      destruct (category_score_range (proj2 R3)) as (v & -> & V0 & V1).
      destruct (category_score_range (proj2 R4)) as (vo & -> & O0 & O1).
      exists t, m, v, vo. eexists. cbn [overall_of fmul fadd].
      repeat (split; [first [reflexivity | assumption]|]).
      split; [nra|]. split; [nra|]. ring. }
    split; [reflexivity|]. apply confidence_range.
Qed.

(** X23.  When the price of a prediction is the last close of the analysed
    frame, an ordinary price (a number from 10^-100 to 10^100), the targets
    derived from the levels of the analysis bracket that price: for "buy" the stop lies below and the target
    above it with a positive expected return, for "sell" the target lies
    below and the stop above with a negative expected return, and otherwise
    the target is the price itself with expected return 0. *)
Theorem price_targets_from_analysis (sqrtQ : Q -> Q)
    (format_1f format_2f : float -> string)
    (df : DataFrame) (sym : string) (p : Prediction.t) (c : Q) :
  iloc_neg (col_close df) 1 = Fin c ->
  Prediction.current_price p = Fin c -> ordinary c ->
  let a := analyze sqrtQ format_1f format_2f df sym in
  let r := _calculate_price_targets p
             (TechnicalAnalysisResult.support_levels a)
             (TechnicalAnalysisResult.resistance_levels a) in
  (Prediction.action p = "buy"%string ->
   flt (Prediction.stop_loss r) (Fin c) = true /\
   fgt (Prediction.target_price r) (Fin c) = true /\
   fgt (Prediction.expected_return_percent r) (Fin 0) = true) /\
  (Prediction.action p = "sell"%string ->
   flt (Prediction.target_price r) (Fin c) = true /\
   fgt (Prediction.stop_loss r) (Fin c) = true /\
   flt (Prediction.expected_return_percent r) (Fin 0) = true) /\
  (Prediction.action p <> "buy"%string ->
   Prediction.action p <> "sell"%string ->
   Prediction.target_price r = Fin c /\
   flt (Prediction.stop_loss r) (Fin c) = true /\
   feq (Prediction.expected_return_percent r) (Fin 0)).
Proof.
  intros Hclose Hp Hord a r. subst a r.
  assert (Hc : 0 < c).
  { destruct Hord as [Hlo _]. unfold price_floor in Hlo.
    apply Qlt_le_trans with (y := 1 # 10 ^ 100); [reflexivity | exact Hlo]. }
  apply price_targets_bracket; try assumption; unfold analyze;
    destruct (len df <? 20)%nat; try constructor;
    cbn [TechnicalAnalysisResult.support_levels
         TechnicalAnalysisResult.resistance_levels];
    rewrite <- Hclose;
    change (col_close df) with (col_close (calculate_all_indicators sqrtQ df));
    apply levels_bracket_price.
Qed.

(** *** Patterns *)

Lemma iloc_tail_tail (n m : nat) (s : Series) :
  (n <= m)%nat -> iloc_tail n (iloc_tail m s) = iloc_tail n s.
Proof.
  intro H. unfold iloc_tail. rewrite length_skipn, skipn_skipn. f_equal. lia.
Qed.

Lemma last_five (qs : list Q) :
  (5 <= length qs)%nat ->
  exists a b c d e, skipn (length qs - 5) qs = [a; b; c; d; e].
Proof.
  intro H. assert (L : length (skipn (length qs - 5) qs) = 5%nat)
    by (rewrite length_skipn; lia).
  destruct (skipn (length qs - 5) qs) as [|a [|b [|c [|d [|e [|f l]]]]]];
    try discriminate.
  now exists a, b, c, d, e.
Qed.

Lemma in_single_if (x y : string) (b : bool) :
  In x (if b then [y] else []) <-> b = true /\ y = x.
Proof. destruct b; cbn; intuition discriminate. Qed.

Lemma adjacent_le_five (a b c d e : Q) :
  adjacent_all fle [Fin a; Fin b; Fin c; Fin d; Fin e] = true <->
  a <= b /\ b <= c /\ c <= d /\ d <= e.
Proof.
  cbn [adjacent_all fle]. rewrite !andb_true_iff, !Qle_bool_iff. tauto.
Qed.

Lemma adjacent_ge_five (a b c d e : Q) :
  adjacent_all fge [Fin a; Fin b; Fin c; Fin d; Fin e] = true <->
  b <= a /\ c <= b /\ d <= c /\ e <= d.
Proof.
  cbn [adjacent_all fge fle]. rewrite !andb_true_iff, !Qle_bool_iff. tauto.
Qed.

(** The five parts of the pattern list. *)
Lemma detect_patterns_parts (df : DataFrame) :
  (10 <= len df)%nat ->
  exists rest,
    _detect_patterns df
    = (if adjacent_all fle (iloc_tail 5 (iloc_tail 20 (col_close df)))
       then ["Short-term uptrend"%string] else [])
      ++ (if adjacent_all fge (iloc_tail 5 (iloc_tail 20 (col_close df)))
          then ["Short-term downtrend"%string] else [])
      ++ rest /\
    forall x, In x rest ->
      x = "Higher highs pattern"%string \/ x = "Lower lows pattern"%string \/
      x = "Consolidation/Range-bound"%string.
Proof.
  intro H. unfold _detect_patterns.
  destruct (Nat.ltb_spec (len df) 10); [lia|].
  eexists. split; [reflexivity|].
  intros x Hx. rewrite !in_app_iff in Hx.
  destruct Hx as [Hx|[Hx|Hx]].
  - apply in_single_if in Hx. destruct Hx as [_ <-]. auto.
  - apply in_single_if in Hx. destruct Hx as [_ <-]. auto.
  - destruct (10 <=? _)%nat; [|destruct Hx].
    apply in_single_if in Hx. destruct Hx as [_ <-]. auto.
Qed.

(** X24.  For a frame of at least ten bars whose closes are numbers, "Short-term
    uptrend" is reported exactly when the last five closes never fall and
    "Short-term downtrend" exactly when they never rise, so both are reported
    together exactly when the last five closes are equal; a frame of fewer
    than ten bars reports no pattern. *)
Theorem trend_patterns_of_last_five (df : DataFrame) (qs : list Q) :
  col_close df = map Fin qs -> (10 <= length qs)%nat ->
  let ps := _detect_patterns df in
  exists a b c d e,
    skipn (length qs - 5) qs = [a; b; c; d; e] /\
    (In "Short-term uptrend"%string ps <->
     a <= b /\ b <= c /\ c <= d /\ d <= e) /\
    (In "Short-term downtrend"%string ps <->
     b <= a /\ c <= b /\ d <= c /\ e <= d) /\
    (In "Short-term uptrend"%string ps /\ In "Short-term downtrend"%string ps <->
     a == b /\ b == c /\ c == d /\ d == e) /\
    forall df', (len df' < 10)%nat -> _detect_patterns df' = [].
Proof.
  intros Hc Hlen ps.
  destruct (@last_five qs ltac:(lia)) as (a & b & c & d & e & E).
  exists a, b, c, d, e. split; [exact E|].
  assert (Hl : len df = length qs).
  { unfold len. transitivity (length (col_close df));
      [unfold col_close; now rewrite length_map|].
    now rewrite Hc, length_map. }
  assert (H5 : iloc_tail 5 (iloc_tail 20 (col_close df))
               = [Fin a; Fin b; Fin c; Fin d; Fin e]).
  { rewrite iloc_tail_tail by lia. unfold iloc_tail.
    rewrite Hc, length_map, skipn_map, E. reflexivity. }
  destruct (@detect_patterns_parts df ltac:(lia)) as (rest & Hps & Hrest).
  fold ps in Hps. rewrite H5 in Hps.
  assert (HU : In "Short-term uptrend"%string ps <->
               a <= b /\ b <= c /\ c <= d /\ d <= e).
  { rewrite <- adjacent_le_five, Hps, !in_app_iff, !in_single_if. split.
    - intros [[H _]|[[_ H]|H]]; [exact H | discriminate H |].
      apply Hrest in H. destruct H as [H|[H|H]]; discriminate H.
    - intro H. left. split; [exact H | reflexivity]. }
  assert (HD : In "Short-term downtrend"%string ps <->
               b <= a /\ c <= b /\ d <= c /\ e <= d).
  { rewrite <- adjacent_ge_five, Hps, !in_app_iff, !in_single_if. split.
    - intros [[_ H]|[[H _]|H]]; [discriminate H | exact H |].
      apply Hrest in H. destruct H as [H|[H|H]]; discriminate H.
    - intro H. right. left. split; [exact H | reflexivity]. }
  split; [exact HU|]. split; [exact HD|]. split.
  - rewrite HU, HD. split.
    + intros [(H1 & H2 & H3 & H4) (G1 & G2 & G3 & G4)]. repeat split; lra.
    + intros (H1 & H2 & H3 & H4). repeat split; lra.
  - intros df' H'. unfold _detect_patterns.
    destruct (Nat.ltb_spec (len df') 10); [reflexivity | lia].
Qed.

(** ** No look-ahead *)

(** Every indicator is trailing: computing it on the first [n] bars gives
    the first [n] values of the indicator of the whole series. *)

Lemma firstn_seq (n : nat) : forall a L,
  firstn n (seq a L) = seq a (Nat.min n L).
Proof.
  induction n as [|n IH]; intros a L; [reflexivity|].
  destruct L as [|L]; [reflexivity|]. cbn [seq firstn Nat.min]. now rewrite IH.
Qed.

Lemma firstn_rolling agg w (s : Series) (n : nat) :
  firstn n (rolling agg w s) = rolling agg w (firstn n s).
Proof.
  unfold rolling. rewrite firstn_map, firstn_seq, length_firstn.
  apply map_ext_in. intros i Hi. apply in_seq in Hi.
  destruct (Nat.ltb_spec (S i) w); [reflexivity|].
  replace (window w i (firstn n s)) with (window w i s); [reflexivity|].
  unfold window. rewrite skipn_firstn_comm, firstn_firstn. f_equal. lia.
Qed.

Lemma firstn_ewm_scan alpha (s : Series) : forall st n,
  firstn n (ewm_scan alpha st s) = ewm_scan alpha st (firstn n s).
Proof.
  induction s as [|x s IH]; intros st n; [now destruct n|].
  destruct n as [|n]; [reflexivity|].
  cbn [ewm_scan firstn]. now rewrite IH.
Qed.

Lemma firstn_ewm_mean span (s : Series) (n : nat) :
  firstn n (ewm_mean span s) = ewm_mean span (firstn n s).
Proof.
  destruct s as [|x s]; [now destruct n|].
  destruct n as [|n]; [reflexivity|].
  cbn [ewm_mean firstn]. now rewrite firstn_ewm_scan.
Qed.

Lemma firstn_shift (s : Series) (n : nat) :
  firstn n (shift s) = shift (firstn n s).
Proof.
  destruct n as [|n]; [reflexivity|].
  destruct s as [|x s]; [reflexivity|].
  change (firstn (S n) (x :: s)) with (x :: firstn n s).
  unfold shift. cbn [firstn]. f_equal.
  change (x :: firstn n s) with (firstn (S n) (x :: s)).
  destruct (Nat.lt_ge_cases n (length (x :: s))) as [H|H].
  - rewrite firstn_removelast, removelast_firstn by assumption. reflexivity.
  - rewrite !firstn_all2; [reflexivity | lia |].
    rewrite removelast_firstn_len, length_firstn. lia.
Qed.

Lemma firstn_zip_with f (a b : Series) (n : nat) :
  firstn n (zip_with f a b) = zip_with f (firstn n a) (firstn n b).
Proof. unfold zip_with. now rewrite firstn_map, combine_firstn. Qed.

Lemma firstn_zip3_with f (a b c : Series) (n : nat) :
  firstn n (zip3_with f a b c)
  = zip3_with f (firstn n a) (firstn n b) (firstn n c).
Proof. unfold zip3_with. now rewrite firstn_map, !combine_firstn. Qed.

Lemma firstn_diff (s : Series) (n : nat) :
  firstn n (diff s) = diff (firstn n s).
Proof. unfold diff. now rewrite firstn_zip_with, firstn_shift. Qed.

Lemma firstn_cumsum_from (s : Series) : forall acc n,
  firstn n (cumsum_from acc s) = cumsum_from acc (firstn n s).
Proof.
  induction s as [|x s IH]; intros acc n; [now destruct n|].
  destruct n as [|n]; [reflexivity|].
  cbn [cumsum_from firstn]. destruct (isna x); cbn [firstn]; now rewrite IH.
Qed.

Lemma firstn_calculate_rsi (data : Series) (period n : nat) :
  firstn n (calculate_rsi data period) = calculate_rsi (firstn n data) period.
Proof.
  unfold calculate_rsi, rsi_gain, rsi_loss, where_.
  now rewrite firstn_map, firstn_zip_with, !firstn_rolling, !firstn_map,
    firstn_diff.
Qed.

Lemma firstn_true_range (high low close : Series) (n : nat) :
  firstn n (true_range high low close)
  = true_range (firstn n high) (firstn n low) (firstn n close).
Proof.
  unfold true_range.
  now rewrite firstn_zip3_with, !firstn_map, !firstn_zip_with, firstn_shift.
Qed.

Lemma firstn_calculate_obv (close volume : Series) (n : nat) :
  firstn n (calculate_obv close volume)
  = calculate_obv (firstn n close) (firstn n volume).
Proof.
  unfold calculate_obv, cumsum.
  now rewrite firstn_cumsum_from, firstn_zip_with, firstn_map, firstn_diff.
Qed.

Lemma frame_ext (a b : DataFrame) :
  rows a = rows b -> datetime_index a = datetime_index b ->
  sma_20 a = sma_20 b -> sma_50 a = sma_50 b -> sma_200 a = sma_200 b ->
  ema_12 a = ema_12 b -> ema_26 a = ema_26 b -> rsi_14 a = rsi_14 b ->
  macd a = macd b -> macd_signal a = macd_signal b ->
  macd_histogram a = macd_histogram b -> bb a = bb b ->
  atr_14 a = atr_14 b -> stoch_k a = stoch_k b -> stoch_d a = stoch_d b ->
  obv a = obv b -> a = b.
Proof.
  destruct a, b. cbn. intros. subst. reflexivity.
Qed.

Ltac push_firstn :=
  repeat (rewrite firstn_rolling || rewrite firstn_ewm_mean ||
          rewrite firstn_calculate_rsi || rewrite firstn_zip_with ||
          rewrite firstn_zip3_with || rewrite firstn_true_range ||
          rewrite firstn_map).

Lemma indicators_of_head (sqrtQ : Q -> Q) (df : DataFrame) (n : nat) :
  (1 <= n)%nat ->
  calculate_all_indicators sqrtQ (iloc_head n df)
  = iloc_head n (calculate_all_indicators sqrtQ df).
Proof.
  intro Hn.
  apply frame_ext; unfold calculate_all_indicators, iloc_head;
    cbn [rows datetime_index sma_20 sma_50 sma_200 ema_12 ema_26 rsi_14 macd
         macd_signal macd_histogram bb atr_14 stoch_k stoch_d obv option_map];
    try reflexivity;
    unfold col_close, col_high, col_low, col_volume; cbn [rows];
    unfold calculate_sma, calculate_ema, calculate_macd, calculate_atr,
      calculate_stochastic, calculate_bollinger_bands, cut_bollinger;
    cbn [macd_line signal_line histogram stoch_K stoch_D upper middle lower];
    try (push_firstn; reflexivity).
  destruct (rows df) as [|b bs]; [now destruct n|].
  destruct n as [|n]; [lia|].
  change (map b_volume (firstn (S n) (b :: bs)))
    with (b_volume b :: map b_volume (firstn n bs)) at 1.
  change (map b_volume (b :: bs))
    with (b_volume b :: map b_volume bs) at 1.
  cbv iota. cbn [option_map]. f_equal.
  now rewrite firstn_calculate_obv, !firstn_map.
Qed.


Lemma nth_firstn_agree {A : Type} (l1 l2 : list A) (i m : nat) (d : A) :
  firstn i l1 = firstn i l2 -> (m < i)%nat -> nth m l1 d = nth m l2 d.
Proof.
  intros H Hm.
  assert (E : forall l : list A, nth m l d = nth m (firstn i l) d).
  { intro l. rewrite nth_firstn. destruct (Nat.ltb_spec m i); [reflexivity | lia]. }
  now rewrite (E l1), (E l2), H.
Qed.

Lemma option_firstn_firstn (a b : nat) (c : option Series) :
  (a <= b)%nat ->
  option_map (firstn a) (option_map (firstn b) c) = option_map (firstn a) c.
Proof.
  intro H. destruct c as [s|]; [|reflexivity]. cbn.
  now rewrite firstn_firstn, Nat.min_l.
Qed.

Lemma iloc_head_head (a b : nat) (df : DataFrame) :
  (a <= b)%nat -> iloc_head a (iloc_head b df) = iloc_head a df.
Proof.
  intro H. apply frame_ext; unfold iloc_head;
    cbn [rows datetime_index sma_20 sma_50 sma_200 ema_12 ema_26 rsi_14 macd
         macd_signal macd_histogram bb atr_14 stoch_k stoch_d obv];
    try reflexivity; try (now apply option_firstn_firstn).
  - now rewrite firstn_firstn, Nat.min_l.
  - destruct (bb df) as [c|]; [|reflexivity]. cbn. unfold cut_bollinger.
    cbn [upper middle lower]. now rewrite !firstn_firstn, !Nat.min_l.
Qed.

(** One iteration reads the frame only up to its bar. *)
Lemma bar_step_agree sym (D1 D2 : DataFrame) ps strategy st (i m : nat) :
  iloc_head i D1 = iloc_head i D2 -> (m < i)%nat ->
  bar_step sym D1 ps strategy st m = bar_step sym D2 ps strategy st m.
Proof.
  intros H Hm.
  assert (Hrows : firstn i (rows D1) = firstn i (rows D2))
    by exact (f_equal rows H).
  assert (Hdt : datetime_index D1 = datetime_index D2)
    by exact (f_equal datetime_index H).
  assert (Hatr : option_map (firstn i) (atr_14 D1)
                 = option_map (firstn i) (atr_14 D2))
    by exact (f_equal atr_14 H).
  assert (Hdate : nth m (index D1) 0%Z = nth m (index D2) 0%Z).
  { unfold index. apply (@nth_firstn_agree _ _ _ i); [|exact Hm].
    now rewrite !firstn_map, Hrows. }
  assert (Hprice : iloc (col_close D1) m = iloc (col_close D2) m).
  { unfold iloc, col_close. apply (@nth_firstn_agree _ _ _ i); [|exact Hm].
    now rewrite !firstn_map, Hrows. }
  assert (Hhead : iloc_head (m + 1) D1 = iloc_head (m + 1) D2).
  { rewrite <- (@iloc_head_head (m + 1) i D1), <- (@iloc_head_head (m + 1) i D2)
      by lia. now rewrite H. }
  assert (Hcol : forall p,
             match atr_14 D1 with Some col => iloc col m | None => p end
             = match atr_14 D2 with Some col => iloc col m | None => p end).
  { intro p. destruct (atr_14 D1) as [c1|], (atr_14 D2) as [c2|];
      try discriminate; [|reflexivity].
    cbn in Hatr. injection Hatr as Hatr. unfold iloc.
    now apply (@nth_firstn_agree _ _ _ i). }
  unfold bar_step, exit_check, holding_days_at, open_trade.
  rewrite Hdate, Hprice, Hhead, Hdt, Hcol. reflexivity.
Qed.

Lemma fold_left_agree {A B : Type} (f g : A -> B -> A) (l : list B) :
  (forall x, In x l -> forall a, f a x = g a x) ->
  forall a, fold_left f l a = fold_left g l a.
Proof.
  induction l as [|x l IH]; intros H a; [reflexivity|].
  cbn [fold_left]. rewrite H by now left.
  apply IH. intros y Hy. apply H. now right.
Qed.

Lemma state_before_agree sym (D1 D2 : DataFrame) ps strategy (i : nat) :
  iloc_head i D1 = iloc_head i D2 ->
  state_before sym D1 ps strategy i = state_before sym D2 ps strategy i.
Proof.
  intro H. unfold state_before. apply fold_left_agree.
  intros m Hm st. apply in_seq in Hm.
  apply (@bar_step_agree sym D1 D2 ps strategy st i m H). lia.
Qed.

(** X26.  The simulation has no look-ahead: two histories with the same
    first [i] bars give the same loop state at the start of bar [i], that is
    the same closed trades and the same open position, whatever the bars
    from [i] on are. *)
Theorem simulation_has_no_lookahead (sqrtQ : Q -> Q) sym ps strategy
    (df1 df2 : DataFrame) (i : nat) :
  (1 <= i)%nat ->
  iloc_head i df1 = iloc_head i df2 ->
  state_before sym (calculate_all_indicators sqrtQ df1) ps strategy i
  = state_before sym (calculate_all_indicators sqrtQ df2) ps strategy i.
Proof.
  intros Hi H. apply state_before_agree.
  rewrite <- !indicators_of_head by assumption. now rewrite H.
Qed.

(** ** The final prediction *)

Lemma clamp_range (x : float) :
  exists c, py_max (Fin 0.1) (py_min (Fin 0.95) x) = Fin c /\
            0.1 <= c /\ c <= 0.95.
Proof.
  unfold py_max, py_min, fgt.
  destruct x as [| | |q]; cbn [flt].
  - exists 0.95. unfold Qlt_bool. cbn. repeat split; lra.
  - exists 0.95. unfold Qlt_bool. cbn. repeat split; lra.
  - exists 0.1. cbn. repeat split; lra.
  - unfold Qlt_bool. destruct (Qle_bool_spec 0.95 q); cbn [negb flt].
    + exists 0.95. unfold Qlt_bool. cbn. repeat split; lra.
    + unfold Qlt_bool. destruct (Qle_bool_spec q 0.1); cbn [negb].
      * exists 0.1. repeat split; lra.
      * exists q. repeat split; lra.
Qed.

Ltac consensus_cases llm :=
  repeat match goal with
         | |- context [String.eqb (Consensus.consensus_prediction llm) ?s] =>
             let E := fresh "E" in
             destruct (String.eqb_spec (Consensus.consensus_prediction llm) s)
               as [E|E]; [rewrite E in *|]; cbn
         end.

(** X28.  When the three scores of a prediction are numbers between 0 and
    1, the final prediction has an action among "buy", "sell" and "hold" and
    a confidence that is a number between 0.1 and 0.95, whatever the
    agreement level of the consensus.  A strong technical signal is never
    left at "hold": STRONG_BUY gives "buy" unless the weighted score says
    "sell", STRONG_SELL gives "sell" unless the weighted score says "buy";
    the consensus of the models only replaces a "hold". *)
Theorem final_prediction_ranges (p : Prediction.t)
    (tr : TechnicalAnalysisResult.t) (llm : Consensus.t) :
  unit_score (Prediction.technical_score p) ->
  unit_score (Prediction.sentiment_score p) ->
  unit_score (Prediction.llm_consensus_score p) ->
  let r := _calculate_final_prediction p tr llm in
  let ws := weighted_score p in
  (Prediction.action r = "buy"%string \/ Prediction.action r = "sell"%string \/
   Prediction.action r = "hold"%string) /\
  (exists c, Prediction.confidence r = Fin c /\ 0.1 <= c /\ c <= 0.95) /\
  (TechnicalAnalysisResult.overall_signal tr = STRONG_BUY ->
   Prediction.action r = "buy"%string \/
   (Prediction.action r = "sell"%string /\
    fge ws (Fin 0.65) = false /\ fle ws (Fin 0.35) = true)) /\
  (TechnicalAnalysisResult.overall_signal tr = STRONG_SELL ->
   Prediction.action r = "sell"%string \/
   (Prediction.action r = "buy"%string /\ fge ws (Fin 0.65) = true)) /\
  (Prediction.action r = "hold"%string ->
   fge ws (Fin 0.65) = false /\ fle ws (Fin 0.35) = false) /\
  Prediction.current_price r = Prediction.current_price p.
Proof.
  intros _ _ _ r ws. subst r. unfold _calculate_final_prediction.
  fold ws. cbn [Prediction.action Prediction.confidence Prediction.current_price].
  split; [|split; [apply clamp_range|]].
  - destruct (fge ws (Fin 0.65)), (fle ws (Fin 0.35)),
      (TechnicalAnalysisResult.overall_signal tr),
      (Consensus.is_valid llm && fgt (Consensus.agreement_level llm) (Fin 0.7));
      cbn; auto; consensus_cases llm; auto.
  - split; [|split; [|split; [|reflexivity]]].
    + intro Hs. rewrite Hs.
      destruct (fge ws (Fin 0.65)), (fle ws (Fin 0.35)),
        (Consensus.is_valid llm && fgt (Consensus.agreement_level llm) (Fin 0.7));
        cbn; auto; consensus_cases llm; auto.
    + intro Hs. rewrite Hs.
      destruct (fge ws (Fin 0.65)), (fle ws (Fin 0.35)),
        (Consensus.is_valid llm && fgt (Consensus.agreement_level llm) (Fin 0.7));
        cbn; auto; consensus_cases llm; auto.
    + destruct (fge ws (Fin 0.65)), (fle ws (Fin 0.35)),
        (TechnicalAnalysisResult.overall_signal tr),
        (Consensus.is_valid llm && fgt (Consensus.agreement_level llm) (Fin 0.7));
        cbn; try discriminate; auto; consensus_cases llm;
        try discriminate; auto.
Qed.
(** ** Properties that involve the square root

    The Bollinger bands and the Sharpe ratio take a square root; what
    follows holds for every square root function. *)

Section Runs.

Variable sqrtQ : Q -> Q.

(** *** The simulation inside a run *)

Lemma collect_trades_Forall (P : BacktestTrade -> Prop) get syms ps strategy :
  (forall sym df, Forall P (trades (simulate sym df ps strategy))) ->
  Forall P (collect_trades sqrtQ get syms ps strategy).
Proof.
  intro H. induction syms as [|sym syms IH]; simpl; [constructor|].
  unfold _backtest_symbol.
  destruct (get sym) as [| |df]; try exact IH.
  destruct (len df <? 50)%nat; [exact IH|].
  apply Forall_app. split; [apply H | exact IH].
Qed.

Lemma run_backtest_trades get syms s e cap psp strategy r :
  run_backtest sqrtQ get syms s e cap psp strategy = Returned r ->
  result_trades r
  = collect_trades sqrtQ get syms (fdiv (fmul cap psp) (Fin 100)) strategy.
Proof.
  unfold run_backtest.
  destruct (collect_trades sqrtQ get syms _ strategy) as [|t ts] eqn:E;
    intros [= <-]; reflexivity.
Qed.

(** C1.  On every bar on which a position is open, the bar is decided by the
    first condition that holds in the order target, stop-loss, sell signal,
    timeout: with none the position stays open; otherwise the trade closes on
    that bar, [hit_target] is set exactly when the first is the target and
    [hit_stop_loss] exactly when it is the stop-loss.  In particular a close
    at or above the target closes the trade with [hit_target] and without
    [hit_stop_loss], whatever the signal and the holding period, and no
    closed trade of a simulation or of a run has both flags. *)
Theorem exit_priority_first_match sym df ps strategy i t :
  current_trade (state_before sym df ps strategy i) = Some t ->
  let st := state_before sym df ps strategy i in
  let st' := bar_step sym df ps strategy st i in
  match first_matching df strategy i t with
  | None => st' = {| trades := trades st; current_trade := Some t |}
  | Some c =>
      exists t',
        st' = {| trades := trades st ++ [t']; current_trade := None |} /\
        closed ps t' /\
        exit_date t' = Some (nth i (index df) 0%Z) /\
        exit_price t' = Some (iloc (col_close df) i) /\
        hit_target t' = match c with ByTarget => true | _ => false end /\
        hit_stop_loss t' = match c with ByStopLoss => true | _ => false end
  end /\
  (fge (iloc (col_close df) i) (target_price t) = true ->
   exists t',
     st' = {| trades := trades st ++ [t']; current_trade := None |} /\
     hit_target t' = true /\ hit_stop_loss t' = false) /\
  Forall (fun u => hit_target u && hit_stop_loss u = false)
         (trades (simulate sym df ps strategy)) /\
  (forall get syms s e cap psp r,
      run_backtest sqrtQ get syms s e cap psp strategy = Returned r ->
      Forall (fun u => hit_target u && hit_stop_loss u = false)
             (result_trades r)).
Proof.
  intros Hcur st st'.
  assert (Hopen : open_ok t)
    by (apply (state_before_invariant sym df ps strategy i); exact Hcur).
  assert (Hstep := bar_step_in_position sym df ps strategy st i Hcur Hopen).
  fold st' in Hstep.
  assert (Hall : forall sym' df' ps',
             Forall (fun u => hit_target u && hit_stop_loss u = false)
                    (trades (simulate sym' df' ps' strategy))).
  { intros sym' df' ps'.
    destruct (simulate_invariant sym' df' ps' strategy) as [H _].
    eapply Forall_impl; [|exact H]. intros u [_ Hu]. exact Hu. }
  split; [exact Hstep|]. split; [|split].
  - intro Htarget. unfold first_matching in Hstep. simpl in Hstep.
    rewrite Htarget in Hstep.
    destruct Hstep as (t' & E & _ & _ & _ & H1 & H2).
    exists t'. auto.
  - apply Hall.
  - intros get syms s e cap psp r Hrun.
    rewrite (run_backtest_trades _ _ _ _ _ _ _ Hrun).
    apply collect_trades_Forall. intros sym' df'. apply Hall.
Qed.

(** C10.  Every trade that the per-symbol simulation returns is closed: exit
    date and exit price are set, and return and profit are computed from
    them.  The returned list is the list of closed trades at the end of the
    loop; a position open at that point has no exit date and is not in the
    list.  The same holds of the trades of a run. *)
Theorem returned_trades_closed get sym ps strategy ts :
  _backtest_symbol sqrtQ get sym ps strategy = Returned ts ->
  Forall (closed ps) ts /\
  (forall df, get sym = Frame df -> (50 <= len df)%nat ->
     let final := simulate sym (calculate_all_indicators sqrtQ df) ps strategy in
     ts = trades final /\
     forall t, current_trade final = Some t ->
               exit_date t = None /\ ~ In t ts) /\
  (forall syms s e cap psp r,
      run_backtest sqrtQ get syms s e cap psp strategy = Returned r ->
      Forall (closed (fdiv (fmul cap psp) (Fin 100))) (result_trades r)).
Proof.
  intro Hret. unfold _backtest_symbol in Hret. split; [|split].
  - destruct (get sym) as [| |df]; try discriminate.
    + injection Hret as <-. constructor.
    + destruct (len df <? 50)%nat; injection Hret as <-;
        [constructor | apply simulate_closed].
  - intros df Hget Hlen final. rewrite Hget in Hret.
    destruct (Nat.ltb_spec (len df) 50) as [Hlt|_]; [lia|].
    injection Hret as <-. split; [reflexivity|].
    intros t Hcur.
    destruct (simulate_invariant sym (calculate_all_indicators sqrtQ df) ps strategy)
      as [Hclosed Hopen].
    destruct (Hopen t Hcur) as (Hdate & _). split; [exact Hdate|].
    intro Hin. fold final in Hclosed.
    rewrite Forall_forall in Hclosed.
    destruct (Hclosed t Hin) as [(d & p & Hd & _) _]. congruence.
  - intros syms s e cap psp r Hrun.
    rewrite (run_backtest_trades _ _ _ _ _ _ _ Hrun).
    apply collect_trades_Forall. intros sym' df'. apply simulate_closed.
Qed.

(** The entry rule of the loop.  In the FLAT state a trade opens exactly when
    the strategy, on the bars up to and including the current one, says
    "buy" with confidence above 0.6.  Its entry price is the current close,
    its target is entry + 2 * atr and its stop is entry - 1.5 * atr, where
    atr is the [atr_14] value of the bar.  The frame of the loop is the
    result of [calculate_all_indicators] and always has that column, so the
    alternative [price * 0.02] of the code is never taken there. *)
Lemma entry_rule sym df ps strategy st i :
  current_trade st = None ->
  let price := iloc (col_close df) i in
  let sig := fst (_get_signal (iloc_head (i + 1) df) strategy) in
  let conf := snd (_get_signal (iloc_head (i + 1) df) strategy) in
  let atr := match atr_14 df with
             | Some col => iloc col i
             | None => fmul price (Fin 0.02)
             end in
  (sig = "buy"%string /\ fgt conf (Fin 0.6) = true ->
   exists t,
     bar_step sym df ps strategy st i
     = {| trades := trades st; current_trade := Some t |} /\
     entry_price t = price /\
     target_price t = fadd price (fmul atr (Fin 2)) /\
     stop_loss t = fsub price (fmul atr (Fin 1.5)) /\
     confidence t = conf /\ open_ok t) /\
  (sig <> "buy"%string \/ fgt conf (Fin 0.6) = false ->
   bar_step sym df ps strategy st i = st) /\
  (forall raw,
      atr_14 (calculate_all_indicators sqrtQ raw)
      = Some (calculate_atr (col_high raw) (col_low raw) (col_close raw) 14)).
Proof.
  intros Hflat price sig conf atr.
  split; [|split].
  - intros [Hsig Hconf]. unfold bar_step. rewrite Hflat.
    fold price. subst sig conf.
    destruct (_get_signal (iloc_head (i + 1) df) strategy) as [sg cf].
    cbn [fst snd] in Hsig, Hconf |- *. rewrite Hsig, Hconf. simpl.
    eexists. split; [reflexivity|]. subst atr. repeat split.
  - intros Hno. unfold bar_step. rewrite Hflat.
    subst sig conf.
    destruct (_get_signal (iloc_head (i + 1) df) strategy) as [sg cf].
    cbn [fst snd] in Hno |- *.
    destruct (String.eqb_spec sg "buy") as [E|E]; cbn [andb].
    + destruct Hno as [Hno|Hno]; [congruence|]. now rewrite Hno.
    + reflexivity.
  - intro raw. reflexivity.
Qed.

(** *** Metrics of a run *)

Lemma run_backtest_nonempty get syms s e cap psp strategy r :
  run_backtest sqrtQ get syms s e cap psp strategy = Returned r ->
  result_trades r <> [] ->
  r = _calculate_metrics sqrtQ
        (with_trades (new_result s e syms cap)
           (collect_trades sqrtQ get syms (fdiv (fmul cap psp) (Fin 100)) strategy))
  /\ collect_trades sqrtQ get syms (fdiv (fmul cap psp) (Fin 100)) strategy
     = result_trades r.
Proof.
  intros Hrun Hne. assert (Htr := run_backtest_trades _ _ _ _ _ _ _ Hrun).
  unfold run_backtest in Hrun.
  destruct (collect_trades sqrtQ get syms _ strategy) as [|t ts] eqn:E.
  - congruence.
  - injection Hrun as <-. split; [reflexivity|]. reflexivity.
Qed.

(** C7 (as amended).  For a run with at least one closed trade, [win_rate]
    is the percentage 100 * winning_trades / total_trades, where
    [total_trades] counts the trades of the run and [winning_trades] those
    whose [return_percent] is above 0; it lies between 0 and 100. *)
Theorem win_rate_is_percentage get syms s e cap psp strategy r :
  run_backtest sqrtQ get syms s e cap psp strategy = Returned r ->
  result_trades r <> [] ->
  total_trades r = length (result_trades r) /\
  winning_trades r
  = count_if (fun t => fgt (return_percent t) (Fin 0)) (result_trades r) /\
  feq (win_rate r)
      (Fin (inject_Z (Z.of_nat (winning_trades r))
            / inject_Z (Z.of_nat (total_trades r)) * 100)) /\
  fle (Fin 0) (win_rate r) = true /\ fle (win_rate r) (Fin 100) = true.
Proof.
  intros Hrun Hne.
  destruct (run_backtest_nonempty _ _ _ _ _ _ _ Hrun Hne) as [Hr Hts].
  rewrite Hts in Hr. clear Hts Hrun.
  destruct (result_trades r) as [|t ts] eqn:E; [congruence|].
  set (l := t :: ts) in *.
  assert (Htot : total_trades r = length l) by (rewrite Hr; reflexivity).
  assert (Hwin : winning_trades r = count_if is_profitable l)
    by (rewrite Hr; reflexivity).
  assert (Hrate : win_rate r
                  = fmul (fdiv (of_nat (count_if is_profitable l))
                               (of_nat (length l))) (Fin 100))
    by (rewrite Hr; reflexivity).
  split; [exact Htot|]. split; [exact Hwin|].
  rewrite Hrate, Hwin, Htot.
  assert (Hpos : 0 < inject_Z (Z.of_nat (length l)))
    by (apply inject_nat_pos; simpl; lia).
  destruct (ratio_bounds (inject_nat_nonneg (count_if is_profitable l))
              (inject_nat_le (count_if_le is_profitable l)) Hpos) as [Hlo Hhi].
  unfold of_nat, fdiv.
  destruct (Qeq_bool_spec (inject_Z (Z.of_nat (length l))) 0); [lra|].
  set (ratio := inject_Z (Z.of_nat (count_if is_profitable l))
                / inject_Z (Z.of_nat (length l))) in *.
  unfold fmul, feq, fle. split; [reflexivity|]. split; qcases; auto; lra.
Qed.

Lemma collect_trades_nil get syms ps strategy :
  (forall sym, In sym syms ->
     get sym = Unusable \/ get sym = NoHistory \/
     exists df, get sym = Frame df /\
       ((len df < 50)%nat \/
        trades (simulate sym (calculate_all_indicators sqrtQ df) ps strategy) = [])) ->
  collect_trades sqrtQ get syms ps strategy = [].
Proof.
  induction syms as [|sym syms IH]; intro H; simpl; [reflexivity|].
  assert (IH' : collect_trades sqrtQ get syms ps strategy = []).
  { apply IH. intros sym' Hin. apply H. now right. }
  unfold _backtest_symbol.
  destruct (H sym (or_introl eq_refl)) as [E|[E|(df & E & Hdf)]]; rewrite E.
  - exact IH'.
  - exact IH'.
  - destruct (Nat.ltb_spec (len df) 50) as [Hlt|Hge]; [exact IH'|].
    destruct Hdf as [Hlt|Hnil]; [lia|]. now rewrite Hnil.
Qed.

(** C8 (as amended).  A run in which no symbol yields a trade (its
    computation raises, the provider has no history, the history has fewer
    than 50 bars, or the simulation closes no trade) returns, without
    raising, the result with the dataclass defaults: no trades, [win_rate]
    0, [sharpe_ratio] 0 and [profit_factor] 0, not the unbounded value. *)
Theorem zero_trade_run_defaults get syms s e cap psp strategy :
  (forall sym, In sym syms ->
     get sym = Unusable \/ get sym = NoHistory \/
     exists df, get sym = Frame df /\
       ((len df < 50)%nat \/
        trades (simulate sym (calculate_all_indicators sqrtQ df)
                         (fdiv (fmul cap psp) (Fin 100)) strategy) = [])) ->
  exists r,
    run_backtest sqrtQ get syms s e cap psp strategy = Returned r /\
    r = new_result s e syms cap /\
    result_trades r = [] /\
    win_rate r = Fin 0 /\ sharpe_ratio r = Fin 0 /\ profit_factor r = Fin 0 /\
    total_trades r = 0%nat /\ max_drawdown_percent r = Fin 0.
Proof.
  intro H. exists (new_result s e syms cap).
  unfold run_backtest. rewrite (collect_trades_nil _ _ _ _ H).
  repeat split.
Qed.


(** *** Bollinger bands and the shape of the indicator series *)



Lemma iloc_bollinger (data : Series) (period : nat) (k : float) (i : nat) :
  (i < length data)%nat ->
  let bb := calculate_bollinger_bands sqrtQ data period k in
  let sma := iloc (rolling agg_mean period data) i in
  let std := iloc (rolling (agg_std sqrtQ) period data) i in
  iloc (upper bb) i = fadd sma (fmul std k) /\
  iloc (middle bb) i = sma /\
  iloc (lower bb) i = fsub sma (fmul std k).
Proof.
  intro Hi. simpl.
  rewrite !iloc_zip_with by (rewrite ?length_map, ?length_rolling; lia).
  rewrite !iloc_map by (rewrite ?length_rolling; lia).
  repeat split.
Qed.




End Runs.

(** ** Further properties of a run *)

Section RunsFurther.

Variable sqrtQ : Q -> Q.

(** X16.  A strategy name other than "technical", "momentum" and
    "mean_reversion" is not rejected: every bar gives "hold", no trade is
    ever opened, and the run returns the result with its defaults. *)
Theorem unknown_strategy_never_trades get syms s e cap psp strategy :
  strategy <> "technical"%string -> strategy <> "momentum"%string ->
  strategy <> "mean_reversion"%string ->
  run_backtest sqrtQ get syms s e cap psp strategy
  = Returned (new_result s e syms cap) /\
  forall sym ps,
    _backtest_symbol sqrtQ get sym ps strategy = Raised \/
    _backtest_symbol sqrtQ get sym ps strategy = Returned [].
Proof.
  intros H1 H2 H3. split.
  - unfold run_backtest. rewrite collect_trades_nil; [reflexivity|].
    intros sym _. destruct (get sym) as [| |df]; auto.
    right. right. exists df. split; [reflexivity|]. right.
    now apply unknown_strategy_simulate.
  - intros sym ps. unfold _backtest_symbol.
    destruct (get sym) as [| |df]; auto.
    right. destruct (len df <? 50)%nat; [reflexivity|].
    now rewrite unknown_strategy_simulate.
Qed.

(** X17.  On a frame whose bars hold ordinary prices (numbers from 10^-100 to
    10^100) with low <= close <= high, every trade returned for the symbol
    has an entry price, a target and a stop that are numbers, with
    stop <= entry <= target: the average true range at the entry bar is a
    number that is not negative. *)
Theorem targets_bracket_entry get sym ps strategy df ts :
  get sym = Frame df ->
  Forall well_formed_bar (rows df) -> Forall ordinary_bar (rows df) ->
  _backtest_symbol sqrtQ get sym ps strategy = Returned ts ->
  Forall (fun t => exists e tg sl,
            entry_price t = Fin e /\ target_price t = Fin tg /\
            stop_loss t = Fin sl /\ sl <= e /\ e <= tg) ts.
Proof.
  intros Hget Hwf _ Hret. unfold _backtest_symbol in Hret. rewrite Hget in Hret.
  destruct (len df <? 50)%nat; injection Hret as <-; [constructor|].
  eapply Forall_impl; [|apply simulate_spans].
  intros t (j & k & Hj & Hjk & Hk & (Ho & _) & _).
  destruct Ho as (_ & _ & _ & _ & _ & B6 & B7 & B8 & _).
  change (len (calculate_all_indicators sqrtQ df)) with (length (rows df)) in Hk.
  assert (Hjl : (j < length (rows df))%nat) by lia.
  destruct (well_formed_iloc Hwf Hjl) as (h & l & c & _ & _ & Hc & _).
  destruct (@atr_nonneg_at (rows df) 14 j Hwf ltac:(lia) Hjl ltac:(lia))
    as (a & Ha & Ha0).
  change (col_close (calculate_all_indicators sqrtQ df))
    with (map b_close (rows df)) in B6.
  unfold open_trade in B7, B8. cbn [target_price stop_loss] in B7, B8.
  change (atr_14 (calculate_all_indicators sqrtQ df))
    with (Some (calculate_atr (map b_high (rows df)) (map b_low (rows df))
                              (map b_close (rows df)) 14)) in B7, B8.
  change (col_close (calculate_all_indicators sqrtQ df))
    with (map b_close (rows df)) in B7, B8.
  cbv iota beta in B7, B8.
  rewrite Ha, Hc in B7, B8. rewrite Hc in B6. cbn in B7, B8.
  exists c, (c + a * 2), (c + - (a * 1.5)).
  split; [exact B6|]. split; [exact B7|]. split; [exact B8|].
  split; lra.
Qed.

(** X18.  In a run with trades the winning and the losing trades partition
    the trade list: a trade that is not profitable, a break-even trade
    included, counts as losing.  When no trade is losing, the profit factor is
    infinite, the average loss is 0 and the win rate is 100. *)
Theorem win_loss_partition get syms s e cap psp strategy r :
  run_backtest sqrtQ get syms s e cap psp strategy = Returned r ->
  result_trades r <> [] ->
  (winning_trades r + losing_trades r = total_trades r)%nat /\
  losing_trades r
  = count_if (fun t => negb (fgt (return_percent t) (Fin 0))) (result_trades r) /\
  (losing_trades r = 0%nat ->
   profit_factor r = PInf /\ average_loss r = Fin 0 /\
   feq (win_rate r) (Fin 100)).
Proof.
  intros Hrun Hne.
  destruct (@run_backtest_nonempty sqrtQ get syms s e cap psp strategy r Hrun Hne)
    as [Hr Hts].
  rewrite Hts in Hr. clear Hts Hrun.
  destruct (result_trades r) as [|t ts] eqn:E; [congruence|].
  set (l := t :: ts) in *.
  assert (Hpart := count_if_negb is_profitable l).
  assert (Hle := count_if_le is_profitable l).
  assert (Hw : winning_trades r = count_if is_profitable l)
    by (rewrite Hr; reflexivity).
  assert (Hl : losing_trades r = (length l - count_if is_profitable l)%nat)
    by (rewrite Hr; reflexivity).
  assert (Ht : total_trades r = length l) by (rewrite Hr; reflexivity).
  split; [lia|]. split; [unfold is_profitable in *; lia|].
  intro H0.
  assert (Hnone : filter (fun t => negb (is_profitable t)) l = []).
  { apply length_zero_iff_nil. unfold count_if in *. lia. }
  assert (Hpf : profit_factor r = PInf).
  { rewrite Hr. unfold _calculate_metrics. cbn [result_trades with_trades].
    fold l. cbn [profit_factor]. rewrite Hnone. reflexivity. }
  assert (Hal : average_loss r = Fin 0).
  { rewrite Hr. unfold _calculate_metrics. cbn [result_trades with_trades].
    fold l. cbn [average_loss]. rewrite Hnone. reflexivity. }
  assert (Hwr : win_rate r
                = fmul (fdiv (of_nat (count_if is_profitable l))
                             (of_nat (length l))) (Fin 100))
    by (rewrite Hr; reflexivity).
  split; [exact Hpf|]. split; [exact Hal|].
  rewrite Hwr. replace (count_if is_profitable l) with (length l) by lia.
  assert (Hpos : 0 < inject_Z (Z.of_nat (length l)))
    by (apply inject_nat_pos; cbn; lia).
  unfold of_nat. set (n := inject_Z (Z.of_nat (length l))) in *.
  rewrite fdiv_finite by (intro Hz; lra). cbn. field. intro Hz; lra.
Qed.

(** X19.  When the returns of the trades are numbers, the best trade and the
    worst trade of a run are trades of the result, and the return of every
    trade lies between theirs. *)
Theorem best_and_worst_trade get syms s e cap psp strategy r :
  run_backtest sqrtQ get syms s e cap psp strategy = Returned r ->
  result_trades r <> [] ->
  Forall (fun t => is_finite (return_percent t) = true) (result_trades r) ->
  exists b w,
    best_trade r = Some b /\ worst_trade r = Some w /\
    In b (result_trades r) /\ In w (result_trades r) /\
    Forall (fun t => fle (return_percent w) (return_percent t) = true /\
                     fle (return_percent t) (return_percent b) = true)
           (result_trades r).
Proof.
  intros Hrun Hne Hfin.
  destruct (@run_backtest_nonempty sqrtQ get syms s e cap psp strategy r Hrun Hne)
    as [Hr Hts].
  rewrite Hts in Hr. clear Hts Hrun.
  destruct (result_trades r) as [|t ts] eqn:E; [congruence|].
  apply Forall_cons_iff in Hfin as [Ft Fts].
  destruct (@fold_best_spec fgt (fun a b => fle a b) ts) with (b := t)
    as (_ & M1 & L1 & A1); try assumption.
  { intros x b H. cbn in *. unfold Qlt_bool in H.
    destruct (Qle_bool_spec x b); [discriminate|].
    destruct (Qle_bool_spec b x); [reflexivity | lra]. }
  { intros x b H. cbn in *. unfold Qlt_bool in H.
    destruct (Qle_bool_spec x b); [reflexivity | discriminate]. }
  { intros a b c H1 H2. cbn in *.
    destruct (Qle_bool_spec a b); [|discriminate].
    destruct (Qle_bool_spec b c); [|discriminate].
    destruct (Qle_bool_spec a c); [reflexivity | lra]. }
  destruct (@fold_best_spec flt (fun a b => fle b a) ts) with (b := t)
    as (_ & M2 & L2 & A2); try assumption.
  { intros x b H. cbn in *. unfold Qlt_bool in H.
    destruct (Qle_bool_spec b x); [discriminate|].
    destruct (Qle_bool_spec x b); [reflexivity | lra]. }
  { intros x b H. cbn in *. unfold Qlt_bool in H.
    destruct (Qle_bool_spec b x); [reflexivity | discriminate]. }
  { intros a b c H1 H2. cbn in *.
    destruct (Qle_bool_spec b a); [|discriminate].
    destruct (Qle_bool_spec c b); [|discriminate].
    destruct (Qle_bool_spec c a); [reflexivity | lra]. }
  set (b := fold_left _ ts t) in M1, L1, A1.
  set (w := fold_left _ ts t) in M2, L2, A2.
  exists b, w.
  split; [rewrite Hr; reflexivity|]. split; [rewrite Hr; reflexivity|].
  split; [destruct M1 as [->|M1]; [now left | now right]|].
  split; [destruct M2 as [->|M2]; [now left | now right]|].
  constructor; [split; assumption|].
  rewrite Forall_forall in A1, A2. apply Forall_forall. intros x Hx. auto.
Qed.

(** X20.  A run with a single trade keeps the Sharpe ratio at 0 (the
    deviation needs two returns), has no drawdown, and that trade is both
    the best and the worst trade. *)
Theorem single_trade_run get syms s e cap psp strategy r t :
  run_backtest sqrtQ get syms s e cap psp strategy = Returned r ->
  result_trades r = [t] ->
  total_trades r = 1%nat /\
  sharpe_ratio r = Fin 0 /\ max_drawdown_percent r = Fin 0 /\
  best_trade r = Some t /\ worst_trade r = Some t /\
  total_return_percent r = fadd (Fin 0) (return_percent t).
Proof.
  intros Hrun Ht.
  assert (Hne : result_trades r <> []) by (rewrite Ht; discriminate).
  destruct (@run_backtest_nonempty sqrtQ get syms s e cap psp strategy r Hrun Hne)
    as [Hr Hts].
  rewrite Hts, Ht in Hr. clear Hts Hrun.
  assert (Hdd : max_drawdown [return_percent t] = Fin 0).
  { unfold max_drawdown, cumulative. cbn [cumulative_from hd fold_left].
    unfold drawdown_step.
    destruct (fadd (Fin 0) (return_percent t)) as [| | |q]; cbn; try reflexivity.
    unfold Qlt_bool.
    destruct (Qle_bool_spec q q); [|lra]. cbn.
    destruct (Qle_bool_spec (q + - q) 0); [reflexivity | lra]. }
  rewrite Hr. unfold _calculate_metrics. cbn [result_trades with_trades].
  cbn [total_trades sharpe_ratio max_drawdown_percent best_trade worst_trade
       total_return_percent map length]. rewrite Hdd.
  repeat split.
Qed.

(** X21.  With a square root that is never negative and a band width between
    0 and 10^100, the Bollinger bands of a series of ordinary prices
    (numbers from 10^-100 to 10^100) are numbers ordered
    lower <= middle <= upper at every position from [period - 1] on. *)
Theorem bollinger_bands_ordered (data : Series) (period : nat) (k : Q) (i : nat) :
  (forall q, 0 <= sqrtQ q) -> 0 <= k -> k <= price_ceiling ->
  (2 <= period)%nat -> Forall ordinary_price data ->
  (i < length data)%nat -> (period <= S i)%nat ->
  let bb := calculate_bollinger_bands sqrtQ data period (Fin k) in
  exists lo mid up,
    iloc (lower bb) i = Fin lo /\ iloc (middle bb) i = Fin mid /\
    iloc (upper bb) i = Fin up /\
    lo <= mid /\ mid <= up.
Proof.
  intros Hsqrt Hk _ Hp Hord Hi Hw bb.
  assert (Hfin : all_finite data).
  { eapply Forall_impl; [|exact Hord]. intros x (q & -> & _). reflexivity. }
  destruct (@iloc_bollinger sqrtQ data period (Fin k) i Hi) as (Eu & Em & El).
  fold bb in Eu, Em, El.
  assert (Hm := @rolling_mean_defined period data ltac:(lia) Hfin i).
  rewrite length_rolling in Hm. specialize (Hm Hi Hw).
  apply is_finite_value in Hm as (m & Hm).
  destruct (finite_values_all (Forall_window period i Hfin)) as (qs & Hqs).
  assert (Hlen : length qs = period).
  { rewrite (@finite_values_length _ _ Hqs). now apply length_window. }
  assert (Hs : iloc (rolling (agg_std sqrtQ) period data) i
               = Fin (sqrtQ (Qvariance qs))).
  { rewrite iloc_rolling by assumption.
    destruct (Nat.ltb_spec (S i) period); [lia|].
    rewrite Hqs. unfold agg_std. rewrite Hlen.
    destruct (Nat.leb_spec period 1); [lia | reflexivity]. }
  rewrite Hm in Em. rewrite Hm, Hs in Eu, El. cbn in Eu, El.
  exists (m + - (sqrtQ (Qvariance qs) * k)), m, (m + sqrtQ (Qvariance qs) * k).
  split; [exact El|]. split; [exact Em|]. split; [exact Eu|].
  assert (0 <= sqrtQ (Qvariance qs) * k) by (apply Qmult_le_0_compat; auto).
  split; lra.
Qed.



End RunsFurther.

(** * Worked examples

    The theorems above at the sample data, with the square root to twelve
    places, and the inputs on which the sentences of the specification that
    the theorems amend fail. *)

Local Open Scope string_scope.

Lemma bars_of_finite (closes : list Q) :
  Forall (fun b => is_finite (b_high b) = true /\
                   is_finite (b_low b) = true /\
                   is_finite (b_close b) = true) (bars_of closes).
Proof.
  unfold bars_of. apply Forall_map, Forall_forall. intros p _. repeat split.
Qed.

Lemma bars_of_ordinary (closes : list Q) :
  Forall ordinary closes -> Forall ordinary_bar (bars_of closes).
Proof.
  intro H. unfold bars_of. apply Forall_map, Forall_forall.
  intros [d c] Hin. apply in_combine_r in Hin.
  rewrite Forall_forall in H. specialize (H c Hin).
  repeat split; exists c; (split; [reflexivity | exact H]).
Qed.

(** C1 at the bar of day 53 of the sample "UP": the position opened on day
    52 is open, the close 123 is above the target, and the trade closes with
    [hit_target] only. *)
Lemma exit_priority_witness :
  let df := calculate_all_indicators sqrt_approx (frame_of up_closes) in
  let t := open_trade "UP" df 52 52 (iloc (col_close df) 52) (Fin 0.8) in
  let st := state_before "UP" df (Fin 1000) "momentum" 53 in
  current_trade st = Some t /\
  fge (iloc (col_close df) 53) (target_price t) = true /\
  exists t',
    bar_step "UP" df (Fin 1000) "momentum" st 53
    = {| trades := trades st ++ [t']; current_trade := None |} /\
    hit_target t' = true /\ hit_stop_loss t' = false.
Proof.
  intros df t st.
  assert (Hcur : current_trade st = Some t) by (vm_compute; reflexivity).
  assert (Htarget : fge (iloc (col_close df) 53) (target_price t) = true)
    by (vm_compute; reflexivity).
  split; [exact Hcur|]. split; [exact Htarget|].
  exact (proj1 (proj2 (exit_priority_first_match sqrt_approx
                         "UP" df (Fin 1000) "momentum" 53 Hcur)) Htarget).
Defined.

(** The entry rule at the bar of day 50 of the sample "DOWN": the momentum
    strategy says "buy" with confidence 0.8 and the trade opens at the
    close. *)
Lemma entry_rule_at_sample :
  let df := calculate_all_indicators sqrt_approx (frame_of down_closes) in
  let price := iloc (col_close df) 50 in
  let atr := match atr_14 df with
             | Some col => iloc col 50
             | None => fmul price (Fin 0.02)
             end in
  current_trade initial_state = None /\
  exists t,
    bar_step "DOWN" df (Fin 1000) "momentum" initial_state 50
    = {| trades := trades initial_state; current_trade := Some t |} /\
    entry_price t = price /\
    target_price t = fadd price (fmul atr (Fin 2)) /\
    stop_loss t = fsub price (fmul atr (Fin 1.5)) /\
    confidence t = snd (_get_signal (iloc_head (50 + 1) df) "momentum") /\
    open_ok t.
Proof.
  intros df price atr.
  assert (Hflat : current_trade initial_state = None) by reflexivity.
  split; [exact Hflat|].
  apply (proj1 (entry_rule sqrt_approx "DOWN" df (Fin 1000) "momentum"
                           initial_state 50 Hflat)).
  split; vm_compute; reflexivity.
Defined.

(** C2, the sentence on the undefined ATR, is not what the loop does.  The
    sample with a gap is a history as a provider may deliver it: 52 daily
    bars of which the bar of day 45 has no high and no low.  After
    [calculate_all_indicators] the frame has the [atr_14] column and the
    ATR(14) of day 50 is undefined.  On day 50 the momentum strategy says
    "buy" with confidence 0.8, the loop is flat and opens the trade at the
    close 120; at the start of the next iteration the open trade has an
    undefined target and an undefined stop, where the sentence puts them 2%
    above and 1.5% below the entry price.  The alternative [price * 0.02]
    of the code is taken only without the column, which the frame of the
    loop always has. *)
Theorem undefined_atr_entry :
  let df := calculate_all_indicators sqrt_approx gap_frame in
  (50 <= len gap_frame)%nat /\
  (exists col, atr_14 df = Some col /\ iloc col 50 = NaN) /\
  _get_signal (iloc_head (50 + 1) df) "momentum" = ("buy", Fin 0.8) /\
  current_trade (state_before "GAP" df (Fin 1000) "momentum" 50) = None /\
  exists t,
    current_trade (state_before "GAP" df (Fin 1000) "momentum" 51) = Some t /\
    entry_price t = Fin 120 /\
    target_price t = NaN /\ stop_loss t = NaN /\
    ~ feq (target_price t) (Fin (120 * 1.02)) /\
    ~ feq (stop_loss t) (Fin (120 * 0.985)).
Proof.
  intro df.
  split; [vm_compute; lia|].
  split; [eexists; split; [reflexivity | vm_compute; reflexivity]|].
  split; [vm_compute; reflexivity|].
  split; [reflexivity|].
  eexists. split; [vm_compute; reflexivity|].
  repeat split; try (vm_compute; reflexivity); intro H; exact H.
Qed.







(** C7 at the run on the samples "UP" and "DOWN": one winning trade out of
    two, a win rate of 50. *)
Lemma win_rate_witness :
  exists r,
    run_backtest sqrt_approx sample_provider ["UP"; "DOWN"] 0 54
                 (Fin 10000) (Fin 10) "momentum" = Returned r /\
    result_trades r <> [] /\
    total_trades r = 2%nat /\ winning_trades r = 1%nat /\
    feq (win_rate r) (Fin 50).
Proof.
  destruct (run_backtest sqrt_approx sample_provider ["UP"; "DOWN"] 0 54
                         (Fin 10000) (Fin 10) "momentum") as [|r] eqn:Hrun;
    [vm_compute in Hrun; discriminate|].
  assert (Hne : result_trades r <> []).
  { vm_compute in Hrun. injection Hrun as <-. discriminate. }
  exists r. split; [reflexivity|]. split; [exact Hne|].
  destruct (@win_rate_is_percentage _ _ _ _ _ _ _ _ _ Hrun Hne)
    as (Htot & Hwin & Hrate & _).
  vm_compute in Hrun. injection Hrun as <-.
  split; [reflexivity|]. split; [reflexivity|]. vm_compute. reflexivity.
Defined.

(** C7, as the specification states it, fails: in the run on the sample "UP"
    the one trade wins, winning_trades / total_trades is 1, and the win rate
    is 100. *)
Lemma win_rate_counterexample :
  exists r,
    run_backtest sqrt_approx sample_provider ["UP"] 0 54
                 (Fin 10000) (Fin 10) "momentum" = Returned r /\
    result_trades r <> [] /\
    total_trades r = 1%nat /\ winning_trades r = 1%nat /\
    feq (win_rate r) (Fin 100) /\
    ~ feq (win_rate r)
          (fdiv (of_nat (winning_trades r)) (of_nat (total_trades r))).
Proof.
  eexists. split; [vm_compute; reflexivity|].
  split; [discriminate|].
  split; [reflexivity|]. split; [reflexivity|].
  split; [vm_compute; reflexivity|].
  apply feqb_false. vm_compute. reflexivity.
Defined.

(** C8 at a run whose symbols have too short a history, an unusable frame,
    no history, and a simulation that closes no trade. *)
Lemma zero_trade_run_witness :
  exists r,
    run_backtest sqrt_approx sample_provider ["SHORT"; "BAD"; "NONE"; "OPEN"]
                 0 54 (Fin 10000) (Fin 10) "momentum" = Returned r /\
    r = new_result 0 54 ["SHORT"; "BAD"; "NONE"; "OPEN"]%string (Fin 10000) /\
    result_trades r = [] /\
    win_rate r = Fin 0 /\ sharpe_ratio r = Fin 0 /\ profit_factor r = Fin 0 /\
    total_trades r = 0%nat /\ max_drawdown_percent r = Fin 0.
Proof.
  apply zero_trade_run_defaults.
  intros sym [<-|[<-|[<-|[<-|[]]]]].
  - right. right. eexists. split; [reflexivity|]. left. vm_compute. lia.
  - left. reflexivity.
  - right. left. reflexivity.
  - right. right. eexists. split; [reflexivity|]. right.
    vm_compute. reflexivity.
Defined.

(** C8, the sentence on the profit factor, fails when its value is taken to
    be the unbounded one: the run above closes no trade and its profit
    factor is 0, the default of the result, not infinity.  Infinity is what
    [_calculate_metrics] assigns to a run with trades none of which loses,
    as the run on "UP" with its single winning trade; a run without trades
    returns before the metrics are computed. *)
Lemma zero_trade_profit_factor_counterexample :
  (exists r,
      run_backtest sqrt_approx sample_provider ["SHORT"; "BAD"; "NONE"; "OPEN"]
                   0 54 (Fin 10000) (Fin 10) "momentum" = Returned r /\
      result_trades r = [] /\
      profit_factor r = Fin 0 /\ profit_factor r <> PInf) /\
  (exists r,
      run_backtest sqrt_approx sample_provider ["UP"]
                   0 54 (Fin 10000) (Fin 10) "momentum" = Returned r /\
      length (result_trades r) = 1%nat /\ losing_trades r = 0%nat /\
      profit_factor r = PInf).
Proof.
  split.
  - eexists. split; [vm_compute; reflexivity|].
    split; [reflexivity|]. split; [reflexivity | discriminate].
  - eexists. split; [vm_compute; reflexivity|].
    split; [reflexivity|]. split; reflexivity.
Defined.



(** C10 at the sample "AGAIN": the trade of days 50 to 51 is returned,
    closed; the position opened on the last day 52 is open at the end of the
    loop and is not returned. *)
Lemma returned_trades_witness :
  let df := frame_of reentry_closes in
  let final := simulate "AGAIN" (calculate_all_indicators sqrt_approx df)
                        (Fin 1000) "momentum" in
  exists ts t,
    _backtest_symbol sqrt_approx sample_provider "AGAIN" (Fin 1000) "momentum"
    = Returned ts /\
    sample_provider "AGAIN" = Frame df /\ (50 <= len df)%nat /\
    current_trade final = Some t /\
    length ts = 1%nat /\ Forall (closed (Fin 1000)) ts /\
    ts = trades final /\ exit_date t = None /\ ~ In t ts.
Proof.
  intros df final.
  destruct (_backtest_symbol sqrt_approx sample_provider "AGAIN" (Fin 1000)
                             "momentum") as [|ts] eqn:Hret;
    [vm_compute in Hret; discriminate|].
  destruct (current_trade final) as [t|] eqn:Hcur;
    [|vm_compute in Hcur; discriminate].
  assert (Hget : sample_provider "AGAIN" = Frame df) by reflexivity.
  assert (Hlen : (50 <= len df)%nat) by (vm_compute; lia).
  destruct (@returned_trades_closed _ _ _ _ _ _ Hret) as (Hclosed & Hfinal & _).
  destruct (Hfinal df Hget Hlen) as [Hts Hopen].
  destruct (Hopen t Hcur) as [Hdate Hnot].
  exists ts, t. repeat split; try assumption.
  vm_compute in Hret. injection Hret as <-. reflexivity.
Defined.

(** ** The further properties at the sample data *)

Lemma bars_of_well_formed (closes : list Q) :
  Forall well_formed_bar (bars_of closes).
Proof.
  unfold bars_of. apply Forall_map, Forall_forall. intros p _.
  exists (snd p), (snd p), (snd p). cbn. repeat split; try reflexivity; lra.
Qed.

Lemma bars_of_dates (closes : list Q) : forall start,
  map b_date
      (map (fun p => flat_bar (fst p) (snd p))
           (combine (seq start (length closes)) closes))
  = map Z.of_nat (seq start (length closes)).
Proof.
  induction closes as [|c closes IH]; intro start; [reflexivity|].
  cbn [length seq combine map]. now rewrite IH.
Qed.

Lemma frame_of_dates_increase (closes : list Q) (dt : bool) :
  dates_increase (raw_frame (bars_of closes) dt).
Proof.
  intros a b Hab. unfold index, len in *. cbn [rows raw_frame] in *.
  unfold bars_of in *. rewrite length_map, length_combine, length_seq in Hab.
  rewrite bars_of_dates.
  assert (E : forall i, (i < length closes)%nat ->
                nth i (map Z.of_nat (seq 0 (length closes))) 0%Z = Z.of_nat i).
  { intros i Hi. change 0%Z with (Z.of_nat 0).
    rewrite map_nth, seq_nth by assumption. reflexivity. }
  rewrite !E by lia. lia.
Qed.

Lemma ordinary_by_computation (l : list Q) :
  forallb (fun q => Qle_bool price_floor q && Qle_bool q price_ceiling) l = true ->
  Forall ordinary l.
Proof.
  intro H. apply Forall_forall. intros q Hq.
  rewrite forallb_forall in H. specialize (H q Hq).
  apply andb_true_iff in H as [H1 H2].
  split; now apply Qle_bool_iff.
Qed.

Lemma ordinary_prices (l : list Q) :
  Forall ordinary l -> Forall ordinary_price (map Fin l).
Proof.
  intro H. apply Forall_map. eapply Forall_impl; [|exact H].
  intros q Hq. now exists q.
Qed.

(** X1 at sixteen closes of 100: the SMA(5) at position 10 is 100. *)
Lemma sma_constant_witness :
  (1 <= 5)%nat /\ (10 < 16)%nat /\ (5 <= 11)%nat /\
  feq (iloc (calculate_sma (repeat (Fin 100) 16) 5) 10) (Fin 100).
Proof.
  assert (H1 : (1 <= 5)%nat) by lia.
  assert (H2 : (10 < 16)%nat) by lia.
  assert (H3 : (5 <= 11)%nat) by lia.
  repeat (split; [assumption|]).
  exact (@sma_constant 100 16 5 10 H1 H2 H3).
Defined.

(** X2 at the closes 100, 110, 105 and the span 12. *)
Lemma ema_defined_everywhere_witness :
  let qs := [100; 110; 105] in
  let ema := calculate_ema (map Fin qs) 12 in
  (1 <= 12)%nat /\
  Forall moderate qs /\
  length ema = 3%nat /\
  iloc ema 0 = Fin 100 /\
  all_finite ema.
Proof.
  intros qs ema.
  assert (H1 : (1 <= 12)%nat) by lia.
  assert (H2 : Forall moderate qs)
    by (repeat constructor; vm_compute; discriminate).
  split; [exact H1|]. split; [exact H2|].
  exact (@ema_defined_everywhere qs 12 H1 H2).
Defined.

(** X4 at four bars: the close rises, stays and falls. *)
Lemma obv_follows_close_witness :
  let cs := [10; 11; 11; 9] in
  let zs := [100; 200; 300; 400]%Z in
  let obv := calculate_obv (map Fin cs) (map (fun z => Fin (inject_Z z)) zs) in
  length zs = length cs /\
  share_counts zs /\
  length obv = 4%nat /\
  feq (iloc obv 0) (Fin 0) /\
  exists prev cur,
    iloc obv 0 = Fin prev /\ iloc obv 1 = Fin cur /\ cur == prev + 200.
Proof.
  intros cs zs obv.
  assert (Hlen : length zs = length cs) by reflexivity.
  assert (Hsc : share_counts zs).
  { split; [repeat constructor; lia | vm_compute; reflexivity]. }
  split; [exact Hlen|]. split; [exact Hsc|].
  destruct (@obv_follows_close cs zs Hlen Hsc) as (H1 & H2 & H3).
  split; [exact H1|]. split; [apply H2; discriminate|].
  destruct (H3 0%nat ltac:(cbn; lia)) as (prev & cur & E1 & E2 & Hup & _).
  exists prev, cur. split; [exact E1|]. split; [exact E2|].
  apply Hup. cbn. lra.
Defined.

(** X5 at sixteen bars rising by 1 a day. *)
Lemma atr_nonnegative_witness :
  let bars := bars_of rising_closes in
  Forall well_formed_bar bars /\ Forall ordinary_bar bars /\
  (1 <= 14)%nat /\ (15 < length bars)%nat /\ (14 <= 16)%nat /\
  exists a,
    iloc (calculate_atr (map b_high bars) (map b_low bars) (map b_close bars)
                        14) 15 = Fin a /\
    0 <= a.
Proof.
  intro bars.
  assert (H : Forall well_formed_bar bars) by apply bars_of_well_formed.
  assert (H0 : Forall ordinary_bar bars).
  { apply bars_of_ordinary, ordinary_by_computation.
    vm_compute. reflexivity. }
  assert (H1 : (1 <= 14)%nat) by lia.
  assert (H2 : (15 < length bars)%nat) by (vm_compute; lia).
  assert (H3 : (14 <= 16)%nat) by lia.
  repeat (split; [assumption|]).
  exact (@atr_nonnegative bars 14 15 H H0 H1 H2 H3).
Defined.

(** X6 at the same bars. *)
Lemma stochastic_k_range_witness :
  let bars := bars_of rising_closes in
  let k := iloc (stoch_K (calculate_stochastic (map b_high bars)
                            (map b_low bars) (map b_close bars) 14 3)) 15 in
  Forall well_formed_bar bars /\ Forall ordinary_bar bars /\
  (1 <= 14)%nat /\ (15 < length bars)%nat /\ (14 <= 16)%nat /\
  (k = NaN \/ exists v, k = Fin v /\ 0 <= v /\ v <= 100.000001).
Proof.
  intros bars k.
  assert (H : Forall well_formed_bar bars) by apply bars_of_well_formed.
  assert (H0 : Forall ordinary_bar bars).
  { apply bars_of_ordinary, ordinary_by_computation.
    vm_compute. reflexivity. }
  assert (H1 : (1 <= 14)%nat) by lia.
  assert (H2 : (15 < length bars)%nat) by (vm_compute; lia).
  assert (H3 : (14 <= 16)%nat) by lia.
  repeat (split; [assumption|]).
  exact (@stochastic_k_range bars 14 3 15 H H0 H1 H2 H3).
Defined.

(** X7 at the first 51 bars of the sample "DOWN", for the momentum
    strategy. *)
Lemma get_signal_range_witness :
  let df := iloc_head 51 (calculate_all_indicators sqrt_approx
                            (frame_of down_closes)) in
  let sc := _get_signal df "momentum" in
  (1 <= len df)%nat /\
  (fst sc = "buy" \/ fst sc = "sell" \/ fst sc = "hold") /\
  exists q, snd sc = Fin q /\ 0.5 <= q /\ q <= 0.85.
Proof.
  intros df sc.
  assert (H : (1 <= len df)%nat) by (vm_compute; lia).
  split; [exact H|].
  destruct (@get_signal_range df "momentum" H) as (H1 & q & Hq & H2 & H3 & _).
  split; [exact H1|]. exists q. auto.
Defined.

(** X9 at the sample "UP". *)
Lemma loop_follows_schedule_witness :
  let df := calculate_all_indicators sqrt_approx (frame_of up_closes) in
  (50 <= len df)%nat /\
  loop_schedule "UP" df "momentum" (len df)
                (simulate "UP" df (Fin 1000) "momentum").
Proof.
  intro df.
  assert (H : (50 <= len df)%nat) by (vm_compute; lia).
  split; [exact H|].
  exact (@loop_follows_schedule "UP" df (Fin 1000) "momentum" H).
Defined.

(** X10 at the sample "AGAIN". *)
Lemma trades_do_not_overlap_witness :
  let df := frame_of reentry_closes in
  datetime_index df = true /\
  dates_increase df /\
  Forall (fun t => (1 <= holding_days t)%Z)
         (trades (simulate "AGAIN" df (Fin 1000) "momentum")) /\
  StronglySorted (fun a b => (exit_day a < entry_date b)%Z)
                 (trades (simulate "AGAIN" df (Fin 1000) "momentum")).
Proof.
  intro df.
  assert (H0 : datetime_index df = true) by reflexivity.
  assert (H : dates_increase df) by apply frame_of_dates_increase.
  split; [exact H0|]. split; [exact H|].
  exact (@trades_do_not_overlap "AGAIN" df (Fin 1000) "momentum" H0 H).
Defined.

(** X11 at the bars of the sample "UP" under an index without dates. *)
Lemma undated_index_witness :
  let df := raw_frame (bars_of up_closes) false in
  datetime_index df = false /\
  Forall (fun t => exists j,
            (50 <= j)%nat /\ (S j < len df)%nat /\
            entry_date t = nth j (index df) 0%Z /\
            entry_price t = iloc (col_close df) j /\
            exit_date t = Some (nth (S j) (index df) 0%Z) /\
            exit_price t = Some (iloc (col_close df) (S j)))
         (trades (simulate "UP" df (Fin 1000) "momentum")).
Proof.
  intro df.
  assert (H : datetime_index df = false) by reflexivity.
  split; [exact H|].
  exact (@undated_index_one_bar_trades "UP" df (Fin 1000) "momentum" H).
Defined.


(** X13 at a buy and a strong buy signal: the score lies between 75 and
    100, up to the margin. *)
Lemma category_score_between_witness :
  let signals := [sample_signal BUY; sample_signal STRONG_BUY] in
  signals <> [] /\ (length signals <= 1000)%nat /\
  exists v, _calculate_category_score signals = Fin v /\
            75 - 0.000001 <= v /\ v <= 100 + 0.000001.
Proof.
  intro signals.
  assert (Hne : signals <> []) by discriminate.
  assert (Hlen : (length signals <= 1000)%nat) by (cbn; lia).
  split; [exact Hne|]. split; [exact Hlen|].
  assert (H : Forall (fun s => (exists w, strength s = Fin w /\ ordinary w) /\
                   fle (Fin 75) (signal_values (signal s)) = true /\
                   fle (signal_values (signal s)) (Fin 100) = true) signals).
  { repeat constructor;
      try (eexists; split; [reflexivity | split; vm_compute; discriminate]). }
  destruct (@category_score_between signals 75 100 Hne Hlen H)
    as (_ & v & Hv & H1 & H2 & _).
  exists v. auto.
Defined.

(** X16 at a strategy name with a typing error. *)
Lemma unknown_strategy_witness :
  "momentun" <> "technical" /\ "momentun" <> "momentum" /\
  "momentun" <> "mean_reversion" /\
  run_backtest sqrt_approx sample_provider ["UP"; "DOWN"] 0 54
               (Fin 10000) (Fin 10) "momentun"
  = Returned (new_result 0 54 ["UP"; "DOWN"] (Fin 10000)).
Proof.
  assert (H1 : "momentun" <> "technical") by discriminate.
  assert (H2 : "momentun" <> "momentum") by discriminate.
  assert (H3 : "momentun" <> "mean_reversion") by discriminate.
  repeat (split; [assumption|]).
  exact (proj1 (@unknown_strategy_never_trades sqrt_approx sample_provider
                  ["UP"; "DOWN"] 0 54 (Fin 10000) (Fin 10) "momentun"
                  H1 H2 H3)).
Defined.

(** X17 at the sample "UP". *)
Lemma targets_bracket_entry_witness :
  exists ts,
    sample_provider "UP" = Frame (frame_of up_closes) /\
    Forall well_formed_bar (rows (frame_of up_closes)) /\
    Forall ordinary_bar (rows (frame_of up_closes)) /\
    _backtest_symbol sqrt_approx sample_provider "UP" (Fin 1000) "momentum"
    = Returned ts /\
    length ts = 1%nat /\
    Forall (fun t => exists e tg sl,
              entry_price t = Fin e /\ target_price t = Fin tg /\
              stop_loss t = Fin sl /\ sl <= e /\ e <= tg) ts.
Proof.
  destruct (_backtest_symbol sqrt_approx sample_provider "UP" (Fin 1000)
                             "momentum") as [|ts] eqn:Hret;
    [vm_compute in Hret; discriminate|].
  assert (Hget : sample_provider "UP" = Frame (frame_of up_closes))
    by reflexivity.
  assert (Hwf : Forall well_formed_bar (rows (frame_of up_closes)))
    by apply bars_of_well_formed.
  assert (Hord : Forall ordinary_bar (rows (frame_of up_closes))).
  { apply bars_of_ordinary, ordinary_by_computation.
    vm_compute. reflexivity. }
  exists ts. split; [exact Hget|]. split; [exact Hwf|]. split; [exact Hord|].
  split; [reflexivity|].
  assert (H := @targets_bracket_entry sqrt_approx sample_provider "UP"
                 (Fin 1000) "momentum" (frame_of up_closes) ts
                 Hget Hwf Hord Hret).
  split; [|exact H].
  vm_compute in Hret. injection Hret as <-. reflexivity.
Defined.

(** X18 at the run on the sample "UP": the one trade wins, no trade is
    losing and the profit factor is infinite. *)
Lemma win_loss_partition_witness :
  exists r,
    run_backtest sqrt_approx sample_provider ["UP"] 0 54
                 (Fin 10000) (Fin 10) "momentum" = Returned r /\
    result_trades r <> [] /\
    (winning_trades r + losing_trades r = total_trades r)%nat /\
    losing_trades r = 0%nat /\
    profit_factor r = PInf /\ average_loss r = Fin 0 /\
    feq (win_rate r) (Fin 100).
Proof.
  destruct (run_backtest sqrt_approx sample_provider ["UP"] 0 54
                         (Fin 10000) (Fin 10) "momentum") as [|r] eqn:Hrun;
    [vm_compute in Hrun; discriminate|].
  assert (Hne : result_trades r <> []).
  { vm_compute in Hrun. injection Hrun as <-. discriminate. }
  exists r. split; [reflexivity|]. split; [exact Hne|].
  destruct (@win_loss_partition sqrt_approx sample_provider ["UP"] 0 54
              (Fin 10000) (Fin 10) "momentum" r Hrun Hne) as (H1 & H2 & H3).
  assert (H0 : losing_trades r = 0%nat).
  { vm_compute in Hrun. injection Hrun as <-. reflexivity. }
  split; [exact H1|]. split; [exact H0|]. exact (H3 H0).
Defined.

(** X19 at the run on the samples "UP" and "DOWN". *)
Lemma best_and_worst_trade_witness :
  exists r b w,
    run_backtest sqrt_approx sample_provider ["UP"; "DOWN"] 0 54
                 (Fin 10000) (Fin 10) "momentum" = Returned r /\
    result_trades r <> [] /\
    Forall (fun t => is_finite (return_percent t) = true) (result_trades r) /\
    best_trade r = Some b /\ worst_trade r = Some w /\
    symbol b = "UP" /\ symbol w = "DOWN" /\
    Forall (fun t => fle (return_percent w) (return_percent t) = true /\
                     fle (return_percent t) (return_percent b) = true)
           (result_trades r).
Proof.
  destruct (run_backtest sqrt_approx sample_provider ["UP"; "DOWN"] 0 54
                         (Fin 10000) (Fin 10) "momentum") as [|r] eqn:Hrun;
    [vm_compute in Hrun; discriminate|].
  assert (Hne : result_trades r <> []).
  { vm_compute in Hrun. injection Hrun as <-. discriminate. }
  assert (Hfin : Forall (fun t => is_finite (return_percent t) = true)
                        (result_trades r)).
  { vm_compute in Hrun. injection Hrun as <-. repeat constructor. }
  destruct (@best_and_worst_trade sqrt_approx sample_provider ["UP"; "DOWN"]
              0 54 (Fin 10000) (Fin 10) "momentum" r Hrun Hne Hfin)
    as (b & w & Hb & Hw & _ & _ & Hall).
  exists r, b, w. split; [reflexivity|]. split; [exact Hne|].
  split; [exact Hfin|]. split; [exact Hb|]. split; [exact Hw|].
  split; [|split; [|exact Hall]].
  - vm_compute in Hrun. injection Hrun as <-. vm_compute in Hb.
    injection Hb as <-. reflexivity.
  - vm_compute in Hrun. injection Hrun as <-. vm_compute in Hw.
    injection Hw as <-. reflexivity.
Defined.

(** X20 at the run on the sample "UP". *)
Lemma single_trade_run_witness :
  exists r t,
    run_backtest sqrt_approx sample_provider ["UP"] 0 54
                 (Fin 10000) (Fin 10) "momentum" = Returned r /\
    result_trades r = [t] /\
    total_trades r = 1%nat /\
    sharpe_ratio r = Fin 0 /\ max_drawdown_percent r = Fin 0 /\
    best_trade r = Some t /\ worst_trade r = Some t.
Proof.
  destruct (run_backtest sqrt_approx sample_provider ["UP"] 0 54
                         (Fin 10000) (Fin 10) "momentum") as [|r] eqn:Hrun;
    [vm_compute in Hrun; discriminate|].
  destruct (result_trades r) as [|t [|t' ts]] eqn:Ht;
    [vm_compute in Hrun; injection Hrun as <-; discriminate | |
     vm_compute in Hrun; injection Hrun as <-; discriminate].
  exists r, t. split; [reflexivity|]. split; [exact Ht|].
  destruct (@single_trade_run sqrt_approx sample_provider ["UP"] 0 54
              (Fin 10000) (Fin 10) "momentum" r t Hrun Ht)
    as (H1 & H2 & H3 & H4 & H5 & _).
  auto.
Defined.

(** X21 at sixteen closes rising by 1, with the square root to twelve
    places. *)
Lemma bollinger_bands_ordered_witness :
  let data := map Fin rising_closes in
  let bb := calculate_bollinger_bands sqrt_approx data 5 (Fin 2) in
  (forall q, 0 <= sqrt_approx q) /\ 0 <= 2 /\ 2 <= price_ceiling /\
  (2 <= 5)%nat /\ Forall ordinary_price data /\
  (10 < length data)%nat /\ (5 <= 11)%nat /\
  exists lo mid up,
    iloc (lower bb) 10 = Fin lo /\ iloc (middle bb) 10 = Fin mid /\
    iloc (upper bb) 10 = Fin up /\
    lo <= mid /\ mid <= up.
Proof.
  intros data bb.
  assert (H1 : forall q, 0 <= sqrt_approx q) by exact sqrt_approx_nonneg.
  assert (H2 : 0 <= 2) by lra.
  assert (H2' : 2 <= price_ceiling) by (vm_compute; discriminate).
  assert (H3 : (2 <= 5)%nat) by lia.
  assert (H4 : Forall ordinary_price data).
  { apply ordinary_prices, ordinary_by_computation. vm_compute. reflexivity. }
  assert (H5 : (10 < length data)%nat) by (vm_compute; lia).
  assert (H6 : (5 <= 11)%nat) by lia.
  repeat (split; [assumption|]).
  exact (@bollinger_bands_ordered sqrt_approx data 5 2 10
           H1 H2 H2' H3 H4 H5 H6).
Defined.

(** X23 at the twenty bars with the last close 10, for a "buy". *)
Lemma price_targets_witness :
  let df := frame_of levels_closes in
  let p := {| Prediction.action := "buy";
              Prediction.confidence := Fin 0.8;
              Prediction.current_price := Fin 10;
              Prediction.target_price := Fin 0;
              Prediction.stop_loss := Fin 0;
              Prediction.expected_return_percent := Fin 0;
              Prediction.technical_score := Fin 0.5;
              Prediction.sentiment_score := Fin 0.5;
              Prediction.llm_consensus_score := Fin 0.5 |} in
  let a := analyze sqrt_approx (fun _ => "") (fun _ => "") df "LVL" in
  let r := _calculate_price_targets p
             (TechnicalAnalysisResult.support_levels a)
             (TechnicalAnalysisResult.resistance_levels a) in
  iloc_neg (col_close df) 1 = Fin 10 /\
  Prediction.current_price p = Fin 10 /\ ordinary 10 /\
  flt (Prediction.stop_loss r) (Fin 10) = true /\
  fgt (Prediction.target_price r) (Fin 10) = true /\
  fgt (Prediction.expected_return_percent r) (Fin 0) = true.
Proof.
  intros df p a r.
  assert (H1 : iloc_neg (col_close df) 1 = Fin 10) by reflexivity.
  assert (H2 : Prediction.current_price p = Fin 10) by reflexivity.
  assert (H3 : ordinary 10) by (split; vm_compute; discriminate).
  repeat (split; [assumption|]).
  exact (proj1 (@price_targets_from_analysis sqrt_approx (fun _ => "")
                  (fun _ => "") df "LVL" p 10 H1 H2 H3) eq_refl).
Defined.

(** X24 at sixteen closes of 100: both trends are reported. *)
Lemma trend_patterns_witness :
  let df := frame_of constant_closes in
  col_close df = map Fin constant_closes /\
  (10 <= length constant_closes)%nat /\
  In "Short-term uptrend" (_detect_patterns df) /\
  In "Short-term downtrend" (_detect_patterns df).
Proof.
  intro df.
  assert (H1 : col_close df = map Fin constant_closes) by reflexivity.
  assert (H2 : (10 <= length constant_closes)%nat) by (vm_compute; lia).
  split; [exact H1|]. split; [exact H2|].
  destruct (@trend_patterns_of_last_five df constant_closes H1 H2)
    as (a & b & c & d & e & E & _ & _ & Hboth & _).
  apply Hboth. vm_compute in E. injection E as <- <- <- <- <-.
  repeat split; reflexivity.
Defined.


(** X26 at the sample "UP" and a history that differs from it on day 53. *)
Lemma no_lookahead_witness :
  let df1 := frame_of up_closes in
  let df2 := frame_of (repeat 100 52 ++ [120; 90])%list in
  (1 <= 53)%nat /\
  iloc_head 53 df1 = iloc_head 53 df2 /\
  state_before "UP" (calculate_all_indicators sqrt_approx df1)
               (Fin 1000) "momentum" 53
  = state_before "UP" (calculate_all_indicators sqrt_approx df2)
                 (Fin 1000) "momentum" 53.
Proof.
  intros df1 df2.
  assert (H1 : (1 <= 53)%nat) by lia.
  assert (H2 : iloc_head 53 df1 = iloc_head 53 df2) by (vm_compute; reflexivity).
  split; [exact H1|]. split; [exact H2|].
  exact (@simulation_has_no_lookahead sqrt_approx "UP" (Fin 1000) "momentum"
           df1 df2 53 H1 H2).
Defined.


(** X28 at the scores 0.8, 0.7 and 0.9 with a valid consensus on "buy". *)
Lemma final_prediction_ranges_witness :
  let p := {| Prediction.action := "";
              Prediction.confidence := Fin 0;
              Prediction.current_price := Fin 10;
              Prediction.target_price := Fin 0;
              Prediction.stop_loss := Fin 0;
              Prediction.expected_return_percent := Fin 0;
              Prediction.technical_score := Fin 0.8;
              Prediction.sentiment_score := Fin 0.7;
              Prediction.llm_consensus_score := Fin 0.9 |} in
  let tr := analyze sqrt_approx (fun _ => "") (fun _ => "")
                    (frame_of levels_closes) "LVL" in
  let llm := {| Consensus.successful_responses := 3;
                Consensus.agreement_level := Fin 0.8;
                Consensus.consensus_prediction := "buy" |} in
  let r := _calculate_final_prediction p tr llm in
  unit_score (Prediction.technical_score p) /\
  unit_score (Prediction.sentiment_score p) /\
  unit_score (Prediction.llm_consensus_score p) /\
  Prediction.action r = "buy" /\
  exists c, Prediction.confidence r = Fin c /\ 0.1 <= c /\ c <= 0.95.
Proof.
  intros p tr llm r.
  assert (H1 : unit_score (Prediction.technical_score p))
    by (eexists; split; [reflexivity | split; lra]).
  assert (H2 : unit_score (Prediction.sentiment_score p))
    by (eexists; split; [reflexivity | split; lra]).
  assert (H3 : unit_score (Prediction.llm_consensus_score p))
    by (eexists; split; [reflexivity | split; lra]).
  repeat (split; [assumption|]).
  split; [vm_compute; reflexivity|].
  exact (proj1 (proj2 (@final_prediction_ranges p tr llm H1 H2 H3))).
Defined.
